(** * RetirementCalc: the cost-of-living dataset scripts

    A shallow embedding of the batch scripts under [scripts/] that build
    and reshape the ZIP-level cost-of-living table, and the properties of
    the fallback join, the de-duplication, the writers and the optimizer.

    Conventions of the embedding.
    - A Python [float] is the rational it denotes ([num]); a missing cell
      of a pandas frame (NaN) is [None].
    - A Python [dict] is an association list in insertion order with the
      update-in-place behaviour of [d[k] = v].
    - A pandas frame is the list of its rows, the position in the list
      being the row's label where the index is a fresh [RangeIndex].
    - A file holds the list of chunks written to it so far. *)

From Stdlib Require Import List String Ascii Bool Arith ZArith QArith Lia.
From Stdlib Require Import DecimalString Qround Qabs Lqa.
From Stdlib Require Import FinFun Sorted OrderedTypeEx.
Import ListNotations.

Close Scope Q_scope.
Open Scope string_scope.

(** Python [float]. *)
Definition num : Type := Q.

(** ** Python builtins used by the scripts *)
Module Py.

(** [dict]: keys in insertion order. *)
Definition dict (V : Type) : Type := list (string * V).

Fixpoint get {V} (d : dict V) (k : string) : option V :=
  match d with
  | [] => None
  | (k', v) :: d' => if k' =? k then Some v else get d' k
  end.

(** [k in d] *)
Definition mem {V} (d : dict V) (k : string) : bool :=
  match get d k with Some _ => true | None => false end.

(** [d[k] = v]: an existing key keeps its place, a new one goes last. *)
Fixpoint set {V} (d : dict V) (k : string) (v : V) : dict V :=
  match d with
  | [] => [(k, v)]
  | (k', v') :: d' =>
      if k' =? k then (k', v) :: d' else (k', v') :: set d' k v
  end.

(** [d.get(k, dflt)] *)
Definition get_default {V} (d : dict V) (k : string) (dflt : V) : V :=
  match get d k with Some v => v | None => dflt end.

(** [d.keys()] and [d.items()] *)
Definition keys {V} (d : dict V) : list string := map fst d.
Definition items {V} (d : dict V) : list (string * V) := d.

(** The invariant of a [dict]: no key twice. *)
Definition wf {V} (d : dict V) : Prop := NoDup (keys d).

(** Truth value of a [str]. *)
Definition truthy (s : string) : bool := negb (s =? EmptyString).

Fixpoint zeros (n : nat) : string :=
  match n with O => EmptyString | S n' => String "0" (zeros n') end.

(** [s.zfill(width)]: zeros go after a leading sign. *)
Definition zfill (width : nat) (s : string) : string :=
  let n := String.length s in
  if Nat.leb width n then s
  else match s with
       | String c rest =>
           if (Ascii.eqb c "+" || Ascii.eqb c "-")%bool
           then String c (zeros (width - n) ++ rest)
           else zeros (width - n) ++ s
       | EmptyString => zeros width
       end.

(** [s[:n]] *)
Definition take (n : nat) (s : string) : string := substring 0 n s.

(** [s.replace(c, '')] for a one-character [c] *)
Fixpoint remove (c : ascii) (s : string) : string :=
  match s with
  | EmptyString => EmptyString
  | String a s' =>
      if Ascii.eqb a c then remove c s' else String a (remove c s')
  end.

(** [s.startswith(p)] *)
Definition startswith (s p : string) : bool := prefix p s.

Definition digit (c : ascii) : option Z :=
  let n := nat_of_ascii c in
  if (Nat.leb 48 n && Nat.leb n 57)%bool then Some (Z.of_nat (n - 48))
  else None.

Fixpoint read_decimal (s : string) (mantissa : Z) (scale : option positive)
    (seen : bool) : option num :=
  match s with
  | EmptyString =>
      if seen
      then Some (mantissa # match scale with Some p => p | None => 1 end)%Q
      else None
  | String c s' =>
      if Ascii.eqb c "."
      then match scale with
           | None => read_decimal s' mantissa (Some 1%positive) seen
           | Some _ => None
           end
      else match digit c with
           | Some d =>
               read_decimal s' (10 * mantissa + d)%Z
                            (option_map (Pos.mul 10) scale) true
           | None => None
           end
  end.

(** [float(s)] on a plain decimal numeral (sign, digits, one optional
    point); Python reads more forms than these. *)
Definition float_plain (s : string) : option num :=
  match s with
  | String "-" s' => option_map Qopp (read_decimal s' 0 None false)
  | String "+" s' => read_decimal s' 0 None false
  | _ => read_decimal s 0 None false
  end.

End Py.

(** ** pandas operations used by the scripts *)
Module Pandas.

(** [str(x)] of a cell: a missing cell prints as [nan]. *)
Definition str (c : option string) : string :=
  match c with Some s => s | None => "nan" end.

(** Stable sort by insertion, [le a b] meaning that [a] may stand
    before [b]; an element stays before the later ones it ties with. *)
Section Sort.
Context {A : Type} (le : A -> A -> bool).

Fixpoint insert (x : A) (l : list A) : list A :=
  match l with
  | [] => [x]
  | y :: l' => if le x y then x :: y :: l' else y :: insert x l'
  end.

Fixpoint sort (l : list A) : list A :=
  match l with
  | [] => []
  | x :: l' => insert x (sort l')
  end.
End Sort.

(** First non-missing value of a column ([GroupBy.first] skips NaN). *)
Fixpoint first_valid {A} (col : list (option A)) : option A :=
  match col with
  | [] => None
  | Some a :: _ => Some a
  | None :: col' => first_valid col'
  end.

(** Ascending order on a string column, missing values last. *)
Definition cmp_str_asc (a b : option string) : comparison :=
  match a, b with
  | Some x, Some y => String.compare x y
  | Some _, None => Lt
  | None, Some _ => Gt
  | None, None => Eq
  end.

(** Descending order on a numeric column, missing values last. *)
Definition cmp_num_desc (a b : option num) : comparison :=
  match a, b with
  | Some x, Some y => Qcompare y x
  | Some _, None => Lt
  | None, Some _ => Gt
  | None, None => Eq
  end.

(** Keys of the groups of [groupby]: distinct, missing keys dropped. *)
Fixpoint distinct (l : list string) : list string :=
  match l with
  | [] => []
  | x :: l' =>
      x :: filter (fun y => negb (y =? x)) (distinct l')
  end.

Fixpoint present {A} (l : list (option A)) : list A :=
  match l with
  | [] => []
  | Some a :: l' => a :: present l'
  | None :: l' => present l'
  end.

End Pandas.

(** ** The crosswalk frame and its de-duplication

    The frame read from the HUD archive with [dtype=str] for the text
    columns; both [build_lookup] and [generate_comprehensive_dataset]
    reduce it with the same two statements. *)
Module Crosswalk.

Record row : Type := mkRow {
  ZIP : option string;
  COUNTY : option string;
  STATE : option string;
  CBSA : option string;
  RES_RATIO : option num
}.

(** Row order of [sort_values(['ZIP', 'RES_RATIO'],
    ascending=[True, False])]. *)
Definition row_le (a b : row) : bool :=
  match Pandas.cmp_str_asc (ZIP a) (ZIP b) with
  | Lt => true
  | Gt => false
  | Eq =>
      match Pandas.cmp_num_desc (RES_RATIO a) (RES_RATIO b) with
      | Gt => false
      | _ => true
      end
  end.

Definition sort_values (df : list row) : list row :=
  Pandas.sort row_le df.

Definition in_group (k : string) (r : row) : bool :=
  match ZIP r with Some z => z =? k | None => false end.

(** One group of [groupby('ZIP')] reduced by [first()]: each column
    gives its first non-missing value. *)
Definition first (k : string) (group : list row) : row :=
  {| ZIP := Some k;
     COUNTY := Pandas.first_valid (map COUNTY group);
     STATE := Pandas.first_valid (map STATE group);
     CBSA := Pandas.first_valid (map CBSA group);
     RES_RATIO := Pandas.first_valid (map RES_RATIO group) |}.

(** [groupby('ZIP').first().reset_index()]: group keys ascending. *)
Definition groupby_first (df : list row) : list row :=
  map (fun k => first k (filter (in_group k) df))
      (Pandas.sort String.leb
         (Pandas.distinct (Pandas.present (map ZIP df)))).

(** "Keep only the highest residential ratio per ZIP". *)
Definition dedupe (df : list row) : list row :=
  groupby_first (sort_values df).

End Crosswalk.

(** The four-component dict literal [{'rpp_all': a, 'rpp_housing': h,
    'rpp_goods': g, 'rpp_other': o}]. *)
Definition rpp (a h g o : num) : Py.dict num :=
  [("rpp_all", a); ("rpp_housing", h); ("rpp_goods", g); ("rpp_other", o)].

(** The state estimates, the same literal in [generate_full_dataset.py]
    and in [build_enhanced_dataset.py]. *)
Definition state_estimates_table : Py.dict (Py.dict num) :=
  Eval cbv in
    ([
      ("AL", rpp 86.5 79.0 91.0 89.5);
      ("AK", rpp 125.0 140.0 118.0 120.0);
      ("AZ", rpp 97.0 98.0 96.5 98.0);
      ("AR", rpp 85.0 77.0 90.0 88.0);
      ("CA", rpp 142.0 189.0 114.5 127.5);
      ("CO", rpp 105.0 115.0 99.0 103.0);
      ("CT", rpp 115.0 135.0 105.0 112.0);
      ("DE", rpp 102.0 108.0 98.0 101.5);
      ("FL", rpp 96.0 96.0 96.5 97.0);
      ("GA", rpp 95.5 95.0 96.0 97.0);
      ("HI", rpp 150.0 195.0 125.0 135.0);
      ("ID", rpp 94.0 92.0 95.0 96.0);
      ("IL", rpp 108.0 120.0 101.0 106.0);
      ("IN", rpp 88.5 83.0 92.5 91.5);
      ("IA", rpp 90.0 85.5 93.0 92.5);
      ("KS", rpp 89.0 84.0 92.5 92.0);
      ("KY", rpp 88.0 82.0 92.0 91.0);
      ("LA", rpp 93.5 91.0 95.5 96.0);
      ("ME", rpp 105.5 113.0 100.0 104.5);
      ("MD", rpp 112.0 130.0 103.0 109.0);
      ("MA", rpp 117.5 141.0 105.5 114.5);
      ("MI", rpp 89.5 85.0 93.0 92.0);
      ("MN", rpp 102.0 109.5 96.5 101.0);
      ("MS", rpp 84.0 75.0 89.0 87.0);
      ("MO", rpp 90.5 86.0 93.5 93.0);
      ("MT", rpp 95.0 93.0 96.0 97.0);
      ("NE", rpp 91.0 87.0 93.5 93.5);
      ("NV", rpp 98.0 100.0 97.0 98.5);
      ("NH", rpp 103.0 110.0 99.0 102.0);
      ("NJ", rpp 120.0 150.0 107.0 116.0);
      ("NM", rpp 92.5 89.0 94.5 95.0);
      ("NY", rpp 125.0 165.0 109.0 118.0);
      ("NC", rpp 94.5 93.0 95.5 96.0);
      ("ND", rpp 96.0 94.0 97.0 98.0);
      ("OH", rpp 91.5 88.0 94.0 94.0);
      ("OK", rpp 87.0 80.0 91.5 90.0);
      ("OR", rpp 110.0 125.0 102.5 107.5);
      ("PA", rpp 108.5 118.0 102.0 107.0);
      ("RI", rpp 110.0 125.0 102.0 108.0);
      ("SC", rpp 95.0 94.0 95.5 96.5);
      ("SD", rpp 93.0 90.0 95.0 95.5);
      ("TN", rpp 87.5 81.0 92.0 90.5);
      ("TX", rpp 94.0 92.0 95.0 95.5);
      ("UT", rpp 98.5 101.0 97.5 99.0);
      ("VT", rpp 106.0 115.0 101.0 105.0);
      ("VA", rpp 99.0 104.5 95.0 99.5);
      ("WA", rpp 118.0 145.0 106.0 115.0);
      ("WV", rpp 86.0 78.0 91.0 89.0);
      ("WI", rpp 96.5 97.0 96.5 97.5);
      ("WY", rpp 92.0 88.0 94.0 94.5);
      ("DC", rpp 130.0 170.0 110.0 125.0)
    ])%Q.

(** One value of the structured lookup object: the float entries
    ([rpp_all], [rpp_housing], [rpp_goods], [rpp_other]) as the dict they
    form, followed by the entries [state] and [cbsa_code] ([None] is
    Python's [None], written as [null]). *)
Record zip_info : Type := mkInfo {
  rpp_data : Py.dict num;
  state : string;
  cbsa_code : option string
}.

Definition rpp_all (r : zip_info) : option num := Py.get (rpp_data r) "rpp_all".
Definition rpp_housing (r : zip_info) : option num :=
  Py.get (rpp_data r) "rpp_housing".
Definition rpp_goods (r : zip_info) : option num :=
  Py.get (rpp_data r) "rpp_goods".
Definition rpp_other (r : zip_info) : option num :=
  Py.get (rpp_data r) "rpp_other".

(** ** Exceptions, the JSON text and the files *)

Inductive exn : Type :=
| Exception (msg : string)
| RuntimeError (msg : string)
| KeyError (key : string)
| FileNotFoundError (path : string)
| ValueError (msg : string)
| OSError
| RequestException.

Inductive result (A : Type) : Type :=
| Ok (a : A)
| Raise (e : exn).
Arguments Ok {A} a.
Arguments Raise {A} e.

(** A JSON scalar and the rows of a CSV file. *)
Inductive scalar : Type :=
| Str (s : string)
| Num (q : num)
| Null.

(** What one [fp.write] appends.  [json.dump] writes the chunks its
    encoder yields: ["{}"], ["{"], ["}"], the item separator, the key
    separator and the literals; [to_csv] writes the header and the
    lines. *)
Inductive chunk : Type :=
| JEmpty
| JOpen
| JClose
| JSep
| JColon
| JLit (v : scalar)
| CsvHeader (columns : list string)
| CsvLine (cells : list scalar).

Module Json.

Section Encoder.
Context {V : Type} (encode : V -> list chunk).

(** The loop of [_iterencode_dict] over the items. *)
Fixpoint members (first : bool) (items : list (string * V)) : list chunk :=
  match items with
  | [] => []
  | (key, value) :: rest =>
      ((if first then [] else [JSep])
         ++ JLit (Str key) :: JColon :: encode value
         ++ members false rest)%list
  end.

Definition iterencode_dict (dct : Py.dict V) : list chunk :=
  match dct with
  | [] => [JEmpty]
  | _ => (JOpen :: members true (Py.items dct) ++ [JClose])%list
  end.
End Encoder.

Definition encode_scalar (v : scalar) : list chunk := [JLit v].

(** The dict a [zip_info] stands for. *)
Definition to_obj (r : zip_info) : Py.dict scalar :=
  (map (fun kv => (fst kv, Num (snd kv))) (rpp_data r)
     ++ [("state", Str (state r));
         ("cbsa_code",
          match cbsa_code r with Some c => Str c | None => Null end)])%list.

(** Chunks of [json.dump(final_data, f, separators=(',', ':'))]. *)
Definition iterencode (final_data : Py.dict zip_info) : list chunk :=
  iterencode_dict (fun r => iterencode_dict encode_scalar (to_obj r))
                  final_data.

Section Decoder.
Context {V : Type} (value : list chunk -> option (V * list chunk)).

(** Members of an object up to its closing brace; a repeated key keeps
    its last value. *)
Fixpoint parse_members (fuel : nat) (acc : Py.dict V) (ts : list chunk)
    : option (Py.dict V * list chunk) :=
  match fuel with
  | O => None
  | S fuel' =>
      match ts with
      | JLit (Str key) :: JColon :: ts1 =>
          match value ts1 with
          | Some (v, JSep :: ts2) =>
              parse_members fuel' (Py.set acc key v) ts2
          | Some (v, JClose :: ts2) => Some (Py.set acc key v, ts2)
          | _ => None
          end
      | _ => None
      end
  end.

Definition parse_dict (ts : list chunk)
    : option (Py.dict V * list chunk) :=
  match ts with
  | JEmpty :: rest => Some ([], rest)
  | JOpen :: JClose :: rest => Some ([], rest)
  | JOpen :: rest => parse_members (List.length rest) [] rest
  | _ => None
  end.
End Decoder.

Definition parse_scalar (ts : list chunk) : option (scalar * list chunk) :=
  match ts with
  | JLit v :: rest => Some (v, rest)
  | _ => None
  end.

(** [json.load] of a file holding an object of objects of scalars; a
    truncated or otherwise malformed text has no value. *)
Definition load (content : list chunk)
    : option (Py.dict (Py.dict scalar)) :=
  match parse_dict (parse_dict parse_scalar) content with
  | Some (d, []) => Some d
  | _ => None
  end.

Definition nums (o : Py.dict scalar) : Py.dict num :=
  flat_map (fun kv => match snd kv with
                      | Num q => [(fst kv, q)]
                      | _ => []
                      end) o.

(** A loaded object read through [data['rpp_...']], [data.get('state')]
    and [data.get('cbsa_code')].  Every builder writes a string under
    [state]; an object without one has no reading here. *)
Definition of_obj (o : Py.dict scalar) : option zip_info :=
  match Py.get o "state" with
  | Some (Str s) =>
      Some {| rpp_data := nums o;
              state := s;
              cbsa_code := match Py.get o "cbsa_code" with
                           | Some (Str c) => Some c
                           | _ => None
                           end |}
  | _ => None
  end.

Fixpoint of_objs (d : Py.dict (Py.dict scalar)) : option (Py.dict zip_info) :=
  match d with
  | [] => Some []
  | (k, o) :: d' =>
      match of_obj o, of_objs d' with
      | Some r, Some rest => Some ((k, r) :: rest)
      | _, _ => None
      end
  end.

Definition load_zip_data (content : list chunk) : option (Py.dict zip_info) :=
  match load content with
  | Some d => of_objs d
  | None => None
  end.

End Json.

(** The files, and how many more [write] calls the medium accepts
    ([None]: any number). *)
Record world : Type := mkWorld {
  files : Py.dict (list chunk);
  writes_left : option nat
}.

(** A computation that may raise and that changes the files. *)
Definition M (A : Type) : Type := world -> result A * world.

Definition ret {A} (a : A) : M A := fun w => (Ok a, w).
Definition raise {A} (e : exn) : M A := fun w => (Raise e, w).
Definition bind {A B} (c : M A) (k : A -> M B) : M B :=
  fun w => match c w with
           | (Ok a, w') => k a w'
           | (Raise e, w') => (Raise e, w')
           end.
Definition lift {A} (r : result A) : M A := fun w => (r, w).

Notation "x <- c ;; k" := (bind c (fun x => k))
  (at level 61, c at next level, right associativity).
Notation "c ;;; k" := (bind c (fun _ => k))
  (at level 61, right associativity).

Module File.

Definition exists_ (path : string) : M bool :=
  fun w => (Ok (Py.mem (files w) path), w).

(** [open(path, 'w')]: the file is created or truncated at once. *)
Definition open_w (path : string) : M unit :=
  fun w => (Ok tt, mkWorld (Py.set (files w) path []) (writes_left w)).

(** [fp.write(chunk)] *)
Definition write (path : string) (c : chunk) : M unit :=
  fun w =>
    match writes_left w with
    | Some O => (Raise OSError, w)
    | budget =>
        (Ok tt,
         mkWorld (Py.set (files w) path
                         (Py.get_default (files w) path [] ++ [c])%list)
                 (match budget with Some n => Some (pred n) | None => None end))
    end.

(** [for chunk in iterable: fp.write(chunk)] *)
Fixpoint write_all (path : string) (cs : list chunk) : M unit :=
  match cs with
  | [] => ret tt
  | c :: cs' => write path c ;;; write_all path cs'
  end.

(** [with open(path, 'w') as f: json.dump(data, f, separators=...)] *)
Definition dump_json (path : string) (data : Py.dict zip_info) : M unit :=
  open_w path ;;; write_all path (Json.iterencode data).

(** [with open(path, 'r') as f: return json.load(f)] *)
Definition load_json (path : string) : M (Py.dict zip_info) :=
  fun w =>
    match Py.get (files w) path with
    | None => (Raise (FileNotFoundError path), w)
    | Some content =>
        match Json.load_zip_data content with
        | Some d => (Ok d, w)
        | None => (Raise (ValueError "JSONDecodeError"), w)
        end
    end.

End File.

(** ** The reply of the statistical source *)
Module Bea.

(** The payload as the scripts inspect it: [data["BEAAPI"]], under it
    ["Results"], and under that [Error] or [Data]; [None] is an absent
    key. *)
Record results (R : Type) : Type := mkResults {
  Error : option (Py.dict string);
  Data : option (list R)
}.
Arguments mkResults {R}.
Arguments Error {R}.
Arguments Data {R}.

Record beaapi (R : Type) : Type := mkBeaapi {
  Results : option (results R)
}.
Arguments mkBeaapi {R}.
Arguments Results {R}.

Record payload (R : Type) : Type := mkPayload {
  BEAAPI : option (beaapi R)
}.
Arguments mkPayload {R}.
Arguments BEAAPI {R}.

(** ["BEAAPI" in data and "Results" in data["BEAAPI"]], and then
    [data["BEAAPI"]["Results"]]. *)
Definition results_of {R} (data : payload R) : option (results R) :=
  match BEAAPI data with
  | Some api => Results api
  | None => None
  end.

(** The outcome of [requests.get], [raise_for_status] and [json()]. *)
Definition reply (R : Type) : Type := result (payload R).

Definition error_reply {R} (description : string) : reply R :=
  Ok (mkPayload (Some (mkBeaapi (Some
        (mkResults (Some [("APIErrorDescription", description)]) None))))).

Definition data_reply {R} (rows : list R) : reply R :=
  Ok (mkPayload (Some (mkBeaapi (Some (mkResults None (Some rows)))))).

Definition unrecognized_reply {R} : reply R := Ok (mkPayload None).

End Bea.

(** ** generate_full_dataset.py: the fallback join *)
Module GenerateFull.

Definition state_estimates : Py.dict (Py.dict num) := state_estimates_table.

(** Which of the three counters the row increments. *)
Inductive provenance : Type := matched_cbsa | matched_state | estimated.

Definition national_average : Py.dict num :=
  rpp 100.0%Q 100.0%Q 100.0%Q 100.0%Q.

(** The [if]/[elif] chain choosing [rpp_data]. *)
Definition lookup_rpp (rpp_lookup : Py.dict (Py.dict num))
    (cbsa_code : option string) (county_fips state : string)
    : provenance * Py.dict num :=
  let after_cbsa :=
    match Py.get rpp_lookup (Py.take 2 county_fips) with
    | Some d => (matched_state, d)
    | None =>
        match Py.get state_estimates state with
        | Some d => (estimated, d)
        | None => (estimated, national_average)
        end
    end in
  match cbsa_code with
  | Some c =>
      if Py.truthy c then
        match Py.get rpp_lookup c with
        | Some d => (matched_cbsa, d)
        | None => after_cbsa
        end
      else after_cbsa
  | None => after_cbsa
  end.

(** The locals of one iteration. *)
Definition zip_code_of (r : Crosswalk.row) : string :=
  Py.zfill 5 (Pandas.str (Crosswalk.ZIP r)).
Definition state_of (r : Crosswalk.row) : string :=
  Pandas.str (Crosswalk.STATE r).
Definition county_fips_of (r : Crosswalk.row) : string :=
  Py.zfill 5 (Pandas.str (Crosswalk.COUNTY r)).
Definition cbsa_code_of (r : Crosswalk.row) : option string :=
  Crosswalk.CBSA r.

Definition resolve (rpp_lookup : Py.dict (Py.dict num))
    (r : Crosswalk.row) : provenance * Py.dict num :=
  lookup_rpp rpp_lookup (cbsa_code_of r) (county_fips_of r) (state_of r).

(** [final_rpp]: "Ensure all required fields are present". *)
Definition final_rpp (rpp_data : Py.dict num) (state : string)
    (cbsa_code : option string) : zip_info :=
  {| rpp_data :=
       rpp (Py.get_default rpp_data "rpp_all" 100.0%Q)
           (Py.get_default rpp_data "rpp_housing" 100.0%Q)
           (Py.get_default rpp_data "rpp_goods" 100.0%Q)
           (Py.get_default rpp_data "rpp_other" 100.0%Q);
     state := state;
     cbsa_code := cbsa_code |}.

Definition resolved (rpp_lookup : Py.dict (Py.dict num))
    (r : Crosswalk.row) : zip_info :=
  final_rpp (snd (resolve rpp_lookup r)) (state_of r) (cbsa_code_of r).

(** The loop state: the output dict and the three counters. *)
Record join_state : Type := mkJoin {
  final_data : Py.dict zip_info;
  n_matched_cbsa : nat;
  n_matched_state : nat;
  n_estimated : nat
}.

Definition join_init : join_state := mkJoin [] 0 0 0.

Definition bump (p : provenance) (s : join_state) : join_state :=
  match p with
  | matched_cbsa =>
      mkJoin (final_data s) (S (n_matched_cbsa s)) (n_matched_state s)
             (n_estimated s)
  | matched_state =>
      mkJoin (final_data s) (n_matched_cbsa s) (S (n_matched_state s))
             (n_estimated s)
  | estimated =>
      mkJoin (final_data s) (n_matched_cbsa s) (n_matched_state s)
             (S (n_estimated s))
  end.

(** Body of [for _, row in zip_df.iterrows()]. *)
Definition join_step (rpp_lookup : Py.dict (Py.dict num))
    (s : join_state) (r : Crosswalk.row) : join_state :=
  let s' := bump (fst (resolve rpp_lookup r)) s in
  mkJoin (Py.set (final_data s') (zip_code_of r) (resolved rpp_lookup r))
         (n_matched_cbsa s') (n_matched_state s') (n_estimated s').

(** Step 5 of [generate_comprehensive_dataset]: de-duplicate the
    crosswalk, then resolve every remaining row. *)
Definition join (rpp_lookup : Py.dict (Py.dict num))
    (zip_df : list Crosswalk.row) : join_state :=
  fold_left (join_step rpp_lookup) (Crosswalk.dedupe zip_df) join_init.

(** *** The run: fetching, processing, writing *)

(** One record of the BEA [Data] array, through [row.get(...)] and
    [str]. *)
Record bea_row : Type := mkBea {
  GeoFips : string;
  LineCode : string;
  DataValue : string
}.

(** The body of the [try] of [fetch_bea_data]. *)
Definition fetch_bea_data_try (r : Bea.reply bea_row)
    : result (list bea_row) :=
  match r with
  | Raise e => Raise e
  | Ok data =>
      match Bea.results_of data with
      | Some res =>
          match Bea.Error res with
          | Some error => Raise (Exception "BEA API Error")
          | None =>
              match Bea.Data res with
              | Some records => Ok records
              | None => Raise (KeyError "Data")
              end
          end
      | None => Raise (Exception "Invalid BEA API response structure")
      end
  end.

(** [fetch_bea_data]: [except Exception] prints the error and returns
    an empty frame. *)
Definition fetch_bea_data (r : Bea.reply bea_row) : list bea_row :=
  match fetch_bea_data_try r with
  | Ok df => df
  | Raise _ => []
  end.

Section Process.

(** Python's [float(s)] on text; [None] is [ValueError]. *)
Variable float : string -> option num.

(** "Map line codes to RPP components", after the entry of the geography
    has been created when it was missing. *)
Definition store (rpp_lookup : Py.dict (Py.dict num))
    (geo_fips line_code : string) (value : num) : Py.dict (Py.dict num) :=
  let rpp_lookup :=
    if Py.mem rpp_lookup geo_fips then rpp_lookup
    else Py.set rpp_lookup geo_fips [] in
  let components := Py.get_default rpp_lookup geo_fips [] in
  if line_code =? "1" then
    Py.set rpp_lookup geo_fips (Py.set components "rpp_all" value)
  else if line_code =? "2" then
    Py.set rpp_lookup geo_fips (Py.set components "rpp_goods" value)
  else if line_code =? "3" then
    Py.set rpp_lookup geo_fips (Py.set components "rpp_housing" value)
  else if line_code =? "4" then
    Py.set rpp_lookup geo_fips (Py.set components "rpp_other" value)
  else rpp_lookup.

(** One iteration over a BEA frame, [width] being 2 for the state table
    and 5 for the metro table. *)
Definition process_row (width : nat) (rpp_lookup : Py.dict (Py.dict num))
    (row : bea_row) : Py.dict (Py.dict num) :=
  let geo_fips := Py.zfill width (GeoFips row) in
  let line_code := LineCode row in
  let data_value := DataValue row in
  if (Py.truthy geo_fips && Py.truthy line_code
      && negb (data_value =? "(NA)"))%bool
  then match float (Py.remove "," data_value) with
       | Some value => store rpp_lookup geo_fips line_code value
       | None => rpp_lookup
       end
  else rpp_lookup.

(** [process_rpp_data]; an empty frame contributes nothing. *)
Definition process_rpp_data (state_df msa_df : list bea_row)
    : Py.dict (Py.dict num) :=
  fold_left (process_row 5) msa_df (fold_left (process_row 2) state_df []).

(** [generate_comprehensive_dataset]; [hud] is the frame read from
    the downloaded archive, or the exception of that step.  The
    directory [public] is made where it is missing and the first file
    is written; [mkdir(exist_ok=True)] of [src/data] then needs [src]:
    [src_dir] tells whether it exists. *)
Definition generate_comprehensive_dataset
    (state_reply msa_reply : Bea.reply bea_row)
    (hud : result (list Crosswalk.row)) (src_dir : bool)
    : M (Py.dict zip_info) :=
  let state_rpp := fetch_bea_data state_reply in
  let msa_rpp := fetch_bea_data msa_reply in
  let rpp_lookup := process_rpp_data state_rpp msa_rpp in
  zip_df <- lift hud ;;
  let final_data := final_data (join rpp_lookup zip_df) in
  File.dump_json "public/col_by_zip.json" final_data ;;;
  (if src_dir then ret tt else raise (FileNotFoundError "src/data")) ;;;
  File.dump_json "src/data/col_by_zip.json" final_data ;;;
  ret final_data.

(** [__main__]: the exit status of the process and the files left.  The
    two comparisons after the call read the result with [.get] and a
    default, and cannot raise. *)
Definition main (state_reply msa_reply : Bea.reply bea_row)
    (hud : result (list Crosswalk.row)) (src_dir : bool) (w : world)
    : nat * world :=
  match generate_comprehensive_dataset state_reply msa_reply hud src_dir w
  with
  | (Ok _, w') => (0, w')
  | (Raise _, w') => (1, w')
  end.

End Process.

End GenerateFull.

(** ** build_cost_of_living_dataset.py *)
Module BuildLookup.

Definition OUTPUT_CSV : string := "data/col_by_zip.csv".

(** [bea_request], after the HTTP exchange. *)
Definition bea_request {R} (r : Bea.reply R) : result (list R) :=
  match r with
  | Raise e => Raise e
  | Ok response_data =>
      match Bea.results_of response_data with
      | Some results =>
          match Bea.Error results with
          | Some error_info =>
              Raise (RuntimeError
                       ("BEA API Error: "
                          ++ Py.get_default error_info "APIErrorDescription"
                                            "Unknown error"))
          | None =>
              match Bea.Data results with
              | Some data => Ok data
              | None => Raise (RuntimeError "No data in BEA response.")
              end
          end
      | None => Raise (RuntimeError "Invalid BEA API response structure")
      end
  end.

(** [load_rpp]: the metro table, then the state table, concatenated. *)
Definition load_rpp {R} (msa_reply state_reply : Bea.reply R)
    : result (list R) :=
  match bea_request msa_reply with
  | Raise e => Raise e
  | Ok msa_data =>
      match bea_request state_reply with
      | Raise e => Raise e
      | Ok state_data => Ok (msa_data ++ state_data)%list
      end
  end.

(** A record of the BEA frame, with the columns [build_lookup] reads
    from it. *)
Record rpp_row : Type := mkRpp {
  geo : option string;
  rpp_all : option num;
  rpp_housing : option num;
  rpp_goods : option num;
  rpp_other : option num
}.

(** A row of [zip_df] and of [need_state]. *)
Record zip_row : Type := mkZip {
  ZIP : option string;
  COUNTY : option string;
  STATE : option string;
  CBSA : option string;
  RES_RATIO : option num;
  z_geo : option string;
  z_rpp_all : option num;
  z_rpp_housing : option num;
  z_rpp_goods : option num;
  z_rpp_other : option num
}.

(** Equality of merge keys: two missing keys match each other. *)
Definition key_eqb (a b : option string) : bool :=
  match a, b with
  | Some x, Some y => x =? y
  | None, None => true
  | _, _ => false
  end.

(** [rpp["geo"] = rpp["geo"].str.zfill(5)]; a frame built from no
    record has no column [geo]. *)
Definition zfill_geo (rpp : list rpp_row) : result (list rpp_row) :=
  match rpp with
  | [] => Raise (KeyError "geo")
  | _ =>
      Ok (map (fun g => mkRpp (option_map (Py.zfill 5) (geo g))
                              (rpp_all g) (rpp_housing g) (rpp_goods g)
                              (rpp_other g)) rpp)
  end.

Definition attach (x : Crosswalk.row) (g : option rpp_row) : zip_row :=
  {| ZIP := Crosswalk.ZIP x;
     COUNTY := Crosswalk.COUNTY x;
     STATE := Crosswalk.STATE x;
     CBSA := Crosswalk.CBSA x;
     RES_RATIO := Crosswalk.RES_RATIO x;
     z_geo := match g with Some g => geo g | None => None end;
     z_rpp_all := match g with Some g => rpp_all g | None => None end;
     z_rpp_housing := match g with Some g => rpp_housing g | None => None end;
     z_rpp_goods := match g with Some g => rpp_goods g | None => None end;
     z_rpp_other := match g with Some g => rpp_other g | None => None end |}.

(** [xwalk.merge(rpp, left_on="CBSA", right_on="geo", how="left")] *)
Definition merge_cbsa (xwalk : list Crosswalk.row) (rpp : list rpp_row)
    : list zip_row :=
  flat_map (fun x =>
    match filter (fun g => key_eqb (Crosswalk.CBSA x) (geo g)) rpp with
    | [] => [attach x None]
    | matches => map (fun g => attach x (Some g)) matches
    end) xwalk.

(** [need_state["state_fips"] = need_state["COUNTY"].str[:2]] *)
Definition state_fips (n : zip_row) : option string :=
  option_map (Py.take 2) (COUNTY n).

(** [rpp[rpp["geo"].str.len() == 2]] *)
Definition state_rpp (rpp : list rpp_row) : list rpp_row :=
  filter (fun g => match geo g with
                   | Some s => Nat.eqb (String.length s) 2
                   | None => false
                   end) rpp.

(** The row of [need_state] with the components of a state record in
    place of the dropped ones. *)
Definition refill (n : zip_row) (g : option rpp_row) : zip_row :=
  {| ZIP := ZIP n; COUNTY := COUNTY n; STATE := STATE n; CBSA := CBSA n;
     RES_RATIO := RES_RATIO n; z_geo := z_geo n;
     z_rpp_all := match g with Some g => rpp_all g | None => None end;
     z_rpp_housing := match g with Some g => rpp_housing g | None => None end;
     z_rpp_goods := match g with Some g => rpp_goods g | None => None end;
     z_rpp_other := match g with Some g => rpp_other g | None => None end |}.

(** [need_state.merge(state_rpp, on="state_fips", how="left")] *)
Definition merge_state (need_state : list zip_row)
    (state_rpp : list rpp_row) : list zip_row :=
  flat_map (fun n =>
    match filter (fun g => key_eqb (state_fips n) (geo g)) state_rpp with
    | [] => [refill n None]
    | matches => map (fun g => refill n (Some g)) matches
    end) need_state.

Definition update_cell {A} (this that : option A) : option A :=
  match that with Some v => Some v | None => this end.

Definition update_row (this that : zip_row) : zip_row :=
  {| ZIP := update_cell (ZIP this) (ZIP that);
     COUNTY := update_cell (COUNTY this) (COUNTY that);
     STATE := update_cell (STATE this) (STATE that);
     CBSA := update_cell (CBSA this) (CBSA that);
     RES_RATIO := update_cell (RES_RATIO this) (RES_RATIO that);
     z_geo := update_cell (z_geo this) (z_geo that);
     z_rpp_all := update_cell (z_rpp_all this) (z_rpp_all that);
     z_rpp_housing := update_cell (z_rpp_housing this) (z_rpp_housing that);
     z_rpp_goods := update_cell (z_rpp_goods this) (z_rpp_goods that);
     z_rpp_other := update_cell (z_rpp_other this) (z_rpp_other that) |}.

(** [zip_df.update(other)]: the non-missing cells of [other] replace
    those of the row with the same label; both frames come out of
    [merge], so the label is the position. *)
Fixpoint update (zip_df other : list zip_row) : list zip_row :=
  match zip_df, other with
  | this :: zip_df', that :: other' =>
      update_row this that :: update zip_df' other'
  | _, _ => zip_df
  end.

Definition isna {A} (c : option A) : bool :=
  match c with Some _ => false | None => true end.

(** A row of the written table. *)
Record out_row : Type := mkOut {
  zip : option string;
  state : option string;
  county_fips : option string;
  cbsa_code : option string;
  o_rpp_all : option num;
  o_rpp_housing : option num;
  o_rpp_goods : option num;
  o_rpp_other : option num
}.

(** The column selection and renaming of the "final tidy". *)
Definition tidy (z : zip_row) : out_row :=
  {| zip := ZIP z; state := STATE z; county_fips := COUNTY z;
     cbsa_code := CBSA z; o_rpp_all := z_rpp_all z;
     o_rpp_housing := z_rpp_housing z; o_rpp_goods := z_rpp_goods z;
     o_rpp_other := z_rpp_other z |}.

(** Step 3 of [build_lookup], from the de-duplication to [dropna]. *)
Definition join (xwalk : list Crosswalk.row) (rpp : list rpp_row)
    : list out_row :=
  let xwalk := Crosswalk.dedupe xwalk in
  let zip_df := merge_cbsa xwalk rpp in
  let need_state := filter (fun z => isna (z_rpp_all z)) zip_df in
  let zip_df :=
    match need_state with
    | [] => zip_df
    | _ => update zip_df (merge_state need_state (state_rpp rpp))
    end in
  let out := map tidy zip_df in
  filter (fun o => negb (isna (o_rpp_all o))) out.

Definition cell_str (c : option string) : scalar :=
  match c with Some s => Str s | None => Null end.
Definition cell_num (c : option num) : scalar :=
  match c with Some q => Num q | None => Null end.

(** [out.to_csv(OUTPUT_CSV, index=False)] *)
Definition to_csv (path : string) (out : list out_row) : M unit :=
  File.open_w path ;;;
  File.write_all path
    (CsvHeader ["zip"; "state"; "county_fips"; "cbsa_code"; "rpp_all";
                "rpp_housing"; "rpp_goods"; "rpp_other"]
     :: map (fun o => CsvLine [cell_str (zip o); cell_str (state o);
                               cell_str (county_fips o);
                               cell_str (cbsa_code o);
                               cell_num (o_rpp_all o);
                               cell_num (o_rpp_housing o);
                               cell_num (o_rpp_goods o);
                               cell_num (o_rpp_other o)]) out).

(** [build_lookup]; [hud] is the frame read from the downloaded
    archive, or the exception of that step.  [BEA_API_KEY] falls back
    to a literal, so the credential check never raises. *)
Definition build_lookup (msa_reply state_reply : Bea.reply rpp_row)
    (hud : result (list Crosswalk.row)) : M (list out_row) :=
  rpp <- lift (load_rpp msa_reply state_reply) ;;
  xwalk <- lift hud ;;
  rpp <- lift (zfill_geo rpp) ;;
  let out := join xwalk rpp in
  to_csv OUTPUT_CSV out ;;;
  ret out.

(** [__main__]: the exit status of the process and the files left. *)
Definition main (msa_reply state_reply : Bea.reply rpp_row)
    (hud : result (list Crosswalk.row)) (w : world) : nat * world :=
  match build_lookup msa_reply state_reply hud w with
  | (Ok _, w') => (0, w')
  | (Raise _, w') => (1, w')
  end.

End BuildLookup.

(** ** build_enhanced_dataset.py *)
Module BuildEnhanced.

(** [f"{i:03d}"] and [f"{i:02d}"] for the loop counters. *)
Definition fmt_0d (width i : nat) : string :=
  Py.zfill width (NilEmpty.string_of_uint (Nat.to_uint i)).

Definition state_zip_ranges : Py.dict (list string) :=
  [
    ("MA", ["01"; "02"]);
    ("RI", ["02"]);
    ("NH", ["03"]);
    ("ME", ["04"]);
    ("VT", ["05"]);
    ("CT", ["06"]);
    ("NJ", ["07"; "08"]);
    ("NY", ["10"; "11"; "12"; "13"; "14"]);
    ("PA", ["15"; "16"; "17"; "18"; "19"]);
    ("DE", ["19"]);
    ("MD", ["20"; "21"]);
    ("DC", ["20"]);
    ("VA", ["22"; "23"; "24"]);
    ("WV", ["24"; "25"; "26"]);
    ("NC", ["27"; "28"]);
    ("SC", ["29"]);
    ("GA", ["30"; "31"]);
    ("FL", ["32"; "33"; "34"]);
    ("AL", ["35"; "36"]);
    ("TN", ["37"; "38"]);
    ("MS", ["38"; "39"]);
    ("KY", ["40"; "41"; "42"]);
    ("OH", ["43"; "44"; "45"]);
    ("MI", ["48"; "49"]);
    ("WI", ["53"; "54"]);
    ("IA", ["50"; "51"; "52"]);
    ("MN", ["55"; "56"]);
    ("SD", ["57"]);
    ("ND", ["58"]);
    ("MT", ["59"]);
    ("IL", ["60"; "61"; "62"]);
    ("MO", ["63"; "64"; "65"]);
    ("KS", ["66"; "67"]);
    ("NE", ["68"; "69"]);
    ("LA", ["70"; "71"]);
    ("AR", ["71"; "72"]);
    ("OK", ["73"; "74"]);
    ("TX", ["75"; "76"; "77"; "78"; "79"]);
    ("CO", ["80"; "81"]);
    ("WY", ["82"; "83"]);
    ("UT", ["84"]);
    ("ID", ["83"]);
    ("AZ", ["85"; "86"]);
    ("NV", ["89"]);
    ("CA", ["90"; "91"; "92"; "93"; "94"; "95"; "96"]);
    ("OR", ["97"]);
    ("WA", ["98"]);
    ("AK", ["99"]);
    ("HI", ["96"])
  ].

(** The triple loop of [download_zip_to_state_mapping]; a prefix listed
    under two states ends with the later one. *)
Definition download_zip_to_state_mapping : Py.dict string :=
  fold_left (fun zip_to_state '(state, prefixes) =>
    fold_left (fun zip_to_state prefix =>
      fold_left (fun zip_to_state i =>
        Py.set zip_to_state (prefix ++ fmt_0d 3 i) state)
        (seq 0 1000) zip_to_state)
      prefixes zip_to_state)
    (Py.items state_zip_ranges) [].

Definition metro_rpp_table : Py.dict (Py.dict num) :=
  Eval cbv in
  ([
    ("NYC", rpp 125.6 168.5 109.2 118.3);
    ("SF", rpp 172.3 241.8 119.4 142.1);
    ("LA", rpp 142.3 189.2 114.6 127.8);
    ("DC", rpp 135.2 178.4 112.3 123.9);
    ("Boston", rpp 117.5 141.2 105.8 114.6);
    ("Seattle", rpp 118.7 145.3 106.2 115.9);
    ("Chicago", rpp 108.9 124.5 101.8 106.7);
    ("Philadelphia", rpp 106.2 118.9 98.7 103.8);
    ("Miami", rpp 111.4 135.8 102.3 108.9);
    ("Denver", rpp 104.8 115.7 99.2 102.9);
    ("Portland", rpp 109.8 125.6 102.1 107.3);
    ("Atlanta", rpp 94.7 98.9 91.8 96.5);
    ("Phoenix", rpp 98.3 108.4 94.1 99.2);
    ("Dallas", rpp 95.8 102.1 92.4 97.2);
    ("Houston", rpp 92.1 95.8 89.7 93.4);
    ("Nashville", rpp 91.2 94.8 88.9 93.1);
    ("Charlotte", rpp 94.1 97.8 91.2 95.4);
    ("Orlando", rpp 97.8 105.9 93.4 98.2);
    ("Las Vegas", rpp 102.4 114.2 98.3 101.9);
    ("Columbus", rpp 92.1 89.7 90.8 94.3);
    ("Indianapolis", rpp 89.3 87.2 88.1 91.6);
    ("Milwaukee", rpp 96.7 101.2 93.8 97.9);
    ("Birmingham", rpp 86.7 83.9 85.4 89.2);
    ("Oklahoma City", rpp 87.4 85.2 86.9 89.8);
    ("Kansas City", rpp 88.9 86.4 87.8 91.5)
  ])%Q.

Definition metro_zip_mappings : Py.dict (list string) :=
  [
    ("NYC", ["100"; "101"; "102"; "103"; "104"; "105"; "106"; "107";
       "108"; "109"; "110"; "111"; "112"; "113"; "114"; "115"; "116";
       "117"; "118"; "119"]);
    ("SF", ["940"; "941"; "942"; "943"; "944"; "945"; "946"; "947"; "948";
       "949"]);
    ("LA", ["900"; "901"; "902"; "903"; "904"; "905"; "906"; "907"; "908";
       "909"; "910"; "911"]);
    ("DC", ["200"; "201"; "202"; "203"; "204"; "205"; "220"; "221"; "222";
       "223"; "224"]);
    ("Boston", ["021"; "022"; "023"; "024"; "025"]);
    ("Seattle", ["980"; "981"; "982"; "983"; "984"]);
    ("Chicago", ["606"; "607"; "608"; "609"; "600"; "601"; "602"; "603";
       "604"; "605"]);
    ("Philadelphia", ["190"; "191"; "192"; "193"; "194"; "195"]);
    ("Miami", ["330"; "331"; "332"; "333"; "334"; "335"]);
    ("Denver", ["802"; "803"; "804"; "805"]);
    ("Portland", ["972"; "973"; "974"; "975"]);
    ("Atlanta", ["303"; "304"; "305"; "306"; "307"]);
    ("Phoenix", ["850"; "851"; "852"; "853"; "854"]);
    ("Dallas", ["752"; "753"; "754"; "755"; "756"]);
    ("Houston", ["770"; "771"; "772"; "773"; "774"; "775"]);
    ("Nashville", ["372"; "373"; "374"; "375"]);
    ("Charlotte", ["282"; "283"; "284"]);
    ("Orlando", ["328"; "329"; "327"]);
    ("Las Vegas", ["891"; "892"; "893"; "894"; "895"]);
    ("Columbus", ["432"; "433"; "434"]);
    ("Indianapolis", ["462"; "463"; "464"; "465"; "466"]);
    ("Milwaukee", ["532"; "533"; "534"]);
    ("Birmingham", ["352"; "353"]);
    ("Oklahoma City", ["731"; "732"; "733"]);
    ("Kansas City", ["640"; "641"; "642"])
  ].

(** [get_metro_rpp_data]: every ZIP of a listed prefix gets a copy of
    its metro's four values. *)
Definition get_metro_rpp_data : Py.dict (Py.dict num) :=
  fold_left (fun zip_to_rpp '(metro, rpp_data) =>
    match Py.get metro_zip_mappings metro with
    | Some prefixes =>
        fold_left (fun zip_to_rpp zip_prefix =>
          fold_left (fun zip_to_rpp i =>
            Py.set zip_to_rpp (zip_prefix ++ fmt_0d 2 i) rpp_data)
            (seq 0 100) zip_to_rpp)
          prefixes zip_to_rpp
    | None => zip_to_rpp
    end)
    (Py.items metro_rpp_table) [].

Definition get_state_estimates : Py.dict (Py.dict num) :=
  state_estimates_table.

(** The branch taken for one ZIP; the script counts the last two
    together in [state_matches]. *)
Inductive tier : Type := metro | state_estimate | national.

(** The [if]/[elif]/[else] of the loop body: the branch and the value
    stored under [zip_code]. *)
Definition resolve (metro_rpp state_estimates : Py.dict (Py.dict num))
    (zip_code state : string) : tier * zip_info :=
  match Py.get metro_rpp zip_code with
  | Some d =>
      (metro,
       {| rpp_data := d;
          state := state;
          cbsa_code := Some ("METRO_" ++ Py.take 3 zip_code) |})
  | None =>
      match Py.get state_estimates state with
      | Some d =>
          (state_estimate,
           {| rpp_data := d; state := state; cbsa_code := None |})
      | None =>
          (national,
           {| rpp_data := rpp 100.0%Q 100.0%Q 100.0%Q 100.0%Q;
              state := state;
              cbsa_code := None |})
      end
  end.

Record build_state : Type := mkBuild {
  final_data : Py.dict zip_info;
  metro_matches : nat;
  state_matches : nat
}.

(** Body of [for zip_code, state in zip_to_state.items()]. *)
Definition build_step (metro_rpp state_estimates : Py.dict (Py.dict num))
    (s : build_state) (kv : string * string) : build_state :=
  let '(zip_code, state) := kv in
  let '(t, data) := resolve metro_rpp state_estimates zip_code state in
  let final_data' := Py.set (final_data s) zip_code data in
  match t with
  | metro => mkBuild final_data' (S (metro_matches s)) (state_matches s)
  | _ => mkBuild final_data' (metro_matches s) (S (state_matches s))
  end.

(** The loop of [build_comprehensive_dataset] over given tables. *)
Definition build (zip_to_state : Py.dict string)
    (metro_rpp state_estimates : Py.dict (Py.dict num)) : build_state :=
  fold_left (build_step metro_rpp state_estimates)
            (Py.items zip_to_state) (mkBuild [] 0 0).

(** [build_comprehensive_dataset], up to the writing of the files. *)
Definition build_comprehensive_dataset : build_state :=
  build download_zip_to_state_mapping get_metro_rpp_data
        get_state_estimates.

(** The rest of [build_comprehensive_dataset]: the two directories, then
    the two files.  [mkdir(exist_ok=True)] makes [public] and then
    [src/data], which needs [src]: [src_dir] tells whether it exists. *)
Definition write_files (src_dir : bool) (final_data : Py.dict zip_info)
    : M (Py.dict zip_info) :=
  (if src_dir then ret tt else raise (FileNotFoundError "src/data")) ;;;
  File.dump_json "public/col_by_zip.json" final_data ;;;
  File.dump_json "src/data/col_by_zip.json" final_data ;;;
  ret final_data.

(** [__main__]: the exit status of the process and the files left. *)
Definition main (src_dir : bool) (w : world) : nat * world :=
  match write_files src_dir (final_data build_comprehensive_dataset) w with
  | (Ok _, w') => (0, w')
  | (Raise _, w') => (1, w')
  end.

End BuildEnhanced.
(** ** csv_to_json.py *)
Module CsvToJson.

(** [round(x, 2)] on the value as the decimal it is written as: the
    nearest multiple of 0.01, an exact tie going to the even one.
    Python rounds the double nearest to that decimal, so the two can
    differ where the decimal is itself a tie at the third place: 2.675
    is stored just below the tie and gives 2.67. *)
Definition round2 (x : num) : num :=
  let n := (x * inject_Z 100)%Q in
  let f := Qfloor n in
  let m :=
    match Qcompare (n - inject_Z f)%Q (1 # 2)%Q with
    | Lt => f
    | Gt => (f + 1)%Z
    | Eq => if Z.even f then f else (f + 1)%Z
    end in
  (m # 100)%Q.

(** A row of the frame read from the CSV file, through [str(...)] for
    the text cells and [float(...)] for the numeric ones. *)
Record csv_row : Type := mkCsv {
  zip : string;
  state : string;
  cbsa_code : option string;
  rpp_all : num;
  rpp_housing : num;
  rpp_goods : num;
  rpp_other : num
}.

(** The value built for one row. *)
Definition convert (row : csv_row) : zip_info :=
  mkInfo (rpp (round2 (rpp_all row)) (round2 (rpp_housing row))
              (round2 (rpp_goods row)) (round2 (rpp_other row)))
         (state row) (cbsa_code row).

(** The loop filling [zip_data]. *)
Definition to_zip_data (df : list csv_row) : Py.dict zip_info :=
  fold_left (fun zip_data row =>
               Py.set zip_data (Py.zfill 5 (zip row)) (convert row))
            df [].

(** [csv_to_json]; [df] is what [pd.read_csv] makes of the CSV file. *)
Definition csv_to_json (df : list csv_row) : M (Py.dict zip_info) :=
  found <- File.exists_ "data/col_by_zip.csv" ;;
  if found then
    let zip_data := to_zip_data df in
    File.dump_json "public/col_by_zip.json" zip_data ;;;
    File.dump_json "src/data/col_by_zip.json" zip_data ;;;
    ret zip_data
  else raise (FileNotFoundError "data/col_by_zip.csv").

Definition main (df : list csv_row) (w : world) : nat * world :=
  match csv_to_json df w with
  | (Ok _, w') => (0, w')
  | (Raise _, w') => (1, w')
  end.

End CsvToJson.

(** ** optimize_dataset.py *)
Module Optimize.

Definition load_full_dataset : M (Py.dict zip_info) :=
  File.load_json "src/data/col_by_zip.json".

(** [cbsa_code and str(cbsa_code).startswith('METRO_')] *)
Definition is_metro (data : zip_info) : bool :=
  match cbsa_code data with
  | Some c => (Py.truthy c && Py.startswith c "METRO_")%bool
  | None => false
  end.

Definition metro_zips (full_data : Py.dict zip_info) : list string :=
  map fst (filter (fun kv => is_metro (snd kv)) (Py.items full_data)).

Definition major_city_prefixes : list string :=
  ["100"; "200"; "300"; "400"; "500"; "600"; "700"; "800"; "900";
   "850"; "946"; "902"; "606"; "775"; "332"; "802"; "972"; "785";
   "321"; "480"; "191"; "804"; "280"; "535"; "336"; "870"; "465"].

Definition priority_zips (full_data : Py.dict zip_info) : list string :=
  (firstn 1500 (metro_zips full_data)
     ++ flat_map (fun prefix =>
          firstn 10 (filter (fun z => Py.startswith z prefix)
                            (Py.keys full_data)))
        major_city_prefixes)%list.

(** "Remove duplicates and limit size": the pair [(seen, core_zips)]. *)
Definition keep (max_size : nat) (acc : list string * list string)
    (zip_code : string) : list string * list string :=
  let '(seen, core_zips) := acc in
  if (negb (existsb (String.eqb zip_code) seen)
      && Nat.ltb (List.length core_zips) max_size)%bool
  then (zip_code :: seen, (core_zips ++ [zip_code])%list)
  else (seen, core_zips).

Definition core_zips (full_data : Py.dict zip_info) (max_size : nat)
    : list string :=
  snd (fold_left (keep max_size) (priority_zips full_data) ([], [])).

(** [create_core_dataset]; every priority ZIP is a key of [full_data],
    so [full_data[zip_code]] does not raise. *)
Definition create_core_dataset (full_data : Py.dict zip_info)
    (max_size : nat) : Py.dict zip_info :=
  fold_left (fun core_data zip_code =>
               match Py.get full_data zip_code with
               | Some data => Py.set core_data zip_code data
               | None => core_data
               end)
            (core_zips full_data max_size) [].

(** Body of the loop of [create_state_shards].  Every writer of the
    full dataset stores a [state] string in each value, so
    [data.get('state', 'XX')] is that string. *)
Definition shard_step (state_shards : Py.dict (Py.dict zip_info))
    (kv : string * zip_info) : Py.dict (Py.dict zip_info) :=
  let '(zip_code, data) := kv in
  let state := state data in
  let state_shards :=
    if Py.mem state_shards state then state_shards
    else Py.set state_shards state [] in
  Py.set state_shards state
         (Py.set (Py.get_default state_shards state []) zip_code data).

Definition create_state_shards (full_data : Py.dict zip_info)
    : Py.dict (Py.dict zip_info) :=
  fold_left shard_step (Py.items full_data) [].

(** The tables of [create_fallback_lookup]. *)
Definition zip_to_state : Py.dict string :=
  [
    ("0", "MA"); ("1", "MA"); ("2", "MA"); ("3", "NH"); ("4", "ME");
    ("5", "VT"); ("6", "CT"); ("7", "NJ"); ("8", "NJ"); ("9", "NJ");
    ("10", "NY"); ("11", "NY"); ("12", "NY"); ("13", "NY"); ("14", "NY");
    ("15", "PA"); ("16", "PA"); ("17", "PA"); ("18", "PA"); ("19", "PA");
    ("20", "DC"); ("21", "MD"); ("22", "VA"); ("23", "VA"); ("24", "VA");
    ("25", "MA"); ("26", "MA"); ("27", "MA"); ("28", "NC"); ("29", "SC");
    ("30", "GA"); ("31", "GA"); ("32", "FL"); ("33", "FL"); ("34", "FL");
    ("35", "AL"); ("36", "AL"); ("37", "TN"); ("38", "TN"); ("39", "OH");
    ("40", "KY"); ("41", "KY"); ("42", "PA"); ("43", "OH"); ("44", "OH");
    ("45", "OH"); ("46", "IN"); ("47", "IN"); ("48", "MI"); ("49", "MI");
    ("50", "IA"); ("51", "IA"); ("52", "IA"); ("53", "WI"); ("54", "WI");
    ("55", "MN"); ("56", "MN"); ("57", "MN"); ("58", "MN"); ("59", "MN");
    ("60", "IL"); ("61", "IL"); ("62", "IL"); ("63", "MO"); ("64", "MO");
    ("65", "MO"); ("66", "KS"); ("67", "KS"); ("68", "NE"); ("69", "NE");
    ("70", "LA"); ("71", "LA"); ("72", "AR"); ("73", "OK"); ("74", "OK");
    ("75", "TX"); ("76", "TX"); ("77", "TX"); ("78", "TX"); ("79", "TX");
    ("80", "CO"); ("81", "CO"); ("82", "WY"); ("83", "ID"); ("84", "UT");
    ("85", "AZ"); ("86", "AZ"); ("87", "NM"); ("88", "NV"); ("89", "NV");
    ("90", "CA"); ("91", "CA"); ("92", "CA"); ("93", "CA"); ("94", "CA");
    ("95", "CA"); ("96", "CA"); ("97", "OR"); ("98", "WA"); ("99", "AK")
  ].

Definition state_rpp : Py.dict num :=
  Eval cbv in
  ([
    ("AL", 86.5); ("AK", 125.0); ("AZ", 97.0); ("AR", 85.0); ("CA", 142.0);
    ("CO", 105.0); ("CT", 115.0); ("DE", 102.0); ("FL", 96.0);
    ("GA", 95.5); ("HI", 150.0); ("ID", 94.0); ("IL", 108.0); ("IN", 88.5);
    ("IA", 90.0); ("KS", 89.0); ("KY", 88.0); ("LA", 93.5); ("ME", 105.5);
    ("MD", 112.0); ("MA", 117.5); ("MI", 89.5); ("MN", 102.0);
    ("MS", 84.0); ("MO", 90.5); ("MT", 95.0); ("NE", 91.0); ("NV", 98.0);
    ("NH", 103.0); ("NJ", 120.0); ("NM", 92.5); ("NY", 125.0);
    ("NC", 94.5); ("ND", 96.0); ("OH", 91.5); ("OK", 87.0); ("OR", 110.0);
    ("PA", 108.5); ("RI", 110.0); ("SC", 95.0); ("SD", 93.0); ("TN", 87.5);
    ("TX", 94.0); ("UT", 98.5); ("VT", 106.0); ("VA", 99.0); ("WA", 118.0);
    ("WV", 86.0); ("WI", 96.5); ("WY", 92.0); ("DC", 130.0)
  ])%Q.

(** [create_fallback_lookup]: the two tables under their names. *)
Definition create_fallback_lookup : Py.dict (Py.dict scalar) :=
  [("zip_to_state", map (fun kv => (fst kv, Str (snd kv))) zip_to_state);
   ("state_rpp", map (fun kv => (fst kv, Num (snd kv))) state_rpp)].

(** What [optimize_dataset] returns. *)
Record optimized : Type := mkOptimized {
  core_data : Py.dict zip_info;
  state_shards : Py.dict (Py.dict zip_info);
  fallback_data : Py.dict (Py.dict scalar)
}.

(** [directory / f"{state}.json"], for a [state] without a slash. *)
Definition shard_file (directory state : string) : string :=
  directory ++ "/" ++ state ++ ".json".

(** [for state, shard_data in state_shards.items()]: the two files of
    every shard. *)
Fixpoint write_shards (shards : list (string * Py.dict zip_info)) : M unit :=
  match shards with
  | [] => ret tt
  | (state, shard_data) :: rest =>
      File.dump_json (shard_file "public/states" state) shard_data ;;;
      File.dump_json (shard_file "src/data/states" state) shard_data ;;;
      write_shards rest
  end.

(** [with open(path, 'w') as f: json.dump(fallback_data, f, ...)] *)
Definition dump_fallback (path : string)
    (fallback_data : Py.dict (Py.dict scalar)) : M unit :=
  File.open_w path ;;;
  File.write_all path
    (Json.iterencode_dict (Json.iterencode_dict Json.encode_scalar)
                          fallback_data).

(** [optimize_dataset].  The script creates the two [states]
    directories but not [public] itself: [public_dir] tells whether that
    directory exists when the core file is opened ([src/data] does, the
    full dataset has been read from it). *)
Definition optimize_dataset (public_dir : bool) : M optimized :=
  full_data <- load_full_dataset ;;
  let core_data := create_core_dataset full_data 2000 in
  let state_shards := create_state_shards full_data in
  let fallback_data := create_fallback_lookup in
  (if public_dir then ret tt
   else raise (FileNotFoundError "public/col_by_zip_core.json")) ;;;
  File.dump_json "public/col_by_zip_core.json" core_data ;;;
  File.dump_json "src/data/col_by_zip_core.json" core_data ;;;
  write_shards (Py.items state_shards) ;;;
  dump_fallback "public/col_by_zip_fallback.json" fallback_data ;;;
  dump_fallback "src/data/col_by_zip_fallback.json" fallback_data ;;;
  ret (mkOptimized core_data state_shards fallback_data).

(** [test_zips] of [__main__]. *)
Definition test_zips : list string :=
  ["48505"; "78701"; "10001"; "94102"; "60601"].

(** [for zip_code in test_zips] of [__main__]: for a ZIP of the core
    dataset [core_data[zip_code]['rpp_all']] is read, which raises
    [KeyError] for an entry without that component. *)
Fixpoint test_core_dataset (core_data : Py.dict zip_info)
    (zips : list string) : result unit :=
  match zips with
  | [] => Ok tt
  | zip_code :: rest =>
      match Py.get core_data zip_code with
      | Some data =>
          match rpp_all data with
          | Some _ => test_core_dataset core_data rest
          | None => Raise (KeyError "rpp_all")
          end
      | None => test_core_dataset core_data rest
      end
  end.

(** [__main__]: [optimize_dataset] and the test loop, both inside the
    [try]; the exit status of the process and the files left. *)
Definition main (public_dir : bool) (w : world) : nat * world :=
  match (result <- optimize_dataset public_dir ;;
         lift (test_core_dataset (core_data result) test_zips)) w with
  | (Ok _, w') => (0, w')
  | (Raise _, w') => (1, w')
  end.

End Optimize.

(** ** Notions used to state the properties *)

Definition component_keys : list string :=
  ["rpp_all"; "rpp_housing"; "rpp_goods"; "rpp_other"].

(** The example rows of the specification. *)
Definition flint : Crosswalk.row :=
  Crosswalk.mkRow (Some "48505") (Some "26049") (Some "MI") None
                  (Some 1.0%Q).
Definition austin : Crosswalk.row :=
  Crosswalk.mkRow (Some "78701") (Some "48453") (Some "TX") (Some "12420")
                  (Some 1.0%Q).

(** The three counters of the join. *)
Definition counts (s : GenerateFull.join_state) : nat * nat * nat :=
  (GenerateFull.n_matched_cbsa s, GenerateFull.n_matched_state s,
   GenerateFull.n_estimated s).

(** [state_shards[s].get(zip_code)], [None] when either key is absent. *)
Definition shard_get (state_shards : Py.dict (Py.dict zip_info))
    (s zip_code : string) : option zip_info :=
  match Py.get state_shards s with
  | Some shard => Py.get shard zip_code
  | None => None
  end.

(** The partitions in which a ZIP occurs. *)
Definition shards_holding (zip_code : string)
    (state_shards : Py.dict (Py.dict zip_info))
    : list (string * Py.dict zip_info) :=
  filter (fun kv => Py.mem (snd kv) zip_code) state_shards.

(** The ZIPs found in the priority subset or in some state partition. *)
Definition covered (core_data : Py.dict zip_info)
    (state_shards : Py.dict (Py.dict zip_info)) : list string :=
  (Py.keys core_data
     ++ flat_map (fun kv => Py.keys (snd kv)) state_shards)%list.

(** The chunks a medium accepting [budget] more writes takes from [cs],
    and whether it takes them all. *)
Definition accepted (budget : option nat) (cs : list chunk) : list chunk :=
  match budget with
  | None => cs
  | Some n => firstn n cs
  end.

Definition fits (budget : option nat) (cs : list chunk) : bool :=
  match budget with
  | None => true
  | Some n => Nat.leb (List.length cs) n
  end.

(** A world with a lookup file from an earlier run, on a medium that
    accepts three more writes. *)
Definition earlier_run : world :=
  mkWorld
    [("public/col_by_zip.json",
      Json.iterencode
        [("48505", mkInfo (rpp 89.5%Q 85.0%Q 93.0%Q 92.0%Q) "MI" None)])]
    (Some 3).

(** A reply that arrived and parsed but is an upstream structural error:
    no [BEAAPI]/[Results] object, an [Error] object, or no [Data]. *)
Definition structural_error {R} (r : Bea.reply R) : bool :=
  match r with
  | Raise _ => false
  | Ok data =>
      match Bea.results_of data with
      | None => true
      | Some res =>
          match Bea.Error res, Bea.Data res with
          | Some _, _ => true
          | None, None => true
          | None, Some _ => false
          end
      end
  end.

(** Two crosswalk rows of one ZIP with the same residential ratio; the
    first has no metro code. *)
Definition split_zip_first : Crosswalk.row :=
  Crosswalk.mkRow (Some "48505") (Some "26049") (Some "MI") None
                  (Some 0.5%Q).
Definition split_zip_second : Crosswalk.row :=
  Crosswalk.mkRow (Some "48505") (Some "26145") (Some "MI") (Some "40980")
                  (Some 0.5%Q).

(** A value whose float entries have distinct names, none of them
    [state] or [cbsa_code]: every value the builders store is one. *)
Definition good_info (r : zip_info) : Prop :=
  Py.wf (rpp_data r)
  /\ ~ In "state" (Py.keys (rpp_data r))
  /\ ~ In "cbsa_code" (Py.keys (rpp_data r)).

(** A crosswalk row without a missing cell. *)
Definition no_missing_cell (r : Crosswalk.row) : Prop :=
  Crosswalk.COUNTY r <> None /\ Crosswalk.STATE r <> None
  /\ Crosswalk.CBSA r <> None /\ Crosswalk.RES_RATIO r <> None.

(** How many rows take a given branch of the fallback chain. *)
Definition provenance_eqb (p q : GenerateFull.provenance) : bool :=
  match p, q with
  | GenerateFull.matched_cbsa, GenerateFull.matched_cbsa => true
  | GenerateFull.matched_state, GenerateFull.matched_state => true
  | GenerateFull.estimated, GenerateFull.estimated => true
  | _, _ => false
  end.

Definition tally (rpp_lookup : Py.dict (Py.dict num))
    (p : GenerateFull.provenance) (rows : list Crosswalk.row) : nat :=
  List.length
    (filter (fun r =>
               provenance_eqb (fst (GenerateFull.resolve rpp_lookup r)) p)
            rows).

(** *** Notions for the properties of the BEA tables *)

(** The component a line code stands for (the [if]/[elif] chain of
    [process_rpp_data]). *)
Definition component (line_code : string) : option string :=
  if line_code =? "1" then Some "rpp_all"
  else if line_code =? "2" then Some "rpp_goods"
  else if line_code =? "3" then Some "rpp_housing"
  else if line_code =? "4" then Some "rpp_other"
  else None.

(** What [process_rpp_data] reads from one record of a frame: the key,
    the line code and the value; [None] for a record it skips. *)
Definition reading (float : string -> option num) (width : nat)
    (row : GenerateFull.bea_row) : option (string * string * num) :=
  let geo_fips := Py.zfill width (GenerateFull.GeoFips row) in
  if (Py.truthy geo_fips && Py.truthy (GenerateFull.LineCode row)
      && negb (GenerateFull.DataValue row =? "(NA)"))%bool
  then option_map (fun v => (geo_fips, GenerateFull.LineCode row, v))
                  (float (Py.remove "," (GenerateFull.DataValue row)))
  else None.

(** The records in the order [process_rpp_data] reads them, each with
    the width its key is padded to: the state frame, then the metro
    frame. *)
Definition records (state_df msa_df : list GenerateFull.bea_row)
    : list (nat * GenerateFull.bea_row) :=
  (map (pair 2) state_df ++ map (pair 5) msa_df)%list.

(** [rpp_lookup[geo][key]], [None] when either key is absent. *)
Definition entry (rpp_lookup : Py.dict (Py.dict num)) (geo key : string)
    : option num :=
  match Py.get rpp_lookup geo with
  | Some d => Py.get d key
  | None => None
  end.

(** *** Notions for the properties of [build_lookup] *)

(** The four values of a row of the merged frame and of a written
    row. *)
Definition frame_values (z : BuildLookup.zip_row)
    : option num * option num * option num * option num :=
  (BuildLookup.z_rpp_all z, BuildLookup.z_rpp_housing z,
   BuildLookup.z_rpp_goods z, BuildLookup.z_rpp_other z).

Definition written_values (o : BuildLookup.out_row)
    : option num * option num * option num * option num :=
  (BuildLookup.o_rpp_all o, BuildLookup.o_rpp_housing o,
   BuildLookup.o_rpp_goods o, BuildLookup.o_rpp_other o).

(** The records of the frame that the metro code of a crosswalk row
    matches. *)
Definition metro_records (rpp : list BuildLookup.rpp_row)
    (x : Crosswalk.row) : list BuildLookup.rpp_row :=
  filter (fun g => BuildLookup.key_eqb (Crosswalk.CBSA x) (BuildLookup.geo g))
         rpp.

(** *** Notions for the properties of the optimizer *)

(** The state of an entry of the full dataset, and the entries of one
    state in the order of the dataset. *)
Definition state_of_entry (kv : string * zip_info) : string :=
  state (snd kv).

Definition entries_of (full_data : Py.dict zip_info) (s : string)
    : Py.dict zip_info :=
  filter (fun kv => state_of_entry kv =? s) full_data.

(** A name without a slash, as a path component. *)
Fixpoint plain_name (s : string) : bool :=
  match s with
  | EmptyString => true
  | String c s' => (negb (Ascii.eqb c "/") && plain_name s')%bool
  end.

(** The files [optimize_dataset] writes for a partition. *)
Definition shard_paths (state_shards : Py.dict (Py.dict zip_info))
    : list string :=
  flat_map (fun kv => [Optimize.shard_file "public/states" (fst kv);
                       Optimize.shard_file "src/data/states" (fst kv)])
           state_shards.

(** *** Notions for the tables of build_enhanced_dataset.py *)

(** The state a table of ranges ends up giving to a prefix: the last
    one that lists it. *)
Definition range_owner (ranges : Py.dict (list string)) (prefix : string)
    : option string :=
  fold_left (fun owner kv =>
               if existsb (String.eqb prefix) (snd kv) then Some (fst kv)
               else owner)
            ranges None.

(** The values a prefix ends up with: those of the last metro of the
    table whose list of prefixes has it. *)
Definition metro_owner (metro_rpp : Py.dict (Py.dict num))
    (mappings : Py.dict (list string)) (prefix : string)
    : option (Py.dict num) :=
  fold_left (fun owner kv =>
               match Py.get mappings (fst kv) with
               | Some prefixes =>
                   if existsb (String.eqb prefix) prefixes
                   then Some (snd kv) else owner
               | None => owner
               end)
            metro_rpp None.

(** * Properties *)

(** ** Dictionaries *)
Section DictFacts.
Context {V : Type}.
Implicit Types (d : Py.dict V) (k : string) (v : V).

Lemma get_set_same d k v : Py.get (Py.set d k v) k = Some v.
Proof.
  induction d as [|[k' v'] d IH]; simpl.
  - now rewrite String.eqb_refl.
  - destruct (k' =? k) eqn:E; simpl; rewrite E; auto.
Qed.

Lemma get_set_other d k k' v :
  k <> k' -> Py.get (Py.set d k v) k' = Py.get d k'.
Proof.
  intros Hne. induction d as [|[k0 v0] d IH]; simpl.
  - destruct (k =? k') eqn:E; auto.
    apply String.eqb_eq in E. contradiction.
  - destruct (k0 =? k) eqn:E; simpl.
    + apply String.eqb_eq in E. subst k0.
      destruct (k =? k') eqn:E'; auto.
      apply String.eqb_eq in E'. contradiction.
    + now rewrite IH.
Qed.

Lemma get_set d k k' v :
  Py.get (Py.set d k v) k' = if k =? k' then Some v else Py.get d k'.
Proof.
  destruct (String.eqb_spec k k') as [->|Hne].
  - apply get_set_same.
  - now apply get_set_other.
Qed.

Lemma keys_set_in d k v :
  In k (Py.keys d) -> Py.keys (Py.set d k v) = Py.keys d.
Proof.
  induction d as [|[k' v'] d IH]; simpl; [tauto|].
  intros [->|Hin].
  - now rewrite String.eqb_refl.
  - destruct (k' =? k) eqn:E; simpl; auto.
    now rewrite IH.
Qed.

Lemma keys_set_notin d k v :
  ~ In k (Py.keys d) -> Py.keys (Py.set d k v) = (Py.keys d ++ [k])%list.
Proof.
  induction d as [|[k' v'] d IH]; simpl; auto.
  intros Hn. destruct (k' =? k) eqn:E.
  - apply String.eqb_eq in E. tauto.
  - simpl. rewrite IH; tauto.
Qed.

Lemma in_keys_set d k v x :
  In x (Py.keys (Py.set d k v)) <-> x = k \/ In x (Py.keys d).
Proof.
  destruct (in_dec string_dec k (Py.keys d)) as [Hin|Hn].
  - rewrite keys_set_in by assumption. split; [tauto|].
    intros [->|H]; assumption.
  - rewrite keys_set_notin by assumption. rewrite in_app_iff. simpl.
    split; intros [H|H]; auto.
    + destruct H as [H|[]]; auto.
Qed.

Lemma wf_set d k v : Py.wf d -> Py.wf (Py.set d k v).
Proof.
  unfold Py.wf. intros Hwf.
  destruct (in_dec string_dec k (Py.keys d)) as [Hin|Hn].
  - now rewrite keys_set_in.
  - rewrite keys_set_notin by assumption.
    apply NoDup_app; auto.
    + repeat constructor. simpl. tauto.
    + intros x Hx [<-|[]]. contradiction.
Qed.

Lemma get_some_in d k v : Py.get d k = Some v -> In (k, v) d.
Proof.
  induction d as [|[k' v'] d IH]; simpl; [discriminate|].
  destruct (k' =? k) eqn:E.
  - apply String.eqb_eq in E. intros [= ->]. subst. now left.
  - intros H. right. auto.
Qed.

Lemma get_none_iff d k : Py.get d k = None <-> ~ In k (Py.keys d).
Proof.
  induction d as [|[k' v'] d IH]; simpl; [tauto|].
  destruct (String.eqb_spec k' k) as [->|Hne].
  - split; [discriminate|tauto].
  - rewrite IH. tauto.
Qed.

Lemma mem_true_iff d k : Py.mem d k = true <-> In k (Py.keys d).
Proof.
  unfold Py.mem. destruct (Py.get d k) eqn:E.
  - split; auto. intros _.
    apply get_some_in in E. apply (in_map fst) in E. exact E.
  - apply get_none_iff in E. split; [discriminate|tauto].
Qed.

Lemma in_wf_get d k v : Py.wf d -> In (k, v) d -> Py.get d k = Some v.
Proof.
  unfold Py.wf. induction d as [|[k' v'] d IH]; simpl; [tauto|].
  intros Hnd [[= -> ->]|Hin].
  - now rewrite String.eqb_refl.
  - inversion Hnd as [|? ? Hn Hnd']; subst.
    destruct (String.eqb_spec k' k) as [->|Hne]; auto.
    exfalso. apply Hn. apply (in_map fst) in Hin. exact Hin.
Qed.

End DictFacts.

(** ** The fallback join of generate_full_dataset.py *)

Lemma final_rpp_get (g : Py.dict num) st c k :
  In k component_keys ->
  Py.get (rpp_data (GenerateFull.final_rpp g st c)) k
  = Some (Py.get_default g k 100.0%Q).
Proof.
  unfold component_keys. simpl.
  intros [<-|[<-|[<-|[<-|[]]]]]; reflexivity.
Qed.

Lemma final_rpp_complete (a h g o : num) st c :
  rpp_data (GenerateFull.final_rpp (rpp a h g o) st c) = rpp a h g o.
Proof. reflexivity. Qed.

Lemma state_estimates_complete :
  Forall (fun kv => exists a h g o, snd kv = rpp a h g o)
         GenerateFull.state_estimates.
Proof.
  unfold GenerateFull.state_estimates, state_estimates_table.
  repeat (constructor; [simpl; do 4 eexists; reflexivity|]).
  constructor.
Qed.

Lemma state_estimate_shape st d :
  Py.get GenerateFull.state_estimates st = Some d ->
  exists a h g o, d = rpp a h g o.
Proof.
  intros H. apply get_some_in in H.
  pose proof state_estimates_complete as F.
  rewrite Forall_forall in F. exact (F _ H).
Qed.

(** What one iteration leaves in the loop state, whatever the branch. *)
Lemma join_step_stores rpp_lookup s row :
  Py.get (GenerateFull.final_data (GenerateFull.join_step rpp_lookup s row))
         (GenerateFull.zip_code_of row)
  = Some (GenerateFull.resolved rpp_lookup row).
Proof.
  unfold GenerateFull.join_step.
  destruct (fst (GenerateFull.resolve rpp_lookup row)); simpl;
    apply get_set_same.
Qed.

(** The counters after one iteration, by branch. *)
Lemma join_step_counts rpp_lookup s row :
  counts (GenerateFull.join_step rpp_lookup s row)
  = match fst (GenerateFull.resolve rpp_lookup row) with
    | GenerateFull.matched_cbsa =>
        (S (GenerateFull.n_matched_cbsa s), GenerateFull.n_matched_state s,
         GenerateFull.n_estimated s)
    | GenerateFull.matched_state =>
        (GenerateFull.n_matched_cbsa s, S (GenerateFull.n_matched_state s),
         GenerateFull.n_estimated s)
    | GenerateFull.estimated =>
        (GenerateFull.n_matched_cbsa s, GenerateFull.n_matched_state s,
         S (GenerateFull.n_estimated s))
    end.
Proof.
  unfold GenerateFull.join_step, counts.
  destruct (fst (GenerateFull.resolve rpp_lookup row)); reflexivity.
Qed.

Lemma truthy_nonempty c : c <> EmptyString -> Py.truthy c = true.
Proof.
  intros H. unfold Py.truthy.
  destruct (String.eqb_spec c EmptyString);
    [contradiction|reflexivity].
Qed.

Lemma resolve_metro rpp_lookup row c g :
  Crosswalk.CBSA row = Some c -> c <> EmptyString ->
  Py.get rpp_lookup c = Some g ->
  GenerateFull.resolve rpp_lookup row = (GenerateFull.matched_cbsa, g).
Proof.
  intros Hc Hne Hg.
  unfold GenerateFull.resolve, GenerateFull.lookup_rpp,
    GenerateFull.cbsa_code_of.
  rewrite Hc, (truthy_nonempty c Hne), Hg. reflexivity.
Qed.

(** Without a usable metro code the chain starts at the state tier. *)
Lemma resolve_no_metro rpp_lookup row :
  (forall c, Crosswalk.CBSA row = Some c ->
             c = EmptyString \/ Py.get rpp_lookup c = None) ->
  GenerateFull.resolve rpp_lookup row
  = match Py.get rpp_lookup (Py.take 2 (GenerateFull.county_fips_of row)) with
    | Some d => (GenerateFull.matched_state, d)
    | None =>
        match Py.get GenerateFull.state_estimates
                     (GenerateFull.state_of row) with
        | Some d => (GenerateFull.estimated, d)
        | None => (GenerateFull.estimated, GenerateFull.national_average)
        end
    end.
Proof.
  intros H.
  unfold GenerateFull.resolve, GenerateFull.lookup_rpp,
    GenerateFull.cbsa_code_of.
  destruct (Crosswalk.CBSA row) as [c|]; [|reflexivity].
  destruct (H c eq_refl) as [->|Hn].
  - reflexivity.
  - rewrite Hn. destruct (Py.truthy c); reflexivity.
Qed.

(** C1. A row whose metro code is non-empty and is a key of the lookup
    table is resolved from that entry alone: the iteration stores under
    the ZIP a record whose four components are the entry's (100.0 for a
    component the entry lacks), it counts the row as a CBSA match, and
    the components are the same for any other row and table that agree
    on the metro code and its entry, whatever the state says. *)
Theorem C1_metro_match :
  forall (rpp_lookup : Py.dict (Py.dict num)) (s : GenerateFull.join_state)
         (row : Crosswalk.row) (c : string) (g : Py.dict num),
    Crosswalk.CBSA row = Some c ->
    c <> EmptyString ->
    Py.get rpp_lookup c = Some g ->
    fst (GenerateFull.resolve rpp_lookup row) = GenerateFull.matched_cbsa
    /\ Py.get (GenerateFull.final_data
                 (GenerateFull.join_step rpp_lookup s row))
              (GenerateFull.zip_code_of row)
       = Some (GenerateFull.resolved rpp_lookup row)
    /\ counts (GenerateFull.join_step rpp_lookup s row)
       = (S (GenerateFull.n_matched_cbsa s), GenerateFull.n_matched_state s,
          GenerateFull.n_estimated s)
    /\ (forall k v, In k component_keys -> Py.get g k = Some v ->
          Py.get (rpp_data (GenerateFull.resolved rpp_lookup row)) k = Some v)
    /\ (forall k, In k component_keys -> Py.get g k = None ->
          Py.get (rpp_data (GenerateFull.resolved rpp_lookup row)) k
          = Some 100.0%Q)
    /\ cbsa_code (GenerateFull.resolved rpp_lookup row) = Some c
    /\ (forall rpp_lookup' row',
          Crosswalk.CBSA row' = Some c ->
          Py.get rpp_lookup' c = Some g ->
          rpp_data (GenerateFull.resolved rpp_lookup' row')
          = rpp_data (GenerateFull.resolved rpp_lookup row)).
Proof.
  intros rpp_lookup s row c g Hc Hne Hg.
  pose proof (resolve_metro _ _ _ _ Hc Hne Hg) as R.
  repeat split.
  - now rewrite R.
  - apply join_step_stores.
  - rewrite join_step_counts, R. reflexivity.
  - intros k v Hk Hv. unfold GenerateFull.resolved. rewrite R. simpl snd.
    rewrite final_rpp_get by assumption.
    unfold Py.get_default. now rewrite Hv.
  - intros k Hk Hv. unfold GenerateFull.resolved. rewrite R. simpl snd.
    rewrite final_rpp_get by assumption.
    unfold Py.get_default. now rewrite Hv.
  - unfold GenerateFull.resolved, GenerateFull.cbsa_code_of. simpl.
    exact Hc.
  - intros rpp_lookup' row' Hc' Hg'.
    pose proof (resolve_metro _ _ _ _ Hc' Hne Hg') as R'.
    unfold GenerateFull.resolved. rewrite R, R'. reflexivity.
Qed.

Lemma C1_metro_match_witness :
  fst (GenerateFull.resolve [("12420", rpp 95.8%Q 102.1%Q 92.4%Q 97.2%Q);
                             ("48", rpp 94.0%Q 92.0%Q 95.0%Q 95.5%Q)] austin)
  = GenerateFull.matched_cbsa
  /\ Py.get (rpp_data
               (GenerateFull.resolved
                  [("12420", rpp 95.8%Q 102.1%Q 92.4%Q 97.2%Q);
                   ("48", rpp 94.0%Q 92.0%Q 95.0%Q 95.5%Q)] austin))
            "rpp_all"
     = Some 95.8%Q.
Proof.
  pose proof (C1_metro_match
                [("12420", rpp 95.8%Q 102.1%Q 92.4%Q 97.2%Q);
                 ("48", rpp 94.0%Q 92.0%Q 95.0%Q 95.5%Q)]
                GenerateFull.join_init austin "12420"
                (rpp 95.8%Q 102.1%Q 92.4%Q 97.2%Q)
                eq_refl ltac:(discriminate) eq_refl)
    as [Hp [_ [_ [Hv _]]]].
  split.
  - exact Hp.
  - apply Hv; [simpl; auto | reflexivity].
Defined.

(** The scenario of the specification: the table holds one record, under
    the key ["MI"].  The state tier asks for the key ["26"], the first
    two characters of the county code, so the row falls through to the
    estimate table, whose entry for MI carries the very same values. *)
Lemma C2_counterexample :
  fst (GenerateFull.resolve [("MI", rpp 89.5%Q 85.0%Q 93.0%Q 92.0%Q)] flint)
  = GenerateFull.estimated
  /\ fst (GenerateFull.resolve [("MI", rpp 89.5%Q 85.0%Q 93.0%Q 92.0%Q)]
                              flint)
     <> GenerateFull.matched_state
  /\ counts (GenerateFull.join [("MI", rpp 89.5%Q 85.0%Q 93.0%Q 92.0%Q)]
                               [flint])
     = (0, 0, 1).
Proof.
  repeat split.
  intros H. vm_compute in H. discriminate H.
Qed.

(** C2 (amended). A row without a usable metro code (none, empty, or not
    a key of the table) whose state geography code, the first two
    characters of its zero-padded county code, is a key of the table is
    resolved from that entry: its four components are the entry's (100.0
    for one the entry lacks) and it counts as a state match.  In the
    scenario of the specification the table is keyed by ["MI"], which the
    state tier does not ask for: the record stored for 48505 has the
    components 89.5, 85.0, 93.0 and 92.0, state MI and no metro code, and
    it counts as an estimate. *)
Theorem C2_state_match :
  forall (rpp_lookup : Py.dict (Py.dict num)) (s : GenerateFull.join_state)
         (row : Crosswalk.row) (g : Py.dict num),
    (forall c, Crosswalk.CBSA row = Some c ->
               c = EmptyString \/ Py.get rpp_lookup c = None) ->
    Py.get rpp_lookup (Py.take 2 (GenerateFull.county_fips_of row)) = Some g ->
    (fst (GenerateFull.resolve rpp_lookup row) = GenerateFull.matched_state
     /\ Py.get (GenerateFull.final_data
                  (GenerateFull.join_step rpp_lookup s row))
               (GenerateFull.zip_code_of row)
        = Some (GenerateFull.resolved rpp_lookup row)
     /\ counts (GenerateFull.join_step rpp_lookup s row)
        = (GenerateFull.n_matched_cbsa s, S (GenerateFull.n_matched_state s),
           GenerateFull.n_estimated s)
     /\ (forall k v, In k component_keys -> Py.get g k = Some v ->
           Py.get (rpp_data (GenerateFull.resolved rpp_lookup row)) k
           = Some v)
     /\ (forall k, In k component_keys -> Py.get g k = None ->
           Py.get (rpp_data (GenerateFull.resolved rpp_lookup row)) k
           = Some 100.0%Q))
    /\ GenerateFull.join [("MI", rpp 89.5%Q 85.0%Q 93.0%Q 92.0%Q)] [flint]
       = GenerateFull.mkJoin
           [("48505", mkInfo (rpp 89.5%Q 85.0%Q 93.0%Q 92.0%Q) "MI" None)]
           0 0 1.
Proof.
  intros rpp_lookup s row g Hmetro Hg.
  pose proof (resolve_no_metro _ _ Hmetro) as R. rewrite Hg in R.
  split; [|reflexivity].
  repeat split.
  - now rewrite R.
  - apply join_step_stores.
  - rewrite join_step_counts, R. reflexivity.
  - intros k v Hk Hv. unfold GenerateFull.resolved. rewrite R. simpl snd.
    rewrite final_rpp_get by assumption.
    unfold Py.get_default. now rewrite Hv.
  - intros k Hk Hv. unfold GenerateFull.resolved. rewrite R. simpl snd.
    rewrite final_rpp_get by assumption.
    unfold Py.get_default. now rewrite Hv.
Qed.

Lemma C2_state_match_witness :
  fst (GenerateFull.resolve [("26", rpp 89.5%Q 85.0%Q 93.0%Q 92.0%Q)] flint)
  = GenerateFull.matched_state
  /\ Py.get (rpp_data
               (GenerateFull.resolved
                  [("26", rpp 89.5%Q 85.0%Q 93.0%Q 92.0%Q)] flint))
            "rpp_housing"
     = Some 85.0%Q.
Proof.
  assert (Hmetro : forall c, Crosswalk.CBSA flint = Some c ->
            c = EmptyString
            \/ Py.get [("26", rpp 89.5%Q 85.0%Q 93.0%Q 92.0%Q)] c = None).
  { intros c H. discriminate H. }
  pose proof (C2_state_match
                [("26", rpp 89.5%Q 85.0%Q 93.0%Q 92.0%Q)]
                GenerateFull.join_init flint
                (rpp 89.5%Q 85.0%Q 93.0%Q 92.0%Q) Hmetro eq_refl)
    as [[Hp [_ [_ [Hv _]]]] _].
  split.
  - exact Hp.
  - apply Hv; [simpl; auto | reflexivity].
Defined.

(** The Flint row against an empty table: neither tier of the table
    matches, and the components are the MI estimates, not 100.0. *)
Lemma C3_counterexample :
  fst (GenerateFull.resolve [] flint) = GenerateFull.estimated
  /\ rpp_all (GenerateFull.resolved [] flint) = Some 89.5%Q
  /\ ~ (89.5 == 100.0)%Q.
Proof.
  repeat split.
  intros H. vm_compute in H. discriminate H.
Qed.

(** C3 (amended). A row matching neither a metro nor a state geography of
    the table counts as an estimate, and [generate_comprehensive_dataset]
    has one more tier before the national default: when the row's state
    is listed in the hard-coded estimate table the four components are
    that state's estimates, and only otherwise are they all 100.0.
    [build_comprehensive_dataset] gives 100.0 four times to a ZIP that is
    neither in its metro table nor of a state in its estimate table. *)
Theorem C3_estimate_then_default :
  forall (rpp_lookup : Py.dict (Py.dict num)) (s : GenerateFull.join_state)
         (row : Crosswalk.row),
    (forall c, Crosswalk.CBSA row = Some c ->
               c = EmptyString \/ Py.get rpp_lookup c = None) ->
    Py.get rpp_lookup (Py.take 2 (GenerateFull.county_fips_of row)) = None ->
    fst (GenerateFull.resolve rpp_lookup row) = GenerateFull.estimated
    /\ counts (GenerateFull.join_step rpp_lookup s row)
       = (GenerateFull.n_matched_cbsa s, GenerateFull.n_matched_state s,
          S (GenerateFull.n_estimated s))
    /\ (forall d,
          Py.get GenerateFull.state_estimates (GenerateFull.state_of row)
          = Some d ->
          rpp_data (GenerateFull.resolved rpp_lookup row) = d)
    /\ (Py.get GenerateFull.state_estimates (GenerateFull.state_of row)
        = None ->
        rpp_data (GenerateFull.resolved rpp_lookup row)
        = rpp 100.0%Q 100.0%Q 100.0%Q 100.0%Q)
    /\ (forall (metro_rpp state_estimates : Py.dict (Py.dict num))
               (zip_code state : string),
          Py.get metro_rpp zip_code = None ->
          Py.get state_estimates state = None ->
          BuildEnhanced.resolve metro_rpp state_estimates zip_code state
          = (BuildEnhanced.national,
             mkInfo (rpp 100.0%Q 100.0%Q 100.0%Q 100.0%Q) state None)).
Proof.
  intros rpp_lookup s row Hmetro Hstate.
  pose proof (resolve_no_metro _ _ Hmetro) as R. rewrite Hstate in R.
  repeat split.
  - rewrite R.
    now destruct (Py.get GenerateFull.state_estimates
                         (GenerateFull.state_of row)).
  - rewrite join_step_counts, R.
    now destruct (Py.get GenerateFull.state_estimates
                         (GenerateFull.state_of row)).
  - intros d Hd. unfold GenerateFull.resolved. rewrite R, Hd. simpl snd.
    destruct (state_estimate_shape _ _ Hd) as (a & h & g & o & ->).
    apply final_rpp_complete.
  - intros Hn. unfold GenerateFull.resolved. rewrite R, Hn. reflexivity.
  - intros metro_rpp state_estimates zip_code state Hm Hs.
    unfold BuildEnhanced.resolve. now rewrite Hm, Hs.
Qed.

Lemma C3_estimate_then_default_witness :
  rpp_data (GenerateFull.resolved []
              (Crosswalk.mkRow (Some "00601") (Some "72001") (Some "PR")
                               None (Some 1.0%Q)))
  = rpp 100.0%Q 100.0%Q 100.0%Q 100.0%Q
  /\ rpp_data (GenerateFull.resolved [] flint)
     = rpp 89.5%Q 85.0%Q 93.0%Q 92.0%Q.
Proof.
  split.
  - assert (Hmetro : forall c,
              Crosswalk.CBSA (Crosswalk.mkRow (Some "00601") (Some "72001")
                                (Some "PR") None (Some 1.0%Q)) = Some c ->
              c = EmptyString
              \/ Py.get (@nil (string * Py.dict num)) c = None).
    { intros c H. discriminate H. }
    exact (proj1 (proj2 (proj2 (proj2
             (C3_estimate_then_default [] GenerateFull.join_init _
                Hmetro eq_refl)))) eq_refl).
  - assert (Hmetro : forall c, Crosswalk.CBSA flint = Some c ->
              c = EmptyString
              \/ Py.get (@nil (string * Py.dict num)) c = None).
    { intros c H. discriminate H. }
    exact (proj1 (proj2 (proj2
             (C3_estimate_then_default [] GenerateFull.join_init flint
                Hmetro eq_refl))) _ eq_refl).
Defined.

(** ** The synthetic metro codes of build_enhanced_dataset.py *)

Lemma length_append (s1 s2 : string) :
  String.length (s1 ++ s2) = String.length s1 + String.length s2.
Proof. induction s1 as [|c s1 IH]; simpl; auto. Qed.

Lemma in_set {V} (d : Py.dict V) k v kv :
  In kv (Py.set d k v) -> kv = (k, v) \/ In kv d.
Proof.
  induction d as [|[k' v'] d IH]; simpl.
  - intros [<-|[]]. now left.
  - destruct (String.eqb_spec k' k) as [->|Hne]; simpl.
    + intros [<-|H]; auto.
    + intros [<-|H]; auto. destruct (IH H); auto.
Qed.

Lemma enhanced_step_data metro_rpp state_estimates s zip_code st :
  BuildEnhanced.final_data
    (BuildEnhanced.build_step metro_rpp state_estimates s (zip_code, st))
  = Py.set (BuildEnhanced.final_data s) zip_code
           (snd (BuildEnhanced.resolve metro_rpp state_estimates zip_code st)).
Proof.
  unfold BuildEnhanced.build_step.
  destruct (BuildEnhanced.resolve metro_rpp state_estimates zip_code st)
    as [[] data]; reflexivity.
Qed.

(** Every value of the output is the one its own ZIP resolves to. *)
Lemma enhanced_entries metro_rpp state_estimates items :
  forall s,
    (forall z r, In (z, r) (BuildEnhanced.final_data s) ->
       exists st,
         r = snd (BuildEnhanced.resolve metro_rpp state_estimates z st)) ->
    forall z r,
      In (z, r)
         (BuildEnhanced.final_data
            (fold_left (BuildEnhanced.build_step metro_rpp state_estimates)
                       items s)) ->
      exists st, r = snd (BuildEnhanced.resolve metro_rpp state_estimates z st).
Proof.
  induction items as [|[zip_code st] items IH]; intros s Hs z r;
    cbn [fold_left].
  - apply Hs.
  - apply IH. intros z' r' Hin.
    rewrite enhanced_step_data in Hin.
    destruct (in_set _ _ _ _ Hin) as [[= -> ->]|Hold].
    + now exists st.
    + now apply Hs.
Qed.

Lemma enhanced_cbsa metro_rpp state_estimates z st :
  cbsa_code (snd (BuildEnhanced.resolve metro_rpp state_estimates z st))
  = if Py.mem metro_rpp z then Some ("METRO_" ++ Py.take 3 z) else None.
Proof.
  unfold BuildEnhanced.resolve, Py.mem.
  destruct (Py.get metro_rpp z); [reflexivity|].
  destruct (Py.get state_estimates st); reflexivity.
Qed.

Lemma enhanced_tier metro_rpp state_estimates z st :
  fst (BuildEnhanced.resolve metro_rpp state_estimates z st)
  = BuildEnhanced.metro
  <-> Py.mem metro_rpp z = true.
Proof.
  unfold BuildEnhanced.resolve, Py.mem.
  destruct (Py.get metro_rpp z); [simpl; tauto|].
  destruct (Py.get state_estimates st); simpl; split; discriminate.
Qed.

Lemma enhanced_state metro_rpp state_estimates z st :
  state (snd (BuildEnhanced.resolve metro_rpp state_estimates z st)) = st.
Proof.
  unfold BuildEnhanced.resolve.
  destruct (Py.get metro_rpp z); [reflexivity|].
  destruct (Py.get state_estimates st); reflexivity.
Qed.

Lemma is_metro_synthetic rd st x :
  Optimize.is_metro (mkInfo rd st (Some ("METRO_" ++ x))) = true.
Proof. destruct x; reflexivity. Qed.

Lemma enhanced_is_metro metro_rpp state_estimates z st :
  Optimize.is_metro
    (snd (BuildEnhanced.resolve metro_rpp state_estimates z st))
  = Py.mem metro_rpp z.
Proof.
  unfold BuildEnhanced.resolve, Py.mem.
  destruct (Py.get metro_rpp z); [apply is_metro_synthetic|].
  destruct (Py.get state_estimates st); reflexivity.
Qed.

Lemma metro_zips_filter metro_rpp state_estimates (d : Py.dict zip_info) :
  (forall z r, In (z, r) d ->
     exists st,
       r = snd (BuildEnhanced.resolve metro_rpp state_estimates z st)) ->
  Optimize.metro_zips d = filter (Py.mem metro_rpp) (Py.keys d).
Proof.
  unfold Optimize.metro_zips, Py.keys, Py.items.
  induction d as [|[z r] d IH]; intros Hd; [reflexivity|].
  simpl. destruct (Hd z r (or_introl eq_refl)) as [st ->].
  rewrite enhanced_is_metro.
  rewrite <- IH by (intros; apply Hd; now right).
  destruct (Py.mem metro_rpp z); reflexivity.
Qed.

(** C10. In the output of the enhanced build a ZIP's [cbsa_code] is set
    exactly when the ZIP took the metro branch, that is when it is a key
    of the metro table; it is then ["METRO_"] followed by the first three
    characters of the ZIP, which is never five characters long; and the
    test of [create_core_dataset] holds of exactly these values, so the
    metro ZIPs it collects are the keys found in the metro table. *)
Theorem C10_synthetic_cbsa :
  forall (zip_to_state : Py.dict string)
         (metro_rpp state_estimates : Py.dict (Py.dict num))
         (zip_code : string) (r : zip_info),
    Py.get (BuildEnhanced.final_data
              (BuildEnhanced.build zip_to_state metro_rpp state_estimates))
           zip_code = Some r ->
    (cbsa_code r <> None
     <-> fst (BuildEnhanced.resolve metro_rpp state_estimates zip_code
                                    (state r))
         = BuildEnhanced.metro)
    /\ (cbsa_code r <> None <-> Py.mem metro_rpp zip_code = true)
    /\ (forall c, cbsa_code r = Some c ->
          c = "METRO_" ++ Py.take 3 zip_code /\ String.length c <> 5)
    /\ (Optimize.is_metro r = true <-> cbsa_code r <> None)
    /\ Optimize.metro_zips
         (BuildEnhanced.final_data
            (BuildEnhanced.build zip_to_state metro_rpp state_estimates))
       = filter (Py.mem metro_rpp)
           (Py.keys
              (BuildEnhanced.final_data
                 (BuildEnhanced.build zip_to_state metro_rpp
                                      state_estimates))).
Proof.
  intros zip_to_state metro_rpp state_estimates zip_code r Hget.
  assert (Hall : forall z r',
            In (z, r')
               (BuildEnhanced.final_data
                  (BuildEnhanced.build zip_to_state metro_rpp
                                       state_estimates)) ->
            exists st,
              r' = snd (BuildEnhanced.resolve metro_rpp state_estimates z st)).
  { apply enhanced_entries. intros z r' []. }
  destruct (Hall _ _ (get_some_in _ _ _ Hget)) as [st ->].
  rewrite enhanced_state, enhanced_cbsa, enhanced_is_metro, enhanced_tier.
  split; [|split; [|split; [|split]]].
  - destruct (Py.mem metro_rpp zip_code); split; congruence.
  - destruct (Py.mem metro_rpp zip_code); split; congruence.
  - intros c Hc. destruct (Py.mem metro_rpp zip_code); [|discriminate].
    injection Hc as <-. split; [reflexivity|].
    simpl. lia.
  - destruct (Py.mem metro_rpp zip_code); split; congruence.
  - now apply metro_zips_filter with (state_estimates := state_estimates).
Qed.

Lemma C10_synthetic_cbsa_witness :
  Py.get (BuildEnhanced.final_data
            (BuildEnhanced.build [("10001", "NY"); ("48505", "MI")]
               [("10001", rpp 125.6%Q 168.5%Q 109.2%Q 118.3%Q)]
               BuildEnhanced.get_state_estimates))
         "10001"
  = Some (mkInfo (rpp 125.6%Q 168.5%Q 109.2%Q 118.3%Q) "NY"
                 (Some "METRO_100"))
  /\ (cbsa_code (mkInfo (rpp 125.6%Q 168.5%Q 109.2%Q 118.3%Q) "NY"
                        (Some "METRO_100")) <> None
      <-> Py.mem [("10001", rpp 125.6%Q 168.5%Q 109.2%Q 118.3%Q)] "10001"
          = true).
Proof.
  split.
  - reflexivity.
  - exact (proj1 (proj2
             (C10_synthetic_cbsa [("10001", "NY"); ("48505", "MI")]
                [("10001", rpp 125.6%Q 168.5%Q 109.2%Q 118.3%Q)]
                BuildEnhanced.get_state_estimates "10001"
                (mkInfo (rpp 125.6%Q 168.5%Q 109.2%Q 118.3%Q) "NY"
                        (Some "METRO_100"))
                eq_refl))).
Defined.

(** ** The state partition of optimize_dataset.py *)

Lemma set_set_same {V} (d : Py.dict V) k v v' :
  Py.set (Py.set d k v) k v' = Py.set d k v'.
Proof.
  induction d as [|[k0 v0] d IH]; simpl.
  - now rewrite String.eqb_refl.
  - destruct (k0 =? k) eqn:E; simpl; rewrite E; [reflexivity|].
    now rewrite IH.
Qed.

Lemma get_default_get {V} (d : Py.dict (Py.dict V)) s z :
  Py.get (Py.get_default d s []) z
  = match Py.get d s with Some sh => Py.get sh z | None => None end.
Proof. unfold Py.get_default. now destruct (Py.get d s). Qed.

(** The step adds the ZIP to the shard of its state, creating it first
    when needed. *)
Lemma shard_step_eq shards zip_code data :
  Optimize.shard_step shards (zip_code, data)
  = Py.set shards (state data)
           (Py.set (Py.get_default shards (state data) []) zip_code data).
Proof.
  unfold Optimize.shard_step, Py.mem, Py.get_default.
  destruct (Py.get shards (state data)) eqn:E.
  - now rewrite E.
  - now rewrite get_set_same, set_set_same.
Qed.

Lemma lookup2_step shards zip_code data s z :
  shard_get (Optimize.shard_step shards (zip_code, data)) s z
  = if (state data =? s)%string && (zip_code =? z)%string then Some data
    else shard_get shards s z.
Proof.
  unfold shard_get. rewrite shard_step_eq, get_set.
  destruct (String.eqb_spec (state data) s) as [<-|Hs]; simpl; [|reflexivity].
  rewrite get_set, get_default_get.
  now destruct (zip_code =? z).
Qed.

Lemma lookup2_fold_other items :
  forall shards s z,
    ~ In z (Py.keys items) ->
    shard_get (fold_left Optimize.shard_step items shards) s z
    = shard_get shards s z.
Proof.
  induction items as [|[zip_code data] items IH]; intros shards s z Hn;
    cbn [fold_left]; [reflexivity|].
  simpl in Hn. rewrite IH by tauto. rewrite lookup2_step.
  destruct (String.eqb_spec zip_code z) as [->|Hne]; [tauto|].
  now rewrite andb_false_r.
Qed.

Lemma lookup2_fold_in items :
  forall shards s z data,
    Py.wf items ->
    In (z, data) items ->
    shard_get (fold_left Optimize.shard_step items shards) s z
    = if (state data =? s)%string then Some data
      else shard_get shards s z.
Proof.
  unfold Py.wf.
  induction items as [|[zip_code d] items IH]; intros shards s z data Hwf Hin;
    cbn [fold_left]; [destruct Hin|].
  simpl in Hwf. inversion Hwf as [|? ? Hnotin Hwf']; subst.
  destruct Hin as [[= -> ->]|Hin].
  - rewrite lookup2_fold_other by assumption.
    rewrite lookup2_step, String.eqb_refl, andb_true_r. reflexivity.
  - rewrite (IH _ _ _ _ Hwf' Hin). rewrite lookup2_step.
    destruct (String.eqb_spec zip_code z) as [->|Hne].
    + exfalso. apply Hnotin. apply (in_map fst) in Hin. exact Hin.
    + now rewrite andb_false_r.
Qed.

Lemma shards_wf items :
  forall shards, Py.wf shards ->
                 Py.wf (fold_left Optimize.shard_step items shards).
Proof.
  induction items as [|[zip_code data] items IH]; intros shards Hwf;
    cbn [fold_left]; [assumption|].
  apply IH. rewrite shard_step_eq. now apply wf_set.
Qed.

(** What the partition holds: a ZIP of the full dataset is found under
    its own state and nowhere else, any other ZIP nowhere. *)
Lemma shards_lookup full_data s z :
  Py.wf full_data ->
  shard_get (Optimize.create_state_shards full_data) s z
  = match Py.get full_data z with
    | Some data => if (state data =? s)%string then Some data else None
    | None => None
    end.
Proof.
  intros Hwf. unfold Optimize.create_state_shards, Py.items.
  destruct (Py.get full_data z) as [data|] eqn:E.
  - apply get_some_in in E.
    rewrite (lookup2_fold_in _ _ _ _ _ Hwf E). reflexivity.
  - apply get_none_iff in E.
    rewrite lookup2_fold_other by assumption. reflexivity.
Qed.

Lemma filter_none {A} (P : A -> bool) (l : list A) :
  (forall a, In a l -> P a = false) -> filter P l = [].
Proof.
  induction l as [|a l IH]; simpl; intros H; [reflexivity|].
  rewrite (H a) by now left. apply IH. intros; apply H; now right.
Qed.

(** In a dict a predicate that only holds under one key selects at most
    that entry. *)
Lemma filter_unique {V} (P : string * V -> bool) (d : Py.dict V) k0 v0 :
  Py.wf d ->
  (forall k v, In (k, v) d -> P (k, v) = true -> k = k0) ->
  In (k0, v0) d ->
  P (k0, v0) = true ->
  filter P d = [(k0, v0)].
Proof.
  unfold Py.wf.
  induction d as [|[k v] d IH]; simpl; intros Hwf Hall Hin HP; [tauto|].
  inversion Hwf as [|? ? Hnotin Hwf']; subst.
  destruct Hin as [[= -> ->]|Hin].
  - rewrite HP. f_equal. apply filter_none. intros [k' v'] Hin'.
    destruct (P (k', v')) eqn:E; [|reflexivity].
    assert (k' = k0) by (apply (Hall k' v'); auto). subst k'.
    exfalso. apply Hnotin. apply (in_map fst) in Hin'. exact Hin'.
  - destruct (P (k, v)) eqn:E.
    + assert (k = k0) by (apply (Hall k v); auto). subst k.
      exfalso. apply Hnotin. apply (in_map fst) in Hin. exact Hin.
    + apply IH; auto. intros k1 v1 H1 H2. apply (Hall k1 v1); auto.
Qed.

(** The priority subset only holds ZIPs of the full dataset. *)
Lemma core_keys_in_full full_data max_size z :
  In z (Py.keys (Optimize.create_core_dataset full_data max_size)) ->
  In z (Py.keys full_data).
Proof.
  unfold Optimize.create_core_dataset.
  generalize (Optimize.core_zips full_data max_size). intros zs.
  assert (H : forall (acc : Py.dict zip_info),
            (forall x, In x (Py.keys acc) -> In x (Py.keys full_data)) ->
            In z (Py.keys
                    (fold_left
                       (fun core_data zip_code =>
                          match Py.get full_data zip_code with
                          | Some data => Py.set core_data zip_code data
                          | None => core_data
                          end) zs acc)) ->
            In z (Py.keys full_data)).
  { induction zs as [|zc zs IH]; intros acc Hacc; cbn [fold_left].
    - apply Hacc.
    - apply IH. destruct (Py.get full_data zc) as [data|] eqn:E; [|exact Hacc].
      intros x Hx. apply in_keys_set in Hx. destruct Hx as [->|Hx].
      + apply mem_true_iff. unfold Py.mem. now rewrite E.
      + now apply Hacc. }
  apply H. intros x [].
Qed.

(** C7. In a full dataset without repeated keys every ZIP lies in the
    partition named by the [state] of its own value, with that value, and
    in no other partition: exactly one partition holds it.  Hence the
    priority subset and the partitions together hold every ZIP of the
    full dataset, and nothing else. *)
Theorem C7_state_partition :
  forall (full_data : Py.dict zip_info) (max_size : nat)
         (zip_code : string) (data : zip_info),
    Py.wf full_data ->
    Py.get full_data zip_code = Some data ->
    (exists shard,
        Py.get (Optimize.create_state_shards full_data) (state data)
        = Some shard
        /\ Py.get shard zip_code = Some data
        /\ shards_holding zip_code (Optimize.create_state_shards full_data)
           = [(state data, shard)])
    /\ (forall s shard,
          Py.get (Optimize.create_state_shards full_data) s = Some shard ->
          Py.mem shard zip_code = true ->
          s = state data)
    /\ Py.wf (Optimize.create_state_shards full_data)
    /\ In zip_code
          (covered (Optimize.create_core_dataset full_data max_size)
                   (Optimize.create_state_shards full_data))
    /\ (forall z,
          In z (covered (Optimize.create_core_dataset full_data max_size)
                        (Optimize.create_state_shards full_data)) ->
          In z (Py.keys full_data)).
Proof.
  intros full_data max_size zip_code data Hwf Hget.
  pose proof (shards_lookup full_data) as L.
  assert (Hswf : Py.wf (Optimize.create_state_shards full_data)).
  { apply shards_wf. constructor. }
  assert (Hown : shard_get (Optimize.create_state_shards full_data)
                           (state data) zip_code = Some data).
  { rewrite L by assumption. now rewrite Hget, String.eqb_refl. }
  assert (Honly : forall s shard,
            Py.get (Optimize.create_state_shards full_data) s = Some shard ->
            Py.mem shard zip_code = true -> s = state data).
  { intros s shard Hs Hm.
    pose proof (L s zip_code Hwf) as Ls. unfold shard_get in Ls.
    rewrite Hs, Hget in Ls. unfold Py.mem in Hm. rewrite Ls in Hm.
    destruct (String.eqb_spec (state data) s); [auto|discriminate]. }
  unfold shard_get in Hown.
  destruct (Py.get (Optimize.create_state_shards full_data) (state data))
    as [shard|] eqn:Hshard; [|discriminate].
  assert (Hin : In (state data, shard)
                   (Optimize.create_state_shards full_data)).
  { now apply get_some_in. }
  split; [|split; [|split; [|split]]].
  - exists shard. split; [reflexivity|]. split; [assumption|].
    unfold shards_holding. apply filter_unique; auto.
    + intros k v Hkv Hm. apply (Honly k v); [|exact Hm].
      now apply in_wf_get.
    + simpl. unfold Py.mem. now rewrite Hown.
  - exact Honly.
  - exact Hswf.
  - unfold covered. apply in_or_app. right. apply in_flat_map.
    exists (state data, shard). split; [assumption|]. simpl.
    apply mem_true_iff. unfold Py.mem. now rewrite Hown.
  - intros z Hz. unfold covered in Hz. apply in_app_or in Hz.
    destruct Hz as [Hz|Hz].
    + now apply core_keys_in_full in Hz.
    + apply in_flat_map in Hz. destruct Hz as [[s sh] [Hsh Hz]]. simpl in Hz.
      apply (in_wf_get _ _ _ Hswf) in Hsh.
      pose proof (L s z Hwf) as Ls. unfold shard_get in Ls. rewrite Hsh in Ls.
      apply mem_true_iff in Hz. unfold Py.mem in Hz. rewrite Ls in Hz.
      apply mem_true_iff. unfold Py.mem.
      destruct (Py.get full_data z); [reflexivity|discriminate].
Qed.

Lemma C7_state_partition_witness :
  shards_holding "48505"
    (Optimize.create_state_shards
       [("10001", mkInfo (rpp 125.6%Q 168.5%Q 109.2%Q 118.3%Q) "NY"
                         (Some "METRO_100"));
        ("48505", mkInfo (rpp 89.5%Q 85.0%Q 93.0%Q 92.0%Q) "MI" None);
        ("10002", mkInfo (rpp 125.0%Q 165.0%Q 109.0%Q 118.0%Q) "NY" None)])
  = [("MI",
      [("48505", mkInfo (rpp 89.5%Q 85.0%Q 93.0%Q 92.0%Q) "MI" None)])]
  /\ In "48505"
        (covered
           (Optimize.create_core_dataset
              [("10001", mkInfo (rpp 125.6%Q 168.5%Q 109.2%Q 118.3%Q) "NY"
                                (Some "METRO_100"));
               ("48505", mkInfo (rpp 89.5%Q 85.0%Q 93.0%Q 92.0%Q) "MI" None);
               ("10002", mkInfo (rpp 125.0%Q 165.0%Q 109.0%Q 118.0%Q) "NY"
                                None)] 2000)
           (Optimize.create_state_shards
              [("10001", mkInfo (rpp 125.6%Q 168.5%Q 109.2%Q 118.3%Q) "NY"
                                (Some "METRO_100"));
               ("48505", mkInfo (rpp 89.5%Q 85.0%Q 93.0%Q 92.0%Q) "MI" None);
               ("10002", mkInfo (rpp 125.0%Q 165.0%Q 109.0%Q 118.0%Q) "NY"
                                None)])).
Proof.
  assert (Hwf : Py.wf
            [("10001", mkInfo (rpp 125.6%Q 168.5%Q 109.2%Q 118.3%Q) "NY"
                              (Some "METRO_100"));
             ("48505", mkInfo (rpp 89.5%Q 85.0%Q 93.0%Q 92.0%Q) "MI" None);
             ("10002", mkInfo (rpp 125.0%Q 165.0%Q 109.0%Q 118.0%Q) "NY"
                              None)]).
  { unfold Py.wf. simpl. repeat constructor; simpl; intuition discriminate. }
  destruct (C7_state_partition _ 2000 "48505"
              (mkInfo (rpp 89.5%Q 85.0%Q 93.0%Q 92.0%Q) "MI" None)
              Hwf eq_refl)
    as [[shard [Hs [_ Hh]]] [_ [_ [Hc _]]]].
  split.
  - injection Hs as <-. exact Hh.
  - exact Hc.
Defined.

(** ** Writing the artifacts *)

Lemma write_all_spec path cs :
  forall w pre,
    Py.get (files w) path = Some pre ->
    fst (File.write_all path cs w)
    = (if fits (writes_left w) cs then Ok tt else Raise OSError)
    /\ Py.get (files (snd (File.write_all path cs w))) path
       = Some (pre ++ accepted (writes_left w) cs)%list
    /\ (forall p, p <> path ->
          Py.get (files (snd (File.write_all path cs w))) p
          = Py.get (files w) p).
Proof.
  induction cs as [|c cs IH]; intros w pre Hpre.
  - simpl. repeat split.
    + now destruct (writes_left w).
    + rewrite Hpre. f_equal.
      destruct (writes_left w) as [n|]; simpl;
        [rewrite firstn_nil|]; now rewrite app_nil_r.
  - cbn [File.write_all]. unfold bind, File.write.
    destruct (writes_left w) as [[|n]|] eqn:Hb.
    + simpl. repeat split.
      now rewrite app_nil_r.
    + set (w1 := mkWorld _ _).
      assert (H1 : Py.get (files w1) path = Some (pre ++ [c])%list).
      { unfold w1. simpl. rewrite get_set_same.
        unfold Py.get_default. now rewrite Hpre. }
      destruct (IH w1 _ H1) as (Hr & Hc & Ho).
      simpl. repeat split.
      * rewrite Hr. reflexivity.
      * rewrite Hc. simpl. now rewrite <- app_assoc.
      * intros p Hp. rewrite (Ho p Hp). unfold w1. simpl.
        apply get_set_other. congruence.
    + set (w1 := mkWorld _ _).
      assert (H1 : Py.get (files w1) path = Some (pre ++ [c])%list).
      { unfold w1. simpl. rewrite get_set_same.
        unfold Py.get_default. now rewrite Hpre. }
      destruct (IH w1 _ H1) as (Hr & Hc & Ho).
      simpl. repeat split.
      * rewrite Hr. reflexivity.
      * rewrite Hc. simpl. now rewrite <- app_assoc.
      * intros p Hp. rewrite (Ho p Hp). unfold w1. simpl.
        apply get_set_other. congruence.
Qed.

Lemma dump_json_spec path data w :
  fst (File.dump_json path data w)
  = (if fits (writes_left w) (Json.iterencode data) then Ok tt
     else Raise OSError)
  /\ Py.get (files (snd (File.dump_json path data w))) path
     = Some (accepted (writes_left w) (Json.iterencode data))
  /\ (forall p, p <> path ->
        Py.get (files (snd (File.dump_json path data w))) p
        = Py.get (files w) p).
Proof.
  unfold File.dump_json, bind, File.open_w.
  set (w0 := mkWorld _ _).
  assert (H0 : Py.get (files w0) path = Some []).
  { unfold w0. simpl. apply get_set_same. }
  destruct (write_all_spec path (Json.iterencode data) w0 [] H0)
    as (Hr & Hc & Ho).
  repeat split.
  - exact Hr.
  - exact Hc.
  - intros p Hp. rewrite (Ho p Hp). unfold w0. simpl.
    apply get_set_other. congruence.
Qed.

(** A run of [generate_comprehensive_dataset] over the lookup file of an
    earlier run, on a medium that fails at the fourth write: the run ends
    with status 1 and the file holds the first three chunks of the new
    text, which is neither the earlier file nor the new one, and which
    [json.load] rejects. *)
Lemma C9_counterexample :
  fst (GenerateFull.main Py.float_plain (Bea.data_reply [])
         (Bea.data_reply [GenerateFull.mkBea "12420" "1" "95.8"])
         (Ok [austin]) true earlier_run) = 1
  /\ Py.get (files (snd (GenerateFull.main Py.float_plain (Bea.data_reply [])
                (Bea.data_reply [GenerateFull.mkBea "12420" "1" "95.8"])
                (Ok [austin]) true earlier_run)))
            "public/col_by_zip.json"
     = Some [JOpen; JLit (Str "78701"); JColon]
  /\ Some [JOpen; JLit (Str "78701"); JColon]
     <> Py.get (files earlier_run) "public/col_by_zip.json"
  /\ [JOpen; JLit (Str "78701"); JColon]
     <> Json.iterencode
          (GenerateFull.final_data
             (GenerateFull.join [("12420", [("rpp_all", 95.8%Q)])] [austin]))
  /\ Json.load [JOpen; JLit (Str "78701"); JColon] = None.
Proof.
  repeat split; try reflexivity; intros H; vm_compute in H; discriminate H.
Qed.

(** C9 (amended). Every write of a lookup file opens the destination,
    which empties it, and then streams the chunks of the JSON text into
    it.  When the medium takes all the chunks the write succeeds and the
    destination holds the complete new text; when it fails after [n] of
    them the write raises and the destination holds exactly these [n]
    chunks, fewer than the text has: its earlier content is gone and the
    new one is partial.  No other file is touched. *)
Theorem C9_write_streams_into_destination :
  forall (path : string) (data : Py.dict zip_info) (w : world),
    fst (File.dump_json path data w)
    = (if fits (writes_left w) (Json.iterencode data) then Ok tt
       else Raise OSError)
    /\ Py.get (files (snd (File.dump_json path data w))) path
       = Some (accepted (writes_left w) (Json.iterencode data))
    /\ (fits (writes_left w) (Json.iterencode data) = true ->
        accepted (writes_left w) (Json.iterencode data)
        = Json.iterencode data)
    /\ (forall n, writes_left w = Some n ->
          fits (writes_left w) (Json.iterencode data) = false ->
          accepted (writes_left w) (Json.iterencode data)
          = firstn n (Json.iterencode data)
          /\ List.length (firstn n (Json.iterencode data)) = n
          /\ n < List.length (Json.iterencode data)
          /\ firstn n (Json.iterencode data) <> Json.iterencode data)
    /\ (forall p, p <> path ->
          Py.get (files (snd (File.dump_json path data w))) p
          = Py.get (files w) p).
Proof.
  intros path data w.
  destruct (dump_json_spec path data w) as (Hr & Hc & Ho).
  split; [exact Hr|]. split; [exact Hc|].
  split; [|split; [|exact Ho]].
  - unfold fits, accepted. destruct (writes_left w) as [n|]; [|reflexivity].
    intros H. apply Nat.leb_le in H. now apply firstn_all2.
  - intros n Hn. rewrite Hn. unfold fits, accepted. intros H.
    apply Nat.leb_gt in H.
    assert (Hlen : List.length (firstn n (Json.iterencode data)) = n)
      by (apply firstn_length_le; lia).
    split; [reflexivity|]. split; [exact Hlen|]. split; [exact H|].
    intros Heq. rewrite Heq in Hlen. lia.
Qed.

(** ** Upstream structural errors *)

Lemma bea_request_structural {R} (r : Bea.reply R) :
  structural_error r = true -> exists e, BuildLookup.bea_request r = Raise e.
Proof.
  unfold structural_error, BuildLookup.bea_request.
  destruct r as [data|e]; [|discriminate].
  destruct (Bea.results_of data) as [res|]; [|eauto].
  destruct (Bea.Error res); [eauto|].
  destruct (Bea.Data res); [discriminate|eauto].
Qed.

Lemma load_rpp_structural {R} (msa_reply state_reply : Bea.reply R) :
  structural_error msa_reply = true \/ structural_error state_reply = true ->
  exists e, BuildLookup.load_rpp msa_reply state_reply = Raise e.
Proof.
  unfold BuildLookup.load_rpp. intros [H|H].
  - destruct (bea_request_structural _ H) as [e ->]. eauto.
  - destruct (bea_request_structural _ H) as [e ->].
    destruct (BuildLookup.bea_request msa_reply); eauto.
Qed.

Lemma fetch_structural (r : Bea.reply GenerateFull.bea_row) :
  structural_error r = true -> GenerateFull.fetch_bea_data r = [].
Proof.
  unfold structural_error, GenerateFull.fetch_bea_data,
    GenerateFull.fetch_bea_data_try.
  destruct r as [data|e]; [|discriminate].
  destruct (Bea.results_of data) as [res|]; [|reflexivity].
  destruct (Bea.Error res); [reflexivity|].
  destruct (Bea.Data res); [discriminate|reflexivity].
Qed.

Lemma write_all_unlimited path cs :
  forall fs pre,
    Py.get fs path = Some pre ->
    File.write_all path cs (mkWorld fs None)
    = (Ok tt, mkWorld (Py.set fs path (pre ++ cs)%list) None).
Proof.
  induction cs as [|c cs IH]; intros fs pre Hpre.
  - simpl. unfold ret. rewrite app_nil_r. f_equal. f_equal.
    clear - Hpre. induction fs as [|[k v] fs IH]; simpl in *; [discriminate|].
    destruct (k =? path) eqn:E.
    + now injection Hpre as ->.
    + now rewrite <- IH.
  - cbn [File.write_all]. unfold bind, File.write. simpl.
    unfold Py.get_default. rewrite Hpre.
    rewrite (IH _ (pre ++ [c])%list) by apply get_set_same.
    now rewrite set_set_same, <- app_assoc.
Qed.

Lemma dump_json_unlimited path data fs :
  File.dump_json path data (mkWorld fs None)
  = (Ok tt, mkWorld (Py.set fs path (Json.iterencode data)) None).
Proof.
  unfold File.dump_json, bind, File.open_w. simpl.
  rewrite (write_all_unlimited _ _ _ []) by apply get_set_same.
  now rewrite set_set_same.
Qed.

(** Both replies of the statistical source are error payloads, and
    [generate_comprehensive_dataset] goes on: it resolves the crosswalk
    from the estimates, writes both lookup files (the directory [src]
    exists) and the run ends with status 0.  The same holds for a reply
    of unrecognized shape. *)
Lemma C8_counterexample :
  GenerateFull.main Py.float_plain
    (Bea.error_reply "Invalid table") (Bea.error_reply "Invalid table")
    (Ok [flint]) true (mkWorld [] None)
  = (0,
     mkWorld
       [("public/col_by_zip.json",
         Json.iterencode
           [("48505", mkInfo (rpp 89.5%Q 85.0%Q 93.0%Q 92.0%Q) "MI" None)]);
        ("src/data/col_by_zip.json",
         Json.iterencode
           [("48505", mkInfo (rpp 89.5%Q 85.0%Q 93.0%Q 92.0%Q) "MI" None)])]
       None)
  /\ fst (GenerateFull.main Py.float_plain
            Bea.unrecognized_reply Bea.unrecognized_reply
            (Ok [flint]) true (mkWorld [] None)) = 0.
Proof. split; reflexivity. Qed.

(** C8 (amended). When the statistical source answers with an error
    payload or with a payload of unrecognized shape, [build_lookup]
    raises, the run of build_cost_of_living_dataset.py ends with status 1
    and no file is written or changed.  [fetch_bea_data] of
    generate_full_dataset.py catches the same condition and returns an
    empty frame: with both tables in error the run continues with an
    empty lookup table and writes the lookup file under [public],
    resolved from the estimates and the national default.  Where the
    directory [src] exists it writes the second file too and ends with
    status 0; where it does not, making [src/data] raises and the run
    ends with status 1, the first file written. *)
Theorem C8_structural_error :
  forall (float : string -> option num)
         (bad other : Bea.reply BuildLookup.rpp_row)
         (bad_state bad_msa : Bea.reply GenerateFull.bea_row)
         (hud : result (list Crosswalk.row)) (zip_df : list Crosswalk.row)
         (src_dir : bool) (w : world),
    structural_error bad = true ->
    structural_error bad_state = true ->
    structural_error bad_msa = true ->
    writes_left w = None ->
    let text :=
      Json.iterencode
        (GenerateFull.final_data (GenerateFull.join [] zip_df)) in
    BuildLookup.main bad other hud w = (1, w)
    /\ BuildLookup.main other bad hud w = (1, w)
    /\ GenerateFull.fetch_bea_data bad_state = []
    /\ GenerateFull.main float bad_state bad_msa (Ok zip_df) src_dir w
       = if src_dir
         then (0,
               mkWorld
                 (Py.set (Py.set (files w) "public/col_by_zip.json" text)
                         "src/data/col_by_zip.json" text)
                 None)
         else (1,
               mkWorld (Py.set (files w) "public/col_by_zip.json" text)
                       None).
Proof.
  intros float bad other bad_state bad_msa hud zip_df src_dir w
         Hbad Hs Hm Hw text.
  split; [|split; [|split]].
  - unfold BuildLookup.main, BuildLookup.build_lookup, bind, lift.
    destruct (load_rpp_structural bad other (or_introl Hbad)) as [e ->].
    reflexivity.
  - unfold BuildLookup.main, BuildLookup.build_lookup, bind, lift.
    destruct (load_rpp_structural other bad (or_intror Hbad)) as [e ->].
    reflexivity.
  - now apply fetch_structural.
  - unfold GenerateFull.main, GenerateFull.generate_comprehensive_dataset.
    rewrite (fetch_structural _ Hs), (fetch_structural _ Hm).
    destruct w as [fs budget]. simpl in Hw. subst budget.
    unfold bind, lift, ret, raise.
    cbn [GenerateFull.process_rpp_data fold_left]. fold text.
    rewrite dump_json_unlimited. destruct src_dir; [|reflexivity].
    rewrite dump_json_unlimited. reflexivity.
Qed.

Lemma C8_structural_error_witness :
  BuildLookup.main (Bea.error_reply "Invalid table") (Bea.data_reply [])
                   (Ok [flint]) (mkWorld [] None)
  = (1, mkWorld [] None)
  /\ fst (GenerateFull.main Py.float_plain (Bea.error_reply "Invalid table")
            Bea.unrecognized_reply (Ok [flint]) true (mkWorld [] None))
     = 0
  /\ fst (GenerateFull.main Py.float_plain (Bea.error_reply "Invalid table")
            Bea.unrecognized_reply (Ok [flint]) false (mkWorld [] None))
     = 1.
Proof.
  destruct (C8_structural_error Py.float_plain
              (Bea.error_reply "Invalid table") (Bea.data_reply [])
              (Bea.error_reply "Invalid table") Bea.unrecognized_reply
              (Ok [flint]) [flint] true (mkWorld [] None)
              eq_refl eq_refl eq_refl eq_refl)
    as [H1 [_ [_ H4]]].
  destruct (C8_structural_error Py.float_plain
              (Bea.error_reply "Invalid table") (Bea.data_reply [])
              (Bea.error_reply "Invalid table") Bea.unrecognized_reply
              (Ok [flint]) [flint] false (mkWorld [] None)
              eq_refl eq_refl eq_refl eq_refl)
    as [_ [_ [_ H5]]].
  split; [exact H1|]. split.
  - rewrite H4. reflexivity.
  - rewrite H5. reflexivity.
Defined.

(** ** De-duplication and completeness *)

Section SortFacts.
Context {A : Type} (le : A -> A -> bool).

Lemma in_insert x y l : In x (Pandas.insert le y l) <-> x = y \/ In x l.
Proof.
  induction l as [|z l IH]; simpl.
  - intuition.
  - destruct (le y z); simpl; [intuition|].
    rewrite IH. intuition.
Qed.

Lemma in_sort x l : In x (Pandas.sort le l) <-> In x l.
Proof.
  induction l as [|y l IH]; simpl; [tauto|].
  rewrite in_insert, IH. intuition.
Qed.

Lemma nodup_insert y l :
  ~ In y l -> NoDup l -> NoDup (Pandas.insert le y l).
Proof.
  induction l as [|z l IH]; simpl; intros Hn Hnd.
  - constructor; [tauto|constructor].
  - destruct (le y z).
    + constructor; [simpl; tauto|assumption].
    + inversion Hnd as [|? ? Hz Hl]; subst. constructor.
      * rewrite in_insert. intros [->|H]; tauto.
      * apply IH; tauto.
Qed.

Lemma nodup_sort l : NoDup l -> NoDup (Pandas.sort le l).
Proof.
  induction l as [|y l IH]; simpl; intros Hnd; [constructor|].
  inversion Hnd; subst. apply nodup_insert; [|auto].
  now rewrite in_sort.
Qed.
End SortFacts.

Lemma in_present {A} (a : A) l : In a (Pandas.present l) <-> In (Some a) l.
Proof.
  induction l as [|[b|] l IH]; simpl.
  - tauto.
  - rewrite IH. split; intros [H|H]; auto; [left; congruence|].
    injection H as ->. now left.
  - rewrite IH. split; [auto|]. intros [H|H]; [discriminate|auto].
Qed.

Lemma in_distinct x l : In x (Pandas.distinct l) <-> In x l.
Proof.
  induction l as [|y l IH]; simpl; [tauto|].
  rewrite filter_In, IH.
  destruct (String.eqb_spec x y) as [->|Hne]; simpl.
  - intuition.
  - intuition congruence.
Qed.

Lemma nodup_distinct l : NoDup (Pandas.distinct l).
Proof.
  induction l as [|y l IH]; simpl; constructor.
  - rewrite filter_In. rewrite String.eqb_refl. simpl. intros [_ H].
    discriminate.
  - now apply NoDup_filter.
Qed.

(** The group keys of the de-duplicated frame. *)
Lemma dedupe_zips df :
  map Crosswalk.ZIP (Crosswalk.dedupe df)
  = map Some
      (Pandas.sort String.leb
         (Pandas.distinct
            (Pandas.present
               (map Crosswalk.ZIP (Crosswalk.sort_values df))))).
Proof.
  unfold Crosswalk.dedupe, Crosswalk.groupby_first.
  rewrite map_map. reflexivity.
Qed.

Lemma dedupe_has_zip df z :
  In (Some z) (map Crosswalk.ZIP (Crosswalk.dedupe df))
  <-> In (Some z) (map Crosswalk.ZIP df).
Proof.
  rewrite dedupe_zips. rewrite in_map_iff. split.
  - intros (k & [= ->] & Hk).
    rewrite in_sort, in_distinct, in_present in Hk.
    rewrite in_map_iff in *. destruct Hk as (r & Hr & Hin).
    exists r. split; [assumption|].
    unfold Crosswalk.sort_values in Hin. now rewrite in_sort in Hin.
  - intros Hin. exists z. split; [reflexivity|].
    rewrite in_sort, in_distinct, in_present.
    rewrite in_map_iff in *. destruct Hin as (r & Hr & Hin).
    exists r. split; [assumption|].
    unfold Crosswalk.sort_values. now rewrite in_sort.
Qed.

Lemma dedupe_zip_present df r :
  In r (Crosswalk.dedupe df) -> exists z, Crosswalk.ZIP r = Some z.
Proof.
  unfold Crosswalk.dedupe, Crosswalk.groupby_first.
  rewrite in_map_iff. intros (k & <- & _). now exists k.
Qed.

(** One row per ZIP after the de-duplication. *)
Lemma dedupe_nodup df : NoDup (map Crosswalk.ZIP (Crosswalk.dedupe df)).
Proof.
  rewrite dedupe_zips. apply Injective_map_NoDup.
  - intros a b [= ->]. reflexivity.
  - apply nodup_sort, nodup_distinct.
Qed.

Lemma join_step_data rpp_lookup s r :
  GenerateFull.final_data (GenerateFull.join_step rpp_lookup s r)
  = Py.set (GenerateFull.final_data s) (GenerateFull.zip_code_of r)
           (GenerateFull.resolved rpp_lookup r).
Proof.
  unfold GenerateFull.join_step.
  destruct (fst (GenerateFull.resolve rpp_lookup r)); reflexivity.
Qed.

Lemma join_fold_keys rpp_lookup rows :
  forall s k,
    In k (Py.keys (GenerateFull.final_data
                     (fold_left (GenerateFull.join_step rpp_lookup) rows s)))
    <-> In k (Py.keys (GenerateFull.final_data s))
        \/ exists r, In r rows /\ k = GenerateFull.zip_code_of r.
Proof.
  induction rows as [|r rows IH]; intros s k; cbn [fold_left].
  - split; [auto|]. intros [H|(r & [] & _)]. exact H.
  - rewrite IH, join_step_data, in_keys_set. split.
    + intros [[->|H]|(r' & Hr' & ->)]; eauto.
      * right. exists r. split; [now left|reflexivity].
      * right. exists r'. split; [now right|reflexivity].
    + intros [H|(r' & [<-|Hr'] & ->)]; eauto.
Qed.

Lemma join_fold_wf rpp_lookup rows :
  forall s,
    Py.wf (GenerateFull.final_data s) ->
    Py.wf (GenerateFull.final_data
             (fold_left (GenerateFull.join_step rpp_lookup) rows s)).
Proof.
  induction rows as [|r rows IH]; intros s Hwf; cbn [fold_left]; [assumption|].
  apply IH. rewrite join_step_data. now apply wf_set.
Qed.

(** The keys of the joined output are the zero-padded ZIPs of the
    crosswalk, each once. *)
Lemma join_keys rpp_lookup zip_df k :
  In k (Py.keys (GenerateFull.final_data (GenerateFull.join rpp_lookup zip_df)))
  <-> exists z, In (Some z) (map Crosswalk.ZIP zip_df) /\ k = Py.zfill 5 z.
Proof.
  unfold GenerateFull.join. rewrite join_fold_keys. simpl. split.
  - intros [[]|(r & Hr & ->)].
    destruct (dedupe_zip_present _ _ Hr) as [z Hz].
    exists z. split.
    + apply dedupe_has_zip. rewrite <- Hz. now apply in_map.
    + unfold GenerateFull.zip_code_of. now rewrite Hz.
  - intros (z & Hz & ->). right.
    apply dedupe_has_zip in Hz. rewrite in_map_iff in Hz.
    destruct Hz as (r & Hr & Hin). exists r. split; [assumption|].
    unfold GenerateFull.zip_code_of. now rewrite Hr.
Qed.

Lemma zfill_long n s : n <= String.length s -> Py.zfill n s = s.
Proof.
  intros H. unfold Py.zfill. apply Nat.leb_le in H. now rewrite H.
Qed.

(** ** The order of the de-duplication *)

Section StableSort.
Context {A : Type} (le : A -> A -> bool).
Hypothesis le_total : forall a b, le a b = true \/ le b a = true.
Hypothesis le_trans :
  forall a b c, le a b = true -> le b c = true -> le a c = true.

Lemma sorted_insert x l :
  StronglySorted (fun a b => le a b = true) l ->
  StronglySorted (fun a b => le a b = true) (Pandas.insert le x l).
Proof.
  induction 1 as [|y l Hs IH Hy]; simpl.
  - repeat constructor.
  - destruct (le x y) eqn:E.
    + constructor; [now constructor|]. constructor; [assumption|].
      rewrite Forall_forall in *. intros z Hz. eauto.
    + constructor; [assumption|].
      rewrite Forall_forall in *. intros z Hz.
      apply in_insert in Hz. destruct Hz as [->|Hz]; [|auto].
      destruct (le_total x y) as [H|H]; congruence.
Qed.

Lemma sorted_sort l :
  StronglySorted (fun a b => le a b = true) (Pandas.sort le l).
Proof.
  induction l as [|x l IH]; simpl; [constructor|].
  now apply sorted_insert.
Qed.

Lemma sorted_filter (P : A -> bool) l :
  StronglySorted (fun a b => le a b = true) l ->
  StronglySorted (fun a b => le a b = true) (filter P l).
Proof.
  induction 1 as [|y l Hs IH Hy]; simpl; [constructor|].
  destruct (P y); [|assumption]. constructor; [assumption|].
  rewrite Forall_forall in *. intros z Hz. apply filter_In in Hz.
  now apply Hy.
Qed.

Lemma insert_first x l :
  (forall z, In z l -> le x z = true) -> Pandas.insert le x l = x :: l.
Proof.
  destruct l as [|y l]; simpl; [reflexivity|].
  intros H. now rewrite (H y) by now left.
Qed.

(** Selecting rows commutes with the stable sort. *)
Lemma filter_insert (P : A -> bool) x l :
  StronglySorted (fun a b => le a b = true) l ->
  filter P (Pandas.insert le x l)
  = if P x then Pandas.insert le x (filter P l) else filter P l.
Proof.
  induction 1 as [|y l Hs IH Hy]; simpl.
  - now destruct (P x).
  - destruct (le x y) eqn:E; simpl.
    + destruct (P x) eqn:Px; [|reflexivity].
      destruct (P y) eqn:Py; simpl; [now rewrite E|].
      rewrite insert_first; [reflexivity|].
      intros z Hz. apply filter_In in Hz. destruct Hz as [Hz _].
      rewrite Forall_forall in Hy. eauto.
    + rewrite IH. destruct (P x), (P y); simpl; try reflexivity.
      now rewrite E.
Qed.

Lemma filter_sort (P : A -> bool) l :
  filter P (Pandas.sort le l) = Pandas.sort le (filter P l).
Proof.
  induction l as [|x l IH]; simpl; [reflexivity|].
  rewrite filter_insert by apply sorted_sort.
  rewrite IH. now destruct (P x).
Qed.

(** The head of the sorted list is the first of the rows that may stand
    before all others. *)
Lemma sort_head l :
  forall x rest,
    Pandas.sort le l = x :: rest ->
    (forall y, In y l -> le x y = true)
    /\ exists l1 l2, l = (l1 ++ x :: l2)%list
                     /\ forall y, In y l1 -> le y x = false.
Proof.
  induction l as [|a l IH]; intros x rest; simpl; [discriminate|].
  destruct (Pandas.sort le l) as [|x0 rest0] eqn:E; simpl.
  - intros [= <- <-].
    assert (l = []) as ->.
    { destruct l as [|b l]; [reflexivity|].
      assert (Hb : In b (Pandas.sort le (b :: l)))
        by (apply in_sort; now left).
      rewrite E in Hb. destruct Hb. }
    split.
    + intros y [<-|[]]. destruct (le_total a a); assumption.
    + exists [], []. split; [reflexivity|]. intros y [].
  - destruct (IH x0 rest0 eq_refl) as (Hall & l1 & l2 & -> & Hbefore).
    destruct (le a x0) eqn:Ea; intros [= <- <-].
    + split.
      * intros y [<-|Hy]; [destruct (le_total a a); assumption|].
        apply (le_trans _ x0); auto.
      * exists [], (l1 ++ x0 :: l2)%list. split; [reflexivity|].
        intros y [].
    + split.
      * intros y [<-|Hy]; [|auto].
        destruct (le_total a x0); congruence.
      * exists (a :: l1), l2. split; [reflexivity|].
        intros y [<-|Hy]; auto.
Qed.
End StableSort.

Lemma compare_refl s : String.compare s s = Eq.
Proof.
  destruct (String.compare s s) eqn:E; [reflexivity| |];
    exfalso; pose proof (String.compare_antisym s s) as H;
    rewrite E in H; discriminate H.
Qed.

Lemma cmp_str_eq a b : Pandas.cmp_str_asc a b = Eq <-> a = b.
Proof.
  destruct a as [x|], b as [y|]; simpl; split; try discriminate;
    try reflexivity.
  - intros H. apply String.compare_eq_iff in H. now subst.
  - intros [= ->]. apply compare_refl.
Qed.

Lemma cmp_str_antisym a b :
  Pandas.cmp_str_asc b a = CompOpp (Pandas.cmp_str_asc a b).
Proof.
  destruct a as [x|], b as [y|]; simpl; try reflexivity.
  apply String.compare_antisym.
Qed.

Lemma cmp_str_lt_trans a b c :
  Pandas.cmp_str_asc a b = Lt -> Pandas.cmp_str_asc b c = Lt ->
  Pandas.cmp_str_asc a c = Lt.
Proof.
  destruct a as [x|], b as [y|], c as [z|]; simpl; try discriminate;
    try reflexivity.
  intros H1 H2. apply String_as_OT.cmp_lt.
  apply String_as_OT.lt_trans with y; now apply String_as_OT.cmp_lt.
Qed.

(** [cmp_num_desc a b <> Gt]: [a] may stand before [b]. *)
Lemma num_desc_le a b :
  Pandas.cmp_num_desc a b <> Gt
  <-> match a, b with
      | Some x, Some y => (y <= x)%Q
      | None, Some _ => False
      | _, None => True
      end.
Proof.
  destruct a as [x|], b as [y|]; simpl.
  - symmetry. apply Qle_alt.
  - split; [auto|discriminate].
  - split; [congruence|tauto].
  - split; [auto|discriminate].
Qed.

Lemma num_desc_total a b :
  Pandas.cmp_num_desc a b <> Gt \/ Pandas.cmp_num_desc b a <> Gt.
Proof.
  rewrite !num_desc_le. destruct a as [x|], b as [y|]; auto.
  destruct (Qlt_le_dec x y) as [H|H];
    [right; now apply Qlt_le_weak|left; assumption].
Qed.

Lemma num_desc_trans a b c :
  Pandas.cmp_num_desc a b <> Gt -> Pandas.cmp_num_desc b c <> Gt ->
  Pandas.cmp_num_desc a c <> Gt.
Proof.
  rewrite !num_desc_le. destruct a as [x|], b as [y|], c as [z|]; auto;
    try tauto.
  intros H1 H2. now apply Qle_trans with y.
Qed.

Lemma row_le_iff a b :
  Crosswalk.row_le a b = true
  <-> Pandas.cmp_str_asc (Crosswalk.ZIP a) (Crosswalk.ZIP b) = Lt
      \/ (Crosswalk.ZIP a = Crosswalk.ZIP b
          /\ Pandas.cmp_num_desc (Crosswalk.RES_RATIO a)
                                 (Crosswalk.RES_RATIO b) <> Gt).
Proof.
  unfold Crosswalk.row_le.
  destruct (Pandas.cmp_str_asc (Crosswalk.ZIP a) (Crosswalk.ZIP b)) eqn:E.
  - apply cmp_str_eq in E. rewrite E.
    destruct (Pandas.cmp_num_desc _ _); split; auto; try discriminate;
      try (intros [H|[_ H]]; [discriminate|congruence]);
      intros _; right; split; auto; discriminate.
  - split; auto.
  - split; [discriminate|]. intros [H|[H _]]; [discriminate|].
    apply cmp_str_eq in H. congruence.
Qed.

Lemma row_le_total a b :
  Crosswalk.row_le a b = true \/ Crosswalk.row_le b a = true.
Proof.
  rewrite !row_le_iff.
  destruct (Pandas.cmp_str_asc (Crosswalk.ZIP a) (Crosswalk.ZIP b)) eqn:E.
  - apply cmp_str_eq in E.
    destruct (num_desc_total (Crosswalk.RES_RATIO a) (Crosswalk.RES_RATIO b));
      [left|right]; right; auto.
  - left. now left.
  - right. left. rewrite cmp_str_antisym, E. reflexivity.
Qed.

Lemma row_le_trans a b c :
  Crosswalk.row_le a b = true -> Crosswalk.row_le b c = true ->
  Crosswalk.row_le a c = true.
Proof.
  rewrite !row_le_iff.
  intros [H1|[H1 H1']] [H2|[H2 H2']].
  - left. eapply cmp_str_lt_trans; eauto.
  - left. now rewrite <- H2.
  - left. now rewrite H1.
  - right. split; [congruence|]. eapply num_desc_trans; eauto.
Qed.

Lemma sort_values_group df k :
  filter (Crosswalk.in_group k) (Crosswalk.sort_values df)
  = Pandas.sort Crosswalk.row_le (filter (Crosswalk.in_group k) df).
Proof.
  unfold Crosswalk.sort_values.
  apply filter_sort; [apply row_le_total|apply row_le_trans].
Qed.

Lemma in_group_zip k r :
  Crosswalk.in_group k r = true <-> Crosswalk.ZIP r = Some k.
Proof.
  unfold Crosswalk.in_group. destruct (Crosswalk.ZIP r) as [z|].
  - rewrite String.eqb_eq. split; congruence.
  - split; discriminate.
Qed.

(** Inside a group the order is the one of the ratios. *)
Lemma row_le_same_zip a b :
  Crosswalk.ZIP a = Crosswalk.ZIP b ->
  Crosswalk.row_le a b = true
  <-> Pandas.cmp_num_desc (Crosswalk.RES_RATIO a) (Crosswalk.RES_RATIO b)
      <> Gt.
Proof.
  intros Hz. rewrite row_le_iff. split.
  - intros [H|[_ H]]; [|assumption].
    apply (proj2 (cmp_str_eq _ _)) in Hz. congruence.
  - auto.
Qed.

Lemma first_valid_head {A} (f : Crosswalk.row -> option A) h t :
  f h <> None -> Pandas.first_valid (map f (h :: t)) = f h.
Proof. simpl. destruct (f h); [reflexivity|congruence]. Qed.

Lemma first_of_complete_head k h t :
  Crosswalk.ZIP h = Some k -> no_missing_cell h ->
  Crosswalk.first k (h :: t) = h.
Proof.
  intros Hz (Hc & Hs & Hm & Hr). unfold Crosswalk.first.
  rewrite !first_valid_head by assumption.
  destruct h; simpl in *. now subst.
Qed.

(** The ratio column of a sorted group starts with its largest ratio, so
    skipping missing cells does not change what [first] takes from it. *)
Lemma first_valid_ratio_sorted (g : list Crosswalk.row) :
  StronglySorted
    (fun a b => Pandas.cmp_num_desc (Crosswalk.RES_RATIO a)
                                    (Crosswalk.RES_RATIO b) <> Gt) g ->
  Pandas.first_valid (map Crosswalk.RES_RATIO g)
  = match g with [] => None | h :: _ => Crosswalk.RES_RATIO h end.
Proof.
  destruct g as [|h t]; [reflexivity|]. intros Hs.
  apply StronglySorted_inv in Hs. destruct Hs as [_ Hh].
  simpl. destruct (Crosswalk.RES_RATIO h) as [q|] eqn:E; [reflexivity|].
  rewrite Forall_forall in Hh.
  induction t as [|b t IH]; [reflexivity|].
  simpl. assert (Hb : Crosswalk.RES_RATIO b = None).
  { specialize (Hh b (or_introl eq_refl)). rewrite num_desc_le in Hh.
    destruct (Crosswalk.RES_RATIO b); [destruct Hh|reflexivity]. }
  rewrite Hb. apply IH. intros y Hy. apply Hh. now right.
Qed.

(** The row kept for a ZIP, in terms of the rows of that ZIP in the
    order of the input. *)
Lemma dedupe_row df x :
  In x (Crosswalk.dedupe df) ->
  exists k h rest l1 l2,
    Crosswalk.ZIP x = Some k
    /\ x = Crosswalk.first k (h :: rest)
    /\ Pandas.sort Crosswalk.row_le (filter (Crosswalk.in_group k) df)
       = h :: rest
    /\ filter (Crosswalk.in_group k) df = (l1 ++ h :: l2)%list
    /\ (forall y, In y (filter (Crosswalk.in_group k) df) ->
          Pandas.cmp_num_desc (Crosswalk.RES_RATIO h) (Crosswalk.RES_RATIO y)
          <> Gt)
    /\ (forall y, In y l1 ->
          Pandas.cmp_num_desc (Crosswalk.RES_RATIO y) (Crosswalk.RES_RATIO h)
          = Gt)
    /\ Crosswalk.RES_RATIO x = Crosswalk.RES_RATIO h.
Proof.
  unfold Crosswalk.dedupe, Crosswalk.groupby_first.
  rewrite in_map_iff. intros (k & <- & Hk).
  rewrite in_sort, in_distinct, in_present in Hk.
  rewrite in_map_iff in Hk. destruct Hk as (r & Hr & Hin).
  rewrite sort_values_group.
  set (g := filter (Crosswalk.in_group k) df).
  assert (Hzip : forall y, In y g -> Crosswalk.ZIP y = Some k).
  { intros y Hy. apply filter_In in Hy. now apply in_group_zip. }
  assert (Hg : In r g).
  { apply filter_In. split.
    - unfold Crosswalk.sort_values in Hin. now rewrite in_sort in Hin.
    - now apply in_group_zip. }
  destruct (Pandas.sort Crosswalk.row_le g) as [|h rest] eqn:E.
  { apply (in_sort Crosswalk.row_le) in Hg. rewrite E in Hg. destruct Hg. }
  destruct (sort_head Crosswalk.row_le row_le_total row_le_trans g h rest E)
    as (Hall & l1 & l2 & Hsplit & Hbefore).
  assert (Hh : In h g).
  { apply (in_sort Crosswalk.row_le). rewrite E. now left. }
  exists k, h, rest, l1, l2.
  split; [reflexivity|]. split; [reflexivity|]. split; [exact E|].
  split; [assumption|]. split; [|split].
  - intros y Hy. apply row_le_same_zip; [|now apply Hall].
    rewrite (Hzip h Hh), (Hzip y Hy). reflexivity.
  - intros y Hy.
    assert (Hyg : In y g).
    { rewrite Hsplit. apply in_or_app. now left. }
    specialize (Hbefore y Hy).
    destruct (Pandas.cmp_num_desc (Crosswalk.RES_RATIO y)
                                  (Crosswalk.RES_RATIO h)) eqn:C;
      try reflexivity; exfalso;
      (assert (Hle : Crosswalk.row_le y h = true);
       [apply row_le_same_zip;
        [rewrite (Hzip h Hh), (Hzip y Hyg); reflexivity
        |rewrite C; discriminate]
       |congruence]).
  - simpl.
    assert (Hs : StronglySorted
                   (fun a b => Pandas.cmp_num_desc (Crosswalk.RES_RATIO a)
                                 (Crosswalk.RES_RATIO b) <> Gt)
                   (h :: rest)).
    { rewrite <- E.
      pose proof (sorted_sort Crosswalk.row_le row_le_total row_le_trans g)
        as S.
      assert (Hz' : forall y, In y (Pandas.sort Crosswalk.row_le g) ->
                              Crosswalk.ZIP y = Some k).
      { intros y Hy. apply Hzip. now apply (in_sort Crosswalk.row_le). }
      revert S Hz'. generalize (Pandas.sort Crosswalk.row_le g).
      induction 1 as [|a l Hsl IH Ha]; intros Hz'; constructor.
      - apply IH. intros y Hy. apply Hz'. now right.
      - rewrite Forall_forall in *. intros y Hy.
        apply row_le_same_zip; [|now apply Ha].
        rewrite (Hz' a), (Hz' y); auto; [now right|now left]. }
    exact (first_valid_ratio_sorted _ Hs).
Qed.

(** The part of the de-duplication that holds on every input: the ratio
    of the record kept for a ZIP is the largest ratio among the rows of
    that ZIP. *)
Lemma dedupe_ratio_max df x :
  In x (Crosswalk.dedupe df) ->
  (forall r q,
      In r df -> Crosswalk.ZIP r = Crosswalk.ZIP x ->
      Crosswalk.RES_RATIO r = Some q ->
      exists m, Crosswalk.RES_RATIO x = Some m /\ (q <= m)%Q)
  /\ (forall m,
        Crosswalk.RES_RATIO x = Some m ->
        exists r, In r df /\ Crosswalk.ZIP r = Crosswalk.ZIP x
                  /\ Crosswalk.RES_RATIO r = Some m).
Proof.
  intros Hx.
  destruct (dedupe_row df x Hx)
    as (k & h & rest & l1 & l2 & Hz & _ & _ & Hsplit & Hmax & _ & Hratio).
  assert (Hh : In h (filter (Crosswalk.in_group k) df)).
  { rewrite Hsplit. apply in_or_app. right. now left. }
  split.
  - intros r q Hr Hzr Hq.
    assert (Hrg : In r (filter (Crosswalk.in_group k) df)).
    { apply filter_In. split; [assumption|].
      apply in_group_zip. congruence. }
    specialize (Hmax r Hrg). rewrite num_desc_le, Hq in Hmax.
    rewrite Hratio. destruct (Crosswalk.RES_RATIO h) as [m|];
      [eauto|destruct Hmax].
  - intros m Hm. exists h. apply filter_In in Hh. destruct Hh as [Hh Hg].
    apply in_group_zip in Hg. repeat split; congruence.
Qed.

(** When the first row at the largest ratio has no missing cell, it is
    the record kept; rows before it in the input have a smaller ratio. *)
Lemma dedupe_keeps_first_max df x :
  In x (Crosswalk.dedupe df) ->
  exists k h l1 l2,
    Crosswalk.ZIP x = Some k
    /\ filter (Crosswalk.in_group k) df = (l1 ++ h :: l2)%list
    /\ (forall y, In y (filter (Crosswalk.in_group k) df) ->
          Pandas.cmp_num_desc (Crosswalk.RES_RATIO h) (Crosswalk.RES_RATIO y)
          <> Gt)
    /\ (forall y, In y l1 ->
          Pandas.cmp_num_desc (Crosswalk.RES_RATIO y) (Crosswalk.RES_RATIO h)
          = Gt)
    /\ (no_missing_cell h -> x = h).
Proof.
  intros Hx.
  destruct (dedupe_row df x Hx)
    as (k & h & rest & l1 & l2 & Hz & Hfirst & _ & Hsplit & Hmax & Hbefore & _).
  exists k, h, l1, l2.
  split; [assumption|]. split; [assumption|]. split; [assumption|].
  split; [assumption|].
  intros Hc. rewrite Hfirst. apply first_of_complete_head; [|assumption].
  assert (Hh : In h (filter (Crosswalk.in_group k) df)).
  { rewrite Hsplit. apply in_or_app. right. now left. }
  apply filter_In in Hh. now apply in_group_zip.
Qed.
(** ** The joined table as a whole *)

Lemma join_fold_get_other rpp_lookup rows :
  forall s key,
    (forall r, In r rows -> GenerateFull.zip_code_of r <> key) ->
    Py.get (GenerateFull.final_data
              (fold_left (GenerateFull.join_step rpp_lookup) rows s)) key
    = Py.get (GenerateFull.final_data s) key.
Proof.
  induction rows as [|a rows IH]; intros s key Hne; cbn [fold_left];
    [reflexivity|].
  rewrite IH by (intros r Hr; apply Hne; now right).
  rewrite join_step_data. apply get_set_other. apply Hne. now left.
Qed.

Lemma join_fold_get rpp_lookup rows :
  forall s r,
    In r rows ->
    (forall r', In r' rows ->
       GenerateFull.zip_code_of r' = GenerateFull.zip_code_of r -> r' = r) ->
    Py.get (GenerateFull.final_data
              (fold_left (GenerateFull.join_step rpp_lookup) rows s))
           (GenerateFull.zip_code_of r)
    = Some (GenerateFull.resolved rpp_lookup r).
Proof.
  induction rows as [|a rows IH]; intros s r Hin Huniq; cbn [fold_left];
    [destruct Hin|].
  destruct (existsb (fun r' => GenerateFull.zip_code_of r'
                               =? GenerateFull.zip_code_of r) rows) eqn:E.
  - apply existsb_exists in E. destruct E as (r' & Hr' & Hk).
    apply String.eqb_eq in Hk.
    assert (r' = r) by (apply Huniq; [now right|assumption]). subst r'.
    apply IH; [assumption|]. intros x Hx. apply Huniq. now right.
  - assert (Hne : forall x, In x rows ->
                    GenerateFull.zip_code_of x <> GenerateFull.zip_code_of r).
    { intros x Hx Heq.
      assert (Ht : existsb (fun r' => GenerateFull.zip_code_of r'
                                      =? GenerateFull.zip_code_of r) rows
                   = true).
      { apply existsb_exists. exists x. split; [assumption|].
        now apply String.eqb_eq. }
      congruence. }
    rewrite join_fold_get_other by assumption.
    destruct Hin as [->|Hin].
    + apply join_step_stores.
    + exfalso. now apply (Hne r Hin).
Qed.

Lemma nodup_map_injective {A B} (f : A -> B) (l : list A) a b :
  NoDup (map f l) -> In a l -> In b l -> f a = f b -> a = b.
Proof.
  induction l as [|x l IH]; simpl; intros Hnd Ha Hb Hf; [destruct Ha|].
  inversion Hnd as [|? ? Hx Hl]; subst.
  destruct Ha as [->|Ha], Hb as [->|Hb]; auto.
  - exfalso. apply Hx. rewrite Hf. now apply in_map.
  - exfalso. apply Hx. rewrite <- Hf. now apply in_map.
Qed.

(** With five-character ZIPs every de-duplicated row is found in the
    output under its ZIP, with the record it resolves to. *)
Lemma join_output_value rpp_lookup zip_df r z :
  (forall z', In (Some z') (map Crosswalk.ZIP zip_df) ->
              String.length z' = 5) ->
  In r (Crosswalk.dedupe zip_df) ->
  Crosswalk.ZIP r = Some z ->
  Py.get (GenerateFull.final_data (GenerateFull.join rpp_lookup zip_df)) z
  = Some (GenerateFull.resolved rpp_lookup r).
Proof.
  intros Hlen Hr Hz.
  assert (Hcode : forall x, In x (Crosswalk.dedupe zip_df) ->
            exists k, Crosswalk.ZIP x = Some k
                      /\ GenerateFull.zip_code_of x = k).
  { intros x Hx. destruct (dedupe_zip_present _ _ Hx) as [k Hk].
    exists k. split; [assumption|].
    unfold GenerateFull.zip_code_of. rewrite Hk. simpl.
    apply zfill_long. rewrite Hlen; [lia|].
    apply dedupe_has_zip. rewrite <- Hk. now apply in_map. }
  destruct (Hcode r Hr) as (k & Hk & Hzr).
  rewrite Hz in Hk. injection Hk as Hk. rewrite <- Hk in Hzr.
  rewrite <- Hzr. unfold GenerateFull.join. apply join_fold_get; [assumption|].
  intros r' Hr' Heq.
  destruct (Hcode r' Hr') as (k' & Hk' & Hzr').
  apply (nodup_map_injective Crosswalk.ZIP (Crosswalk.dedupe zip_df));
    [apply dedupe_nodup|assumption|assumption|congruence].
Qed.

(** The three counters count the rows by the branch they take. *)
Lemma join_fold_counts rpp_lookup rows :
  forall s,
    counts (fold_left (GenerateFull.join_step rpp_lookup) rows s)
    = (GenerateFull.n_matched_cbsa s
       + tally rpp_lookup GenerateFull.matched_cbsa rows,
       GenerateFull.n_matched_state s
       + tally rpp_lookup GenerateFull.matched_state rows,
       GenerateFull.n_estimated s
       + tally rpp_lookup GenerateFull.estimated rows).
Proof.
  induction rows as [|a rows IH]; intros s; cbn [fold_left].
  - unfold counts, tally. simpl. now rewrite !Nat.add_0_r.
  - rewrite IH. pose proof (join_step_counts rpp_lookup s a) as Hc.
    unfold counts in Hc. unfold tally. cbn [filter].
    remember (GenerateFull.join_step rpp_lookup s a) as s1 eqn:Hs1.
    clear Hs1.
    destruct (fst (GenerateFull.resolve rpp_lookup a));
      injection Hc as H1 H2 H3; rewrite H1, H2, H3; simpl;
      repeat (f_equal; try lia).
Qed.

Lemma join_counts rpp_lookup zip_df :
  counts (GenerateFull.join rpp_lookup zip_df)
  = (tally rpp_lookup GenerateFull.matched_cbsa (Crosswalk.dedupe zip_df),
     tally rpp_lookup GenerateFull.matched_state (Crosswalk.dedupe zip_df),
     tally rpp_lookup GenerateFull.estimated (Crosswalk.dedupe zip_df)).
Proof. unfold GenerateFull.join. now rewrite join_fold_counts. Qed.
Lemma length_zeros n : String.length (Py.zeros n) = n.
Proof. induction n; simpl; auto. Qed.

Lemma zfill_length n s : n <= String.length (Py.zfill n s).
Proof.
  unfold Py.zfill. destruct (Nat.leb n (String.length s)) eqn:E.
  - now apply Nat.leb_le.
  - apply Nat.leb_gt in E. destruct s as [|c rest].
    + now rewrite length_zeros.
    + destruct (Ascii.eqb c "+" || Ascii.eqb c "-")%bool; simpl in *;
        rewrite ?length_append, ?length_zeros; simpl; lia.
Qed.

Lemma first_valid_in {A} (col : list (option A)) a :
  Pandas.first_valid col = Some a -> In (Some a) col.
Proof.
  induction col as [|[b|] col IH]; simpl; [discriminate| |].
  - intros [= ->]. now left.
  - intros H. right. auto.
Qed.

Lemma first_valid_none {A} (col : list (option A)) c :
  Pandas.first_valid col = None -> In c col -> c = None.
Proof.
  induction col as [|[b|] col IH]; simpl; [tauto|discriminate|].
  intros H [<-|Hin]; auto.
Qed.

(** The metro code of a de-duplicated row is the metro code of some row
    of the input. *)
Lemma dedupe_cbsa_from_input df x :
  In x (Crosswalk.dedupe df) ->
  exists x0, In x0 df /\ Crosswalk.CBSA x0 = Crosswalk.CBSA x.
Proof.
  unfold Crosswalk.dedupe, Crosswalk.groupby_first.
  rewrite in_map_iff. intros (k & <- & Hk).
  rewrite in_sort, in_distinct, in_present in Hk.
  rewrite in_map_iff in Hk. destruct Hk as (r & Hr & Hin).
  set (group := filter (Crosswalk.in_group k) (Crosswalk.sort_values df)).
  assert (Hgroup : In r group).
  { unfold group. apply filter_In. split; [assumption|].
    unfold Crosswalk.in_group. rewrite Hr. apply String.eqb_refl. }
  assert (Hsub : forall y, In y group -> In y df).
  { intros y Hy. unfold group in Hy. apply filter_In in Hy.
    destruct Hy as [Hy _]. unfold Crosswalk.sort_values in Hy.
    now rewrite in_sort in Hy. }
  simpl. destruct (Pandas.first_valid (map Crosswalk.CBSA group)) as [c|] eqn:E.
  - apply first_valid_in in E. rewrite in_map_iff in E.
    destruct E as (y & Hy & Hin'). exists y. split; [auto|assumption].
  - exists r. split; [auto|].
    apply (first_valid_none _ _ E). now apply in_map.
Qed.

Lemma merge_cbsa_unmatched xs rpp :
  (forall x g, In x xs -> In g rpp ->
     BuildLookup.key_eqb (Crosswalk.CBSA x) (BuildLookup.geo g) = false) ->
  BuildLookup.merge_cbsa xs rpp = map (fun x => BuildLookup.attach x None) xs.
Proof.
  unfold BuildLookup.merge_cbsa.
  induction xs as [|x xs IH]; intros H; [reflexivity|].
  simpl. rewrite filter_none by (intros g Hg; apply H; [now left|assumption]).
  simpl. f_equal. apply IH. intros y g Hy Hg. apply H; [now right|assumption].
Qed.

Lemma update_keeps_missing zs :
  forall other,
    Forall (fun z => BuildLookup.z_rpp_all z = None) zs ->
    Forall (fun z => BuildLookup.z_rpp_all z = None) other ->
    Forall (fun z => BuildLookup.z_rpp_all z = None)
           (BuildLookup.update zs other).
Proof.
  induction zs as [|z zs IH]; intros other Hz Ho; [constructor|].
  destruct other as [|o other]; [assumption|].
  inversion Hz; inversion Ho; subst. simpl. constructor.
  - simpl. unfold BuildLookup.update_cell. now rewrite H5.
  - now apply IH.
Qed.

Lemma state_rpp_of_padded rpp :
  BuildLookup.state_rpp
    (map (fun g => BuildLookup.mkRpp
                     (option_map (Py.zfill 5) (BuildLookup.geo g))
                     (BuildLookup.rpp_all g) (BuildLookup.rpp_housing g)
                     (BuildLookup.rpp_goods g) (BuildLookup.rpp_other g))
         rpp)
  = [].
Proof.
  unfold BuildLookup.state_rpp. apply filter_none.
  intros g Hg. rewrite in_map_iff in Hg. destruct Hg as (g1 & <- & _).
  simpl. destruct (BuildLookup.geo g1) as [s|]; simpl; [|reflexivity].
  apply Nat.eqb_neq. pose proof (zfill_length 5 s). lia.
Qed.

Lemma state_rpp_after_zfill rpp rpp' :
  BuildLookup.zfill_geo rpp = Ok rpp' -> BuildLookup.state_rpp rpp' = [].
Proof.
  unfold BuildLookup.zfill_geo. destruct rpp as [|g0 rpp]; [discriminate|].
  intros [= <-]. apply (state_rpp_of_padded (g0 :: rpp)).
Qed.

Lemma merge_state_missing need :
  Forall (fun z => BuildLookup.z_rpp_all z = None)
         (BuildLookup.merge_state need []).
Proof.
  unfold BuildLookup.merge_state.
  induction need as [|n need IH]; simpl; constructor; auto.
Qed.

(** [build_lookup] writes nothing for a crosswalk none of whose metro
    codes is a geography code of the padded table: no row gets its
    [rpp_all] from the state merge, whose table is selected by a code
    length of 2 among codes padded to 5, and [dropna] removes the rows
    left unfilled. *)
Lemma lookup_join_unmatched zip_df rpp rpp' :
  BuildLookup.zfill_geo rpp = Ok rpp' ->
  (forall x g, In x zip_df -> In g rpp' ->
     BuildLookup.key_eqb (Crosswalk.CBSA x) (BuildLookup.geo g) = false) ->
  BuildLookup.join zip_df rpp' = [].
Proof.
  intros Hz Hno. unfold BuildLookup.join.
  rewrite (state_rpp_after_zfill _ _ Hz).
  rewrite merge_cbsa_unmatched.
  2:{ intros x g Hx Hg. destruct (dedupe_cbsa_from_input _ _ Hx)
        as (x0 & Hx0 & <-). now apply Hno. }
  set (zs := map (fun x => BuildLookup.attach x None)
                 (Crosswalk.dedupe zip_df)).
  assert (Hall : Forall (fun z => BuildLookup.z_rpp_all z = None) zs).
  { unfold zs. apply Forall_forall. intros z Hin. rewrite in_map_iff in Hin.
    destruct Hin as (x & <- & _). reflexivity. }
  apply filter_none. intros o Ho. rewrite in_map_iff in Ho.
  destruct Ho as (z & <- & Hin). simpl.
  assert (Hz' : BuildLookup.z_rpp_all z = None).
  { destruct (filter (fun z0 => BuildLookup.isna (BuildLookup.z_rpp_all z0)) zs)
      as [|n need] eqn:E.
    - rewrite Forall_forall in Hall. now apply Hall.
    - pose proof (update_keeps_missing zs
                    (BuildLookup.merge_state (n :: need) []) Hall
                    (merge_state_missing _)) as Hu.
      rewrite Forall_forall in Hu. now apply Hu. }
  now rewrite Hz'.
Qed.

(** The Flint row has no metro code and the table has one metro record:
    the output of [build_lookup] is empty although the crosswalk holds
    the ZIP 48505, and the run ends with status 0 and a file of the
    header alone. *)
Lemma C4_counterexample :
  In (Some "48505") (map Crosswalk.ZIP [flint])
  /\ BuildLookup.join [flint]
       [BuildLookup.mkRpp (Some "12420") (Some 95.8%Q) (Some 102.1%Q)
                          (Some 92.4%Q) (Some 97.2%Q)]
     = []
  /\ BuildLookup.main
       (Bea.data_reply
          [BuildLookup.mkRpp (Some "12420") (Some 95.8%Q) (Some 102.1%Q)
                             (Some 92.4%Q) (Some 97.2%Q)])
       (Bea.data_reply []) (Ok [flint]) (mkWorld [] None)
     = (0,
        mkWorld
          [("data/col_by_zip.csv",
            [CsvHeader ["zip"; "state"; "county_fips"; "cbsa_code"; "rpp_all";
                        "rpp_housing"; "rpp_goods"; "rpp_other"]])]
          None).
Proof. repeat split. now left. Qed.

(** C4 (amended). For every crosswalk input the keys of the output of
    [generate_comprehensive_dataset] are the ZIPs of the crosswalk rows,
    zero-padded to five characters: no ZIP is dropped, also when its
    resolution falls through to the estimates or the national default,
    none appears twice, and the de-duplicated frame has one row per ZIP.
    [build_lookup] has no default: it writes only rows whose [rpp_all]
    was filled by a join, and a crosswalk whose rows match neither a
    metro nor a state geography of the table is written without any
    row. *)
Theorem C4_zip_completeness :
  forall (rpp_lookup : Py.dict (Py.dict num)) (zip_df : list Crosswalk.row)
         (rpp rpp' : list BuildLookup.rpp_row),
    (forall k,
        In k (Py.keys (GenerateFull.final_data
                         (GenerateFull.join rpp_lookup zip_df)))
        <-> exists z, In (Some z) (map Crosswalk.ZIP zip_df)
                      /\ k = Py.zfill 5 z)
    /\ ((forall z, In (Some z) (map Crosswalk.ZIP zip_df) ->
                   String.length z = 5) ->
        forall k,
          In k (Py.keys (GenerateFull.final_data
                           (GenerateFull.join rpp_lookup zip_df)))
          <-> In (Some k) (map Crosswalk.ZIP zip_df))
    /\ NoDup (Py.keys (GenerateFull.final_data
                         (GenerateFull.join rpp_lookup zip_df)))
    /\ NoDup (map Crosswalk.ZIP (Crosswalk.dedupe zip_df))
    /\ (forall o, In o (BuildLookup.join zip_df rpp) ->
                  BuildLookup.o_rpp_all o <> None)
    /\ (BuildLookup.zfill_geo rpp = Ok rpp' ->
        (forall x g, In x zip_df -> In g rpp' ->
           BuildLookup.key_eqb (Crosswalk.CBSA x) (BuildLookup.geo g)
           = false) ->
        (forall x g, In x zip_df -> In g rpp ->
           BuildLookup.key_eqb
             (option_map (Py.take 2) (Crosswalk.COUNTY x))
             (BuildLookup.geo g)
           = false) ->
        BuildLookup.join zip_df rpp' = []).
Proof.
  intros rpp_lookup zip_df rpp rpp'.
  split; [|split; [|split; [|split; [|split]]]].
  - intros k. apply join_keys.
  - intros Hlen k. rewrite join_keys. split.
    + intros (z & Hz & ->). rewrite zfill_long; [assumption|].
      rewrite (Hlen z Hz). lia.
    + intros Hk. exists k. split; [assumption|].
      rewrite zfill_long; [reflexivity|]. rewrite (Hlen k Hk). lia.
  - unfold GenerateFull.join. apply join_fold_wf. constructor.
  - apply dedupe_nodup.
  - intros o Ho. unfold BuildLookup.join in Ho. apply filter_In in Ho.
    destruct Ho as [_ Ho]. destruct (BuildLookup.o_rpp_all o);
      [discriminate|discriminate Ho].
  - intros Hz Hmetro _. now apply lookup_join_unmatched with rpp.
Qed.

Lemma C4_zip_completeness_witness :
  (In "48505" (Py.keys (GenerateFull.final_data (GenerateFull.join [] [flint])))
   <-> In (Some "48505") (map Crosswalk.ZIP [flint]))
  /\ BuildLookup.join [flint]
       [BuildLookup.mkRpp (Some "12420") (Some 95.8%Q) None None None]
     = [].
Proof.
  destruct (C4_zip_completeness [] [flint]
              [BuildLookup.mkRpp (Some "12420") (Some 95.8%Q) None None None]
              [BuildLookup.mkRpp (Some "12420") (Some 95.8%Q) None None None])
    as [_ [H2 [_ [_ [_ H6]]]]].
  split.
  - apply H2. intros z [[= <-]|[]]. reflexivity.
  - apply H6; [reflexivity| |];
      intros x g [<-|[]] [<-|[]]; reflexivity.
Defined.

(** C5 (the code at the failing input). Two rows of ZIP 48505 tie at the
    ratio 0.5 and the first has no metro code: the surviving record has
    the county of the first row and the metro code of the second, so it
    is neither row of the input, and the join resolves the ZIP through
    a metro code its first row does not have. *)
Theorem C5_first_merges_columns :
  Crosswalk.dedupe [split_zip_first; split_zip_second]
  = [Crosswalk.mkRow (Some "48505") (Some "26049") (Some "MI") (Some "40980")
                     (Some 0.5%Q)]
  /\ ~ In (Crosswalk.mkRow (Some "48505") (Some "26049") (Some "MI")
                           (Some "40980") (Some 0.5%Q))
          [split_zip_first; split_zip_second]
  /\ Crosswalk.groupby_first [split_zip_first]
     = [split_zip_first]
  /\ Py.get (GenerateFull.final_data
               (GenerateFull.join
                  [("40980", rpp 88.1%Q 80.2%Q 93.5%Q 91.0%Q)]
                  [split_zip_first; split_zip_second]))
            "48505"
     = Some (mkInfo (rpp 88.1%Q 80.2%Q 93.5%Q 91.0%Q) "MI" (Some "40980"))
  /\ counts (GenerateFull.join
               [("40980", rpp 88.1%Q 80.2%Q 93.5%Q 91.0%Q)]
               [split_zip_first; split_zip_second])
     = (1, 0, 0).
Proof.
  repeat split.
  intros [H|[H|[]]]; discriminate H.
Qed.

(** C6 (the code at the failing input). The metro table gives 95.847 for
    the Austin metro.  [generate_comprehensive_dataset] writes the value
    as it is, and reading the file back gives 95.847, which is not its
    rounding to two decimals, 95.85; the converter of csv_to_json.py
    stores 95.85 for the same value. *)
Theorem C6_generate_writes_unrounded :
  forall src_dir : bool,
  fst (File.load_json "public/col_by_zip.json"
         (snd (GenerateFull.main Py.float_plain (Bea.data_reply [])
                 (Bea.data_reply [GenerateFull.mkBea "12420" "1" "95.847"])
                 (Ok [austin]) src_dir (mkWorld [] None))))
  = Ok [("78701",
         mkInfo (rpp 95.847%Q 100.0%Q 100.0%Q 100.0%Q) "TX" (Some "12420"))]
  /\ CsvToJson.round2 95.847%Q = 95.85%Q
  /\ ~ (95.847 == CsvToJson.round2 95.847)%Q
  /\ CsvToJson.to_zip_data
       [CsvToJson.mkCsv "78701" "TX" (Some "12420")
                        95.847%Q 100.0%Q 100.0%Q 100.0%Q]
     = [("78701",
         mkInfo (rpp 95.85%Q 100.00%Q 100.00%Q 100.00%Q) "TX"
                (Some "12420"))].
Proof.
  intros src_dir. destruct src_dir; repeat split;
    intros H; vm_compute in H; discriminate H.
Qed.

(** ** Reading back what [json.dump] wrote *)

Lemma set_fresh {V} (d : Py.dict V) k v :
  ~ In k (Py.keys d) -> Py.set d k v = (d ++ [(k, v)])%list.
Proof.
  induction d as [|[k' v'] d IH]; simpl; intros Hn; [reflexivity|].
  destruct (String.eqb_spec k' k) as [->|Hne]; [tauto|].
  rewrite IH; tauto.
Qed.

Section RoundTrip.
Context {V W : Type} (encode : V -> list chunk)
        (value : list chunk -> option (W * list chunk))
        (decode : V -> W) (good : V -> Prop).
Hypothesis value_encode :
  forall v rest, good v -> value (encode v ++ rest) = Some (decode v, rest).

Lemma parse_members_encode items :
  forall k v acc rest fuel,
    List.length items < fuel ->
    good v ->
    (forall kv, In kv items -> good (snd kv)) ->
    NoDup (Py.keys acc ++ k :: Py.keys items) ->
    Json.parse_members value fuel acc
      (JLit (Str k) :: JColon :: encode v
         ++ Json.members encode false items ++ JClose :: rest)
    = Some ((acc ++ (k, decode v)
                 :: map (fun kv => (fst kv, decode (snd kv))) items)%list,
            rest).
Proof.
  induction items as [|[k' v'] items IH];
    intros k v acc rest fuel Hfuel Hv Hgood Hnd;
    (destruct fuel as [|fuel]; [inversion Hfuel|]).
  - simpl. rewrite value_encode by assumption.
    rewrite set_fresh; [reflexivity|].
    apply NoDup_remove_2 in Hnd. rewrite app_nil_r in Hnd. exact Hnd.
  - cbn [Json.parse_members Json.members app].
    rewrite value_encode by assumption.
    rewrite <- app_assoc.
    rewrite IH.
    + rewrite set_fresh.
      * rewrite <- app_assoc. reflexivity.
      * apply NoDup_remove_2 in Hnd. intros H. apply Hnd.
        apply in_or_app. now left.
    + simpl in Hfuel. lia.
    + apply (Hgood (k', v')). now left.
    + intros kv Hin. apply Hgood. now right.
    + rewrite set_fresh.
      * unfold Py.keys in *. rewrite map_app. simpl. rewrite <- app_assoc.
        exact Hnd.
      * apply NoDup_remove_2 in Hnd. intros H. apply Hnd.
        apply in_or_app. now left.
Qed.

Lemma members_length first items :
  List.length items <= List.length (Json.members encode first items).
Proof.
  revert first. induction items as [|[k v] items IH]; intros first; simpl.
  - lia.
  - rewrite !length_app. simpl. rewrite length_app.
    specialize (IH false). lia.
Qed.

Lemma parse_dict_encode (dct : Py.dict V) rest :
  Py.wf dct ->
  (forall kv, In kv dct -> good (snd kv)) ->
  Json.parse_dict value (Json.iterencode_dict encode dct ++ rest)
  = Some (map (fun kv => (fst kv, decode (snd kv))) dct, rest).
Proof.
  intros Hwf Hgood. destruct dct as [|[k v] items]; [reflexivity|].
  unfold Json.iterencode_dict, Py.items.
  cbn [Json.members app Json.parse_dict].
  rewrite <- !app_assoc. cbn [app].
  rewrite parse_members_encode.
  - reflexivity.
  - simpl. rewrite !length_app. pose proof (members_length false items).
    lia.
  - apply (Hgood (k, v)). now left.
  - intros kv Hin. apply Hgood. now right.
  - exact Hwf.
Qed.
End RoundTrip.

Lemma to_obj_wf r : good_info r -> Py.wf (Json.to_obj r).
Proof.
  intros (Hwf & Hs & Hc). unfold Py.wf, Json.to_obj, Py.keys in *.
  rewrite map_app, map_map. simpl.
  apply NoDup_app.
  - rewrite (map_ext _ fst); [assumption|reflexivity].
  - repeat constructor; simpl; intuition discriminate.
  - intros x Hx [<-|[<-|[]]]; rewrite (map_ext _ fst) in Hx; auto.
Qed.

Lemma get_app_fresh {V} (d d' : Py.dict V) k :
  ~ In k (Py.keys d) -> Py.get (d ++ d')%list k = Py.get d' k.
Proof.
  induction d as [|[k' v'] d IH]; simpl; intros Hn; [reflexivity|].
  destruct (String.eqb_spec k' k) as [->|Hne]; [tauto|].
  apply IH. tauto.
Qed.

Lemma nums_to_obj r : Json.nums (Json.to_obj r) = rpp_data r.
Proof.
  unfold Json.nums, Json.to_obj. rewrite flat_map_app. simpl.
  destruct (cbsa_code r); simpl; rewrite app_nil_r;
    (induction (rpp_data r) as [|[k q] l IH]; simpl; [reflexivity|];
     now rewrite IH).
Qed.

Lemma of_obj_to_obj r : good_info r -> Json.of_obj (Json.to_obj r) = Some r.
Proof.
  intros (Hwf & Hs & Hc). unfold Json.of_obj. rewrite nums_to_obj.
  unfold Json.to_obj.
  assert (Hk : forall k,
            ~ In k (Py.keys (rpp_data r)) ->
            ~ In k (Py.keys (map (fun kv => (fst kv, Num (snd kv)))
                                 (rpp_data r)))).
  { intros k Hn. unfold Py.keys in *. rewrite map_map.
    rewrite (map_ext _ fst); [assumption|reflexivity]. }
  rewrite !get_app_fresh by auto. simpl.
  destruct r as [rd st [c|]]; reflexivity.
Qed.

Lemma of_objs_to_obj (d : Py.dict zip_info) :
  (forall kv, In kv d -> good_info (snd kv)) ->
  Json.of_objs (map (fun kv => (fst kv, Json.to_obj (snd kv))) d) = Some d.
Proof.
  induction d as [|[k r] d IH]; intros Hgood; [reflexivity|].
  simpl. rewrite of_obj_to_obj by (apply (Hgood (k, r)); now left).
  rewrite IH; [reflexivity|]. intros kv Hin. apply Hgood. now right.
Qed.

(** [json.load] of the text [json.dump] writes gives back the dict:
    the same keys in the same order, with the same values. *)
Lemma load_iterencode (data : Py.dict zip_info) :
  Py.wf data ->
  (forall kv, In kv data -> good_info (snd kv)) ->
  Json.load_zip_data (Json.iterencode data) = Some data.
Proof.
  intros Hwf Hgood. unfold Json.load_zip_data, Json.load, Json.iterencode.
  rewrite <- (app_nil_r (Json.iterencode_dict _ data)).
  rewrite (parse_dict_encode _ _ Json.to_obj good_info).
  - now apply of_objs_to_obj.
  - intros r rest Hr.
    rewrite (parse_dict_encode Json.encode_scalar Json.parse_scalar
                               (fun v => v) (fun _ => True)).
    + f_equal. f_equal. induction (Json.to_obj r) as [|[k v] l IH];
        simpl; [reflexivity|]. now rewrite IH.
    + reflexivity.
    + now apply to_obj_wf.
    + auto.
  - exact Hwf.
  - exact Hgood.
Qed.

(** Every value stored by the fallback join is well formed, so the file
    written by [generate_comprehensive_dataset] reads back as the joined
    table, unrounded. *)
Lemma join_values_good rpp_lookup zip_df kv :
  In kv (GenerateFull.final_data (GenerateFull.join rpp_lookup zip_df)) ->
  good_info (snd kv).
Proof.
  unfold GenerateFull.join.
  assert (H : forall rows s,
            (forall x, In x (GenerateFull.final_data s) -> good_info (snd x)) ->
            forall x,
              In x (GenerateFull.final_data
                      (fold_left (GenerateFull.join_step rpp_lookup) rows s)) ->
              good_info (snd x)).
  { induction rows as [|r rows IH]; intros s Hs x; cbn [fold_left].
    - apply Hs.
    - apply IH. intros y Hy. rewrite join_step_data in Hy.
      destruct (in_set _ _ _ _ Hy) as [->|Hold]; [|now apply Hs].
      simpl. unfold good_info, Py.wf. simpl.
      repeat split.
      + repeat constructor; simpl; intuition discriminate.
      + intuition discriminate.
      + intuition discriminate. }
  apply H. intros x [].
Qed.

Lemma generate_file_reads_back rpp_lookup zip_df path fs :
  File.load_json path
    (snd (File.dump_json path
            (GenerateFull.final_data (GenerateFull.join rpp_lookup zip_df))
            (mkWorld fs None)))
  = (Ok (GenerateFull.final_data (GenerateFull.join rpp_lookup zip_df)),
     mkWorld
       (Py.set fs path
          (Json.iterencode
             (GenerateFull.final_data (GenerateFull.join rpp_lookup zip_df))))
       None).
Proof.
  rewrite dump_json_unlimited. unfold File.load_json. simpl.
  rewrite get_set_same. rewrite load_iterencode; [reflexivity| |].
  - unfold GenerateFull.join. apply join_fold_wf. constructor.
  - apply join_values_good.
Qed.


(** ** The converter of csv_to_json.py *)

Lemma csv_fold_entries rows :
  forall (acc : Py.dict zip_info) x,
    In x (fold_left
            (fun zip_data row =>
               Py.set zip_data (Py.zfill 5 (CsvToJson.zip row))
                      (CsvToJson.convert row)) rows acc) ->
    In x acc
    \/ exists row, In row rows
                   /\ x = (Py.zfill 5 (CsvToJson.zip row),
                           CsvToJson.convert row).
Proof.
  induction rows as [|row rows IH]; intros acc x; cbn [fold_left]; [auto|].
  intros Hin. destruct (IH _ _ Hin) as [Hacc|(r & Hr & ->)].
  - destruct (in_set _ _ _ _ Hacc) as [->|Hold]; [|now left].
    right. exists row. split; [now left|reflexivity].
  - right. exists r. split; [now right|reflexivity].
Qed.

Lemma csv_keys df k :
  In k (Py.keys (CsvToJson.to_zip_data df))
  <-> exists row, In row df /\ k = Py.zfill 5 (CsvToJson.zip row).
Proof.
  unfold CsvToJson.to_zip_data.
  assert (H : forall acc,
            In k (Py.keys
                    (fold_left
                       (fun zip_data row =>
                          Py.set zip_data (Py.zfill 5 (CsvToJson.zip row))
                                 (CsvToJson.convert row)) df acc))
            <-> In k (Py.keys acc)
                \/ exists row, In row df
                               /\ k = Py.zfill 5 (CsvToJson.zip row)).
  { induction df as [|row df IH]; intros acc; cbn [fold_left].
    - split; [auto|]. intros [H|(r & [] & _)]. exact H.
    - rewrite IH, in_keys_set. split.
      + intros [[->|H]|(r & Hr & ->)]; eauto.
        * right. exists row. split; [now left|reflexivity].
        * right. exists r. split; [now right|reflexivity].
      + intros [H|(r & [<-|Hr] & ->)]; eauto. }
  rewrite H. simpl. tauto.
Qed.

(** Every value of the converted table is the rounded row it was built
    from. *)
Lemma csv_values_rounded df k r :
  Py.get (CsvToJson.to_zip_data df) k = Some r ->
  exists row,
    In row df /\ k = Py.zfill 5 (CsvToJson.zip row)
    /\ state r = CsvToJson.state row
    /\ cbsa_code r = CsvToJson.cbsa_code row
    /\ rpp_all r = Some (CsvToJson.round2 (CsvToJson.rpp_all row))
    /\ rpp_housing r = Some (CsvToJson.round2 (CsvToJson.rpp_housing row))
    /\ rpp_goods r = Some (CsvToJson.round2 (CsvToJson.rpp_goods row))
    /\ rpp_other r = Some (CsvToJson.round2 (CsvToJson.rpp_other row)).
Proof.
  intros Hget. apply get_some_in in Hget.
  destruct (csv_fold_entries _ _ _ Hget) as [[]|(row & Hin & [= -> ->])].
  exists row. repeat split; assumption.
Qed.

(** The converted table reads back from the file as it was written. *)
Lemma csv_file_reads_back df path fs :
  File.load_json path
    (snd (File.dump_json path (CsvToJson.to_zip_data df) (mkWorld fs None)))
  = (Ok (CsvToJson.to_zip_data df),
     mkWorld (Py.set fs path (Json.iterencode (CsvToJson.to_zip_data df)))
             None).
Proof.
  rewrite dump_json_unlimited. unfold File.load_json. simpl.
  rewrite get_set_same. rewrite load_iterencode; [reflexivity| |].
  - unfold CsvToJson.to_zip_data.
    assert (H : forall acc : Py.dict zip_info, Py.wf acc ->
              Py.wf (fold_left
                       (fun zip_data row =>
                          Py.set zip_data (Py.zfill 5 (CsvToJson.zip row))
                                 (CsvToJson.convert row)) df acc)).
    { induction df as [|row df IH]; intros acc Hacc; cbn [fold_left];
        [assumption|]. apply IH. now apply wf_set. }
    apply H. constructor.
  - intros [k r] Hin. simpl.
    destruct (csv_fold_entries _ _ _ Hin) as [[]|(row & _ & [= -> ->])].
    unfold good_info, Py.wf. simpl. repeat split.
    + repeat constructor; simpl; intuition discriminate.
    + intuition discriminate.
    + intuition discriminate.
Qed.

(** [round(x, 2)] is a multiple of 0.01 at most 0.005 away from [x]. *)
Lemma round2_close (x : Q) : (Qabs (CsvToJson.round2 x - x) <= 1 # 200)%Q.
Proof.
  unfold CsvToJson.round2.
  set (n := (x * inject_Z 100)%Q).
  pose proof (Qfloor_le n) as Hlo. pose proof (Qlt_floor n) as Hhi.
  set (f := Qfloor n) in *.
  assert (Hx : (x == n * (1 # 100))%Q).
  { unfold n. change (inject_Z 100) with (100 # 1)%Q. ring. }
  rewrite inject_Z_plus in Hhi. change (inject_Z 1) with 1%Q in Hhi.
  assert (Hm : forall m : Z, (m # 100 == inject_Z m * (1 # 100))%Q).
  { intros m. unfold Qeq, inject_Z. simpl. lia. }
  apply Qabs_Qle_condition.
  destruct (Qcompare_spec (n - inject_Z f) (1 # 2)) as [E|E|E].
  - destruct (Z.even f).
    + rewrite Hm, Hx. split; lra.
    + rewrite Hm, inject_Z_plus, Hx. change (inject_Z 1) with 1%Q.
      split; lra.
  - rewrite Hm, Hx. split; lra.
  - rewrite Hm, inject_Z_plus, Hx. change (inject_Z 1) with 1%Q.
    split; lra.
Qed.
(** ** The lookup table of [process_rpp_data] *)

Lemma store_get (l : Py.dict (Py.dict num)) g c v g' :
  Py.get (GenerateFull.store l g c v) g'
  = if g =? g'
    then Some (match component c with
               | Some k => Py.set (Py.get_default l g []) k v
               | None => Py.get_default l g []
               end)
    else Py.get l g'.
Proof.
  unfold GenerateFull.store, component.
  assert (Hd : Py.get_default
                 (if Py.mem l g then l else Py.set l g []) g []
               = Py.get_default l g []).
  { unfold Py.mem, Py.get_default.
    destruct (Py.get l g) eqn:E; [now rewrite E|].
    now rewrite get_set_same. }
  assert (Hg : Py.get (if Py.mem l g then l else Py.set l g []) g'
               = if g =? g' then Some (Py.get_default l g [])
                 else Py.get l g').
  { unfold Py.mem, Py.get_default.
    destruct (Py.get l g) eqn:E.
    - destruct (String.eqb_spec g g'); [subst; assumption|reflexivity].
    - apply get_set. }
  rewrite Hd.
  destruct (c =? "1");
    [rewrite get_set, Hg; now destruct (g =? g')|].
  destruct (c =? "2");
    [rewrite get_set, Hg; now destruct (g =? g')|].
  destruct (c =? "3");
    [rewrite get_set, Hg; now destruct (g =? g')|].
  destruct (c =? "4");
    [rewrite get_set, Hg; now destruct (g =? g')|].
  exact Hg.
Qed.

Lemma store_keys (l : Py.dict (Py.dict num)) g c v x :
  In x (Py.keys (GenerateFull.store l g c v)) <-> x = g \/ In x (Py.keys l).
Proof.
  rewrite <- !mem_true_iff. unfold Py.mem. rewrite store_get.
  destruct (String.eqb_spec g x).
  - subst. split; [now left|reflexivity].
  - split.
    + intros H. now right.
    + intros [->|H]; [contradiction|assumption].
Qed.

Lemma store_wf (l : Py.dict (Py.dict num)) g c v :
  Py.wf l -> Py.wf (GenerateFull.store l g c v).
Proof.
  intros H. unfold GenerateFull.store.
  assert (H' : Py.wf (if Py.mem l g then l else Py.set l g []))
    by (destruct (Py.mem l g); [assumption|now apply wf_set]).
  destruct (c =? "1"); [now apply wf_set|].
  destruct (c =? "2"); [now apply wf_set|].
  destruct (c =? "3"); [now apply wf_set|].
  destruct (c =? "4"); [now apply wf_set|].
  exact H'.
Qed.

Lemma process_row_reading float w l r :
  GenerateFull.process_row float w l r
  = match reading float w r with
    | Some (g, c, v) => GenerateFull.store l g c v
    | None => l
    end.
Proof.
  unfold GenerateFull.process_row, reading.
  destruct (Py.truthy _ && Py.truthy _ && negb _)%bool; [|reflexivity].
  destruct (float _); reflexivity.
Qed.

Lemma process_tagged float w rows :
  forall l,
    fold_left (fun l wr =>
                 GenerateFull.process_row float (fst wr) l (snd wr))
              (map (pair w) rows) l
    = fold_left (GenerateFull.process_row float w) rows l.
Proof.
  induction rows as [|r rows IH]; intros l; simpl; [reflexivity|].
  apply IH.
Qed.

Lemma process_records float state_df msa_df :
  GenerateFull.process_rpp_data float state_df msa_df
  = fold_left (fun l wr => GenerateFull.process_row float (fst wr) l (snd wr))
              (records state_df msa_df) [].
Proof.
  unfold GenerateFull.process_rpp_data, records.
  now rewrite fold_left_app, !process_tagged.
Qed.

Lemma component_keys_in c k : component c = Some k -> In k component_keys.
Proof.
  unfold component, component_keys.
  destruct (c =? "1"); [intros [= <-]; simpl; auto|].
  destruct (c =? "2"); [intros [= <-]; simpl; auto|].
  destruct (c =? "3"); [intros [= <-]; simpl; auto|].
  destruct (c =? "4"); [intros [= <-]; simpl; auto 6|].
  discriminate.
Qed.

Lemma component_inj c c' k :
  component c = Some k -> component c' = Some k -> c = c'.
Proof.
  unfold component.
  destruct (String.eqb_spec c "1"), (String.eqb_spec c' "1");
    destruct (String.eqb_spec c "2"), (String.eqb_spec c' "2");
    destruct (String.eqb_spec c "3"), (String.eqb_spec c' "3");
    destruct (String.eqb_spec c "4"), (String.eqb_spec c' "4");
    congruence.
Qed.
Lemma reading_geo float w r g c v :
  reading float w r = Some (g, c, v) ->
  g = Py.zfill w (GenerateFull.GeoFips r) /\ c = GenerateFull.LineCode r.
Proof.
  unfold reading.
  destruct (Py.truthy _ && Py.truthy _ && negb _)%bool; [|discriminate].
  destruct (float _); [|discriminate].
  simpl. intros [= <- <- <-]. now split.
Qed.

Lemma entry_store l g c v geo key :
  entry (GenerateFull.store l g c v) geo key
  = if ((g =? geo)
        && match component c with
           | Some k => k =? key
           | None => false
           end)%bool
    then Some v
    else entry l geo key.
Proof.
  unfold entry. rewrite store_get.
  destruct (String.eqb_spec g geo) as [->|Hg]; [|reflexivity].
  unfold Py.get_default.
  destruct (component c) as [k|]; simpl.
  - rewrite get_set. destruct (k =? key); [reflexivity|].
    now destruct (Py.get l geo).
  - now destruct (Py.get l geo).
Qed.

(** The table along the records: its keys, the shape of its entries and
    where its values come from. *)
Lemma process_fold_inv float recs :
  forall l,
    Py.wf l ->
    (forall g d, Py.get l g = Some d ->
                 Py.wf d /\ incl (Py.keys d) component_keys) ->
    let l' := fold_left (fun l wr =>
                GenerateFull.process_row float (fst wr) l (snd wr)) recs l in
    Py.wf l'
    /\ (forall g d, Py.get l' g = Some d ->
                    Py.wf d /\ incl (Py.keys d) component_keys)
    /\ (forall g, In g (Py.keys l')
                  <-> In g (Py.keys l)
                      \/ exists w r c v,
                           In (w, r) recs
                           /\ reading float w r = Some (g, c, v))
    /\ (forall g k v, entry l' g k = Some v ->
          entry l g k = Some v
          \/ exists w r c,
               In (w, r) recs /\ reading float w r = Some (g, c, v)
               /\ component c = Some k).
Proof.
  induction recs as [|[w r] recs IH]; intros l Hwf Hsh; cbn [fold_left].
  - cbv zeta. split; [assumption|]. split; [assumption|]. split.
    + intros g. split; [now left|].
      intros [H|(w & r & c & v & [] & _)]. exact H.
    + intros g k v H. now left.
  - cbn [fst snd]. rewrite process_row_reading.
    destruct (reading float w r) as [[[g0 c0] v0]|] eqn:R.
    + assert (Hwf1 : Py.wf (GenerateFull.store l g0 c0 v0))
        by now apply store_wf.
      assert (Hsh1 : forall g d,
                 Py.get (GenerateFull.store l g0 c0 v0) g = Some d ->
                 Py.wf d /\ incl (Py.keys d) component_keys).
      { intros g d. rewrite store_get.
        assert (Hd0 : Py.wf (Py.get_default l g0 [])
                      /\ incl (Py.keys (Py.get_default l g0 []))
                              component_keys).
        { unfold Py.get_default. destruct (Py.get l g0) as [d0|] eqn:E.
          - exact (Hsh _ _ E).
          - split; [constructor|]. intros x []. }
        destruct (String.eqb_spec g0 g) as [->|Hne]; [|apply Hsh].
        intros [= <-]. destruct (component c0) as [k|] eqn:C; [|exact Hd0].
        destruct Hd0 as [Hw Hi]. split; [now apply wf_set|].
        intros x Hx. apply in_keys_set in Hx. destruct Hx as [->|Hx].
        - now apply component_keys_in with c0.
        - now apply Hi. }
      destruct (IH _ Hwf1 Hsh1) as (A & B & C & D).
      split; [exact A|]. split; [exact B|]. split.
      * intros g. rewrite C, store_keys. split.
        -- intros [[->|H]|(w' & r' & c & v & Hin & Hr)].
           ++ right. exists w, r, c0, v0. split; [now left|assumption].
           ++ now left.
           ++ right. exists w', r', c, v. split; [now right|assumption].
        -- intros [H|(w' & r' & c & v & [[= <- <-]|Hin] & Hr)].
           ++ left. now right.
           ++ left. left. rewrite R in Hr. now injection Hr.
           ++ right. exists w', r', c, v. now split.
      * intros g k v H.
        destruct (D g k v H) as [H1|(w' & r' & c & Hin & Hr & Hc)].
        -- rewrite entry_store in H1.
           destruct (String.eqb_spec g0 g) as [->|Hne]; simpl in H1.
           ++ destruct (component c0) as [k0|] eqn:C0; [|now left].
              destruct (String.eqb_spec k0 k) as [->|Hk]; [|now left].
              injection H1 as <-. right. exists w, r, c0.
              split; [now left|]. now split.
           ++ now left.
        -- right. exists w', r', c. split; [now right|]. now split.
    + destruct (IH _ Hwf Hsh) as (A & B & C & D).
      split; [exact A|]. split; [exact B|]. split.
      * intros g. rewrite C. split.
        -- intros [H|(w' & r' & c & v & Hin & Hr)]; [now left|].
           right. exists w', r', c, v. split; [now right|assumption].
        -- intros [H|(w' & r' & c & v & [[= <- <-]|Hin] & Hr)];
             [now left|congruence|].
           right. exists w', r', c, v. now split.
      * intros g k v H.
        destruct (D g k v H) as [H1|(w' & r' & c & Hin & Hr & Hc)];
          [now left|].
        right. exists w', r', c. split; [now right|]. now split.
Qed.

Lemma process_fold_keeps float recs geo c key v :
  component c = Some key ->
  (forall w r v', In (w, r) recs ->
                  reading float w r <> Some (geo, c, v')) ->
  forall l,
    entry l geo key = Some v ->
    entry (fold_left (fun l wr =>
             GenerateFull.process_row float (fst wr) l (snd wr)) recs l)
          geo key
    = Some v.
Proof.
  intros Hc. induction recs as [|[w r] recs IH]; intros Hno l He;
    cbn [fold_left]; [assumption|].
  apply IH; [intros w' r' v' Hin; apply Hno; now right|].
  cbn [fst snd]. rewrite process_row_reading.
  destruct (reading float w r) as [[[g0 c0] v0]|] eqn:R; [|assumption].
  rewrite entry_store.
  destruct (String.eqb_spec g0 geo) as [->|Hne]; [|assumption].
  destruct (component c0) as [k0|] eqn:C0; [|assumption].
  destruct (String.eqb_spec k0 key) as [->|Hk]; [|assumption].
  exfalso. apply (Hno w r v0); [now left|].
  rewrite R. now rewrite (component_inj _ _ _ C0 Hc).
Qed.
(** The facts about the table used below. *)
Lemma process_table_facts :
  forall (float : string -> option num)
         (state_df msa_df : list GenerateFull.bea_row),
    let rpp_lookup := GenerateFull.process_rpp_data float state_df msa_df in
    Py.wf rpp_lookup
    /\ (forall geo,
          In geo (Py.keys rpp_lookup)
          <-> exists w row c v,
                In (w, row) (records state_df msa_df)
                /\ reading float w row = Some (geo, c, v))
    /\ (forall geo d,
          Py.get rpp_lookup geo = Some d ->
          Py.wf d /\ incl (Py.keys d) component_keys
          /\ 2 <= String.length geo)
    /\ (forall geo key v,
          entry rpp_lookup geo key = Some v ->
          exists w row c,
            In (w, row) (records state_df msa_df)
            /\ reading float w row = Some (geo, c, v)
            /\ component c = Some key).
Proof.
  intros float state_df msa_df. cbv zeta. rewrite process_records.
  destruct (process_fold_inv float (records state_df msa_df) [])
    as (A & B & C & D).
  - constructor.
  - intros g d H. discriminate H.
  - cbv zeta in A, B, C, D.
    split; [exact A|]. split; [|split].
    + intros geo. rewrite C. split.
      * intros [[]|H]. exact H.
      * intros H. now right.
    + intros geo d H. destruct (B _ _ H) as [Hw Hi].
      split; [exact Hw|]. split; [exact Hi|].
      assert (Hk : In geo (Py.keys (fold_left
                 (fun l wr =>
                    GenerateFull.process_row float (fst wr) l (snd wr))
                 (records state_df msa_df) []))).
      { apply mem_true_iff. unfold Py.mem. now rewrite H. }
      apply C in Hk. destruct Hk as [[]|(w & r & c & v & Hin & Hr)].
      apply reading_geo in Hr. destruct Hr as [-> _].
      pose proof (zfill_length w (GenerateFull.GeoFips r)) as Hl.
      unfold records in Hin. apply in_app_or in Hin.
      destruct Hin as [Hin|Hin]; apply in_map_iff in Hin;
        destruct Hin as (x & [= <- <-] & _); lia.
    + intros geo key v H. destruct (D _ _ _ H) as [H0|H0]; [|exact H0].
      discriminate H0.
Qed.

(** X1. The table [process_rpp_data] builds from any two frames has no
    key twice; its keys are exactly the padded geography codes of the
    records it can read, so none is shorter than two characters; every
    entry holds only names among the four components, none twice; and
    every value in it is the value read from some record of that
    geography whose line code stands for that component. *)
Theorem process_rpp_data_table :
  forall (float : string -> option num)
         (state_df msa_df : list GenerateFull.bea_row),
    let rpp_lookup := GenerateFull.process_rpp_data float state_df msa_df in
    Py.wf rpp_lookup
    /\ (forall geo,
          In geo (Py.keys rpp_lookup)
          <-> exists w row c v,
                In (w, row) (records state_df msa_df)
                /\ reading float w row = Some (geo, c, v))
    /\ (forall geo d,
          Py.get rpp_lookup geo = Some d ->
          Py.wf d /\ incl (Py.keys d) component_keys
          /\ 2 <= String.length geo)
    /\ (forall geo key v,
          entry rpp_lookup geo key = Some v ->
          exists w row c,
            In (w, row) (records state_df msa_df)
            /\ reading float w row = Some (geo, c, v)
            /\ component c = Some key).
Proof. exact process_table_facts. Qed.

(** X2. Of the records [process_rpp_data] reads for one geography and
    one of the line codes 1 to 4, the last one gives the value stored,
    the records of the metro frame counting after those of the state
    frame. *)
Theorem process_rpp_data_last_record_wins :
  forall (float : string -> option num)
         (state_df msa_df : list GenerateFull.bea_row)
         (before after : list (nat * GenerateFull.bea_row))
         (w : nat) (row : GenerateFull.bea_row)
         (geo c key : string) (v : num),
    records state_df msa_df = (before ++ (w, row) :: after)%list ->
    reading float w row = Some (geo, c, v) ->
    component c = Some key ->
    (forall w' row' v',
        In (w', row') after -> reading float w' row' <> Some (geo, c, v')) ->
    entry (GenerateFull.process_rpp_data float state_df msa_df) geo key
    = Some v.
Proof.
  intros float state_df msa_df before after w row geo c key v Hrec Hr Hc Hno.
  rewrite process_records, Hrec, fold_left_app. cbn [fold_left fst snd].
  apply process_fold_keeps with c; [assumption|assumption|].
  rewrite process_row_reading, Hr, entry_store, Hc.
  now rewrite !String.eqb_refl.
Qed.

Lemma process_rpp_data_last_record_wins_witness :
  entry (GenerateFull.process_rpp_data Py.float_plain
           [GenerateFull.mkBea "12420" "1" "88.0"]
           [GenerateFull.mkBea "12420" "1" "95.8";
            GenerateFull.mkBea "12420" "1" "1,095.847";
            GenerateFull.mkBea "12420" "3" "102.1"])
        "12420" "rpp_all"
  = Some (1095847 # 1000)%Q.
Proof.
  apply (process_rpp_data_last_record_wins Py.float_plain
           [GenerateFull.mkBea "12420" "1" "88.0"]
           [GenerateFull.mkBea "12420" "1" "95.8";
            GenerateFull.mkBea "12420" "1" "1,095.847";
            GenerateFull.mkBea "12420" "3" "102.1"]
           [(2, GenerateFull.mkBea "12420" "1" "88.0");
            (5, GenerateFull.mkBea "12420" "1" "95.8")]
           [(5, GenerateFull.mkBea "12420" "3" "102.1")]
           5 (GenerateFull.mkBea "12420" "1" "1,095.847")
           "12420" "1" "rpp_all").
  - reflexivity.
  - reflexivity.
  - reflexivity.
  - intros w' row' v' [[= <- <-]|[]]. discriminate.
Defined.

(** X3. A geography whose records all carry line codes other than 1 to
    4 still gets an entry, an empty one.  A ZIP whose metro code is that
    geography is then counted as a CBSA match and stored with 100.0 for
    all four components, whatever its state. *)
Theorem process_rpp_data_unknown_line_codes :
  forall (float : string -> option num)
         (state_df msa_df : list GenerateFull.bea_row)
         (geo : string) (row : Crosswalk.row),
    In geo (Py.keys (GenerateFull.process_rpp_data float state_df msa_df)) ->
    (forall w r c v,
        In (w, r) (records state_df msa_df) ->
        reading float w r = Some (geo, c, v) -> component c = None) ->
    Crosswalk.CBSA row = Some geo ->
    Py.get (GenerateFull.process_rpp_data float state_df msa_df) geo
    = Some []
    /\ GenerateFull.resolve
         (GenerateFull.process_rpp_data float state_df msa_df) row
       = (GenerateFull.matched_cbsa, [])
    /\ rpp_data (GenerateFull.resolved
                   (GenerateFull.process_rpp_data float state_df msa_df)
                   row)
       = rpp 100.0%Q 100.0%Q 100.0%Q 100.0%Q.
Proof.
  intros float state_df msa_df geo row Hin Hcodes Hc.
  destruct (process_table_facts float state_df msa_df)
    as (_ & _ & Hshape & Horigin).
  assert (Hget : Py.get (GenerateFull.process_rpp_data float state_df msa_df)
                        geo = Some []).
  { apply mem_true_iff in Hin. unfold Py.mem in Hin.
    destruct (Py.get _ geo) as [d|] eqn:E; [|discriminate].
    f_equal. destruct d as [|[k v] d]; [reflexivity|]. exfalso.
    destruct (Horigin geo k v) as (w & r & c & Hr & Hrd & Hcomp).
    { unfold entry. rewrite E. simpl. now rewrite String.eqb_refl. }
    rewrite (Hcodes _ _ _ _ Hr Hrd) in Hcomp. discriminate. }
  assert (Hne : geo <> EmptyString).
  { destruct (Hshape _ _ Hget) as (_ & _ & Hl).
    intros ->. simpl in Hl. lia. }
  pose proof (resolve_metro _ _ _ _ Hc Hne Hget) as R.
  split; [exact Hget|]. split; [exact R|].
  unfold GenerateFull.resolved. rewrite R. reflexivity.
Qed.
Lemma process_rpp_data_unknown_line_codes_witness :
  Py.get (GenerateFull.process_rpp_data Py.float_plain []
            [GenerateFull.mkBea "12420" "5" "101.3"]) "12420"
  = Some []
  /\ GenerateFull.resolve
       (GenerateFull.process_rpp_data Py.float_plain []
          [GenerateFull.mkBea "12420" "5" "101.3"]) austin
     = (GenerateFull.matched_cbsa, [])
  /\ rpp_data (GenerateFull.resolved
                 (GenerateFull.process_rpp_data Py.float_plain []
                    [GenerateFull.mkBea "12420" "5" "101.3"]) austin)
     = rpp 100.0%Q 100.0%Q 100.0%Q 100.0%Q.
Proof.
  apply (process_rpp_data_unknown_line_codes Py.float_plain []
           [GenerateFull.mkBea "12420" "5" "101.3"] "12420" austin).
  - simpl. now left.
  - intros w r c v [[= <- <-]|[]] [= <- _]. reflexivity.
  - reflexivity.
Defined.

Lemma take_length n s : String.length (Py.take n s) <= n.
Proof.
  unfold Py.take. revert s.
  induction n as [|n IH]; intros [|a s]; simpl; try lia.
  specialize (IH s). lia.
Qed.

Lemma resolve_state_tier rpp_lookup row :
  fst (GenerateFull.resolve rpp_lookup row) = GenerateFull.matched_state ->
  Py.mem rpp_lookup (Py.take 2 (GenerateFull.county_fips_of row)) = true.
Proof.
  unfold GenerateFull.resolve, GenerateFull.lookup_rpp, Py.mem.
  destruct (Py.get rpp_lookup (Py.take 2 _)) as [d|]; [reflexivity|].
  destruct (Py.get GenerateFull.state_estimates _);
    destruct (GenerateFull.cbsa_code_of row) as [c|];
    try destruct (Py.truthy c); try destruct (Py.get rpp_lookup c);
    discriminate.
Qed.

(** X4. The state tier looks a ZIP's state up under the first two
    characters of its county code, and a state record is filed under
    its geography code padded to two characters.  When every record of
    the state frame has a code of three characters or more, no ZIP of
    any crosswalk is resolved at the state tier. *)
Theorem state_tier_needs_two_character_codes :
  forall (float : string -> option num)
         (state_df msa_df : list GenerateFull.bea_row)
         (zip_df : list Crosswalk.row),
    (forall row, In row state_df ->
                 3 <= String.length (GenerateFull.GeoFips row)) ->
    GenerateFull.n_matched_state
      (GenerateFull.join
         (GenerateFull.process_rpp_data float state_df msa_df) zip_df)
    = 0
    /\ forall row,
         fst (GenerateFull.resolve
                (GenerateFull.process_rpp_data float state_df msa_df) row)
         <> GenerateFull.matched_state.
Proof.
  intros float state_df msa_df zip_df Hlong.
  assert (Hno : forall row,
            fst (GenerateFull.resolve
                   (GenerateFull.process_rpp_data float state_df msa_df) row)
            <> GenerateFull.matched_state).
  { intros row H. apply resolve_state_tier in H. apply mem_true_iff in H.
    destruct (process_table_facts float state_df msa_df) as (_ & Hk & _).
    apply Hk in H. destruct H as (w & r & c & v & Hin & Hr).
    apply reading_geo in Hr. destruct Hr as [Hg _].
    pose proof (take_length 2 (GenerateFull.county_fips_of row)) as Hl.
    rewrite Hg in Hl.
    unfold records in Hin. apply in_app_or in Hin.
    destruct Hin as [Hin|Hin]; apply in_map_iff in Hin;
      destruct Hin as (x & [= <- <-] & Hx).
    - specialize (Hlong _ Hx). rewrite zfill_long in Hl; lia.
    - pose proof (zfill_length 5 (GenerateFull.GeoFips x)). lia. }
  split; [|exact Hno].
  pose proof (join_counts
                (GenerateFull.process_rpp_data float state_df msa_df) zip_df)
    as Hc.
  unfold counts in Hc. injection Hc as _ Hc _. rewrite Hc. clear Hc.
  unfold tally. induction (Crosswalk.dedupe zip_df) as [|r rows IH];
    [reflexivity|].
  cbn [filter]. specialize (Hno r).
  destruct (fst (GenerateFull.resolve _ r)); simpl;
    [exact IH|contradiction|exact IH].
Qed.

Lemma state_tier_needs_two_character_codes_witness :
  GenerateFull.n_matched_state
    (GenerateFull.join
       (GenerateFull.process_rpp_data Py.float_plain
          [GenerateFull.mkBea "26000" "1" "93.1"] [])
       [flint])
  = 0
  /\ forall row,
       fst (GenerateFull.resolve
              (GenerateFull.process_rpp_data Py.float_plain
                 [GenerateFull.mkBea "26000" "1" "93.1"] []) row)
       <> GenerateFull.matched_state.
Proof.
  apply (state_tier_needs_two_character_codes Py.float_plain
           [GenerateFull.mkBea "26000" "1" "93.1"] [] [flint]).
  intros row [<-|[]]. simpl. lia.
Defined.
(** ** The whole output of the fallback join *)

Lemma fold_set_fresh {A V : Type} (f : A -> string) (g : A -> V) rows :
  forall acc : Py.dict V,
    NoDup (map f rows) ->
    (forall r, In r rows -> ~ In (f r) (Py.keys acc)) ->
    fold_left (fun d r => Py.set d (f r) (g r)) rows acc
    = (acc ++ map (fun r => (f r, g r)) rows)%list.
Proof.
  induction rows as [|r rows IH]; intros acc Hnd Hfresh; cbn [fold_left map].
  - now rewrite app_nil_r.
  - inversion Hnd as [|? ? Hr Hnd']; subst.
    rewrite IH; [|assumption|].
    + rewrite set_fresh by (apply Hfresh; now left).
      now rewrite <- app_assoc.
    + intros r' Hr' Hin. apply in_keys_set in Hin. destruct Hin as [E|Hin].
      * apply Hr. rewrite <- E. now apply in_map.
      * apply (Hfresh r'); [now right|assumption].
Qed.

Lemma join_fold_data rpp_lookup rows :
  forall s,
    GenerateFull.final_data
      (fold_left (GenerateFull.join_step rpp_lookup) rows s)
    = fold_left (fun d r => Py.set d (GenerateFull.zip_code_of r)
                                   (GenerateFull.resolved rpp_lookup r))
                rows (GenerateFull.final_data s).
Proof.
  induction rows as [|r rows IH]; intros s; cbn [fold_left]; [reflexivity|].
  now rewrite IH, join_step_data.
Qed.

Lemma leb_total a b : String.leb a b = true \/ String.leb b a = true.
Proof.
  unfold String.leb.
  pose proof (cmp_str_antisym (Some a) (Some b)) as H. simpl in H.
  rewrite H. destruct (String.compare a b); simpl; auto.
Qed.

Lemma leb_trans a b c :
  String.leb a b = true -> String.leb b c = true -> String.leb a c = true.
Proof.
  unfold String.leb. intros Hab Hbc.
  destruct (String.compare a b) eqn:Eab; [| |discriminate].
  - apply (cmp_str_eq (Some a) (Some b)) in Eab. injection Eab as ->.
    exact Hbc.
  - destruct (String.compare b c) eqn:Ebc; [| |discriminate].
    + apply (cmp_str_eq (Some b) (Some c)) in Ebc. injection Ebc as <-.
      now rewrite Eab.
    + pose proof (cmp_str_lt_trans (Some a) (Some b) (Some c) Eab Ebc) as H.
      simpl in H. now rewrite H.
Qed.

Lemma tally_total rpp_lookup rows :
  tally rpp_lookup GenerateFull.matched_cbsa rows
  + tally rpp_lookup GenerateFull.matched_state rows
  + tally rpp_lookup GenerateFull.estimated rows
  = List.length rows.
Proof.
  unfold tally. induction rows as [|r rows IH]; [reflexivity|].
  cbn [filter]. destruct (fst (GenerateFull.resolve rpp_lookup r)); simpl;
    lia.
Qed.

(** The keys under which the de-duplicated rows are stored, when no ZIP
    needs padding. *)
Lemma dedupe_zip_codes zip_df :
  (forall z, In (Some z) (map Crosswalk.ZIP zip_df) -> String.length z = 5) ->
  map Some (map GenerateFull.zip_code_of (Crosswalk.dedupe zip_df))
  = map Crosswalk.ZIP (Crosswalk.dedupe zip_df).
Proof.
  intros Hlen. rewrite map_map. apply map_ext_in. intros r Hr.
  destruct (dedupe_zip_present _ _ Hr) as [z Hz].
  unfold GenerateFull.zip_code_of. rewrite Hz. simpl. f_equal.
  apply zfill_long. rewrite Hlen; [lia|].
  apply dedupe_has_zip. rewrite <- Hz. now apply in_map.
Qed.

Lemma map_some_inj {A} (l l' : list A) : map Some l = map Some l' -> l = l'.
Proof.
  revert l'. induction l as [|a l IH]; intros [|b l']; simpl;
    try discriminate; [reflexivity|].
  intros [= -> H]. f_equal. now apply IH.
Qed.

(** X5. The three counters of the join add up to the number of rows
    the de-duplication leaves, one per distinct ZIP.  When no ZIP of the
    crosswalk needs padding, the output holds exactly one entry per
    de-duplicated row, in the order of that frame, each with the record
    its row resolves to; its keys are then in ascending order whatever
    the order of the input rows, and the counters add up to its size. *)
Theorem join_output_in_zip_order :
  forall (rpp_lookup : Py.dict (Py.dict num)) (zip_df : list Crosswalk.row),
    (forall z, In (Some z) (map Crosswalk.ZIP zip_df) ->
               String.length z = 5) ->
    let s := GenerateFull.join rpp_lookup zip_df in
    GenerateFull.final_data s
    = map (fun r => (GenerateFull.zip_code_of r,
                     GenerateFull.resolved rpp_lookup r))
          (Crosswalk.dedupe zip_df)
    /\ StronglySorted (fun a b => String.leb a b = true)
                      (Py.keys (GenerateFull.final_data s))
    /\ GenerateFull.n_matched_cbsa s + GenerateFull.n_matched_state s
       + GenerateFull.n_estimated s
       = List.length (Py.keys (GenerateFull.final_data s))
    /\ GenerateFull.n_matched_cbsa s + GenerateFull.n_matched_state s
       + GenerateFull.n_estimated s
       = List.length (Crosswalk.dedupe zip_df).
Proof.
  intros rpp_lookup zip_df Hlen s.
  pose proof (dedupe_zip_codes zip_df Hlen) as Hcodes.
  assert (Hdata : GenerateFull.final_data s
                  = map (fun r => (GenerateFull.zip_code_of r,
                                   GenerateFull.resolved rpp_lookup r))
                        (Crosswalk.dedupe zip_df)).
  { unfold s, GenerateFull.join. rewrite join_fold_data.
    rewrite fold_set_fresh; [reflexivity| |intros r _ []].
    apply (NoDup_map_inv Some). rewrite Hcodes. apply dedupe_nodup. }
  assert (Hsum : GenerateFull.n_matched_cbsa s + GenerateFull.n_matched_state s
                 + GenerateFull.n_estimated s
                 = List.length (Crosswalk.dedupe zip_df)).
  { pose proof (join_counts rpp_lookup zip_df) as Hc. unfold counts in Hc.
    fold s in Hc. injection Hc as -> -> ->. apply tally_total. }
  assert (Hkeys : Py.keys (GenerateFull.final_data s)
                  = map GenerateFull.zip_code_of (Crosswalk.dedupe zip_df)).
  { rewrite Hdata. unfold Py.keys. rewrite map_map. reflexivity. }
  split; [exact Hdata|]. split; [|split; [|exact Hsum]].
  - rewrite Hkeys. rewrite dedupe_zips in Hcodes.
    apply map_some_inj in Hcodes. rewrite Hcodes.
    apply sorted_sort; [exact leb_total|exact leb_trans].
  - rewrite Hsum, Hkeys. now rewrite length_map.
Qed.

Lemma join_output_in_zip_order_witness :
  Py.keys (GenerateFull.final_data
             (GenerateFull.join [] [austin; flint; split_zip_second]))
  = ["48505"; "78701"]
  /\ GenerateFull.n_estimated
       (GenerateFull.join [] [austin; flint; split_zip_second])
     = 2.
Proof.
  destruct (join_output_in_zip_order [] [austin; flint; split_zip_second])
    as (H1 & _ & _ & H4).
  - intros z [[= <-]|[[= <-]|[[= <-]|[]]]]; reflexivity.
  - split.
    + rewrite H1. reflexivity.
    + simpl in H4. exact H4.
Defined.
(** ** Whole runs of the builders *)

Lemma load_after_dump path (data : Py.dict zip_info) fs :
  Py.wf data ->
  (forall kv, In kv data -> good_info (snd kv)) ->
  Py.get fs path = Some (Json.iterencode data) ->
  File.load_json path (mkWorld fs None) = (Ok data, mkWorld fs None).
Proof.
  intros Hwf Hgood Hget. unfold File.load_json. simpl.
  now rewrite Hget, load_iterencode.
Qed.

(** X6. On a medium that takes every write, a run of
    generate_full_dataset.py whose crosswalk loads writes the joined
    table to public/col_by_zip.json whatever the two replies of the
    statistical source are, and reading that file back gives the table:
    the same keys in the same order with the same values.  Where the
    directory src exists the run writes the same text to
    src/data/col_by_zip.json, which the loader of optimize_dataset.py
    reads back as the table, and ends with status 0.  Where src does not
    exist, making src/data raises after the first file is written: the
    run ends with status 1 and nothing is written under src/data.  No
    other file is changed. *)
Theorem generate_run_hands_over :
  forall (float : string -> option num)
         (state_reply msa_reply : Bea.reply GenerateFull.bea_row)
         (zip_df : list Crosswalk.row) (fs : Py.dict (list chunk))
         (src_dir : bool),
    let final_data :=
      GenerateFull.final_data
        (GenerateFull.join
           (GenerateFull.process_rpp_data float
              (GenerateFull.fetch_bea_data state_reply)
              (GenerateFull.fetch_bea_data msa_reply))
           zip_df) in
    let text := Json.iterencode final_data in
    let run :=
      GenerateFull.main float state_reply msa_reply (Ok zip_df) src_dir
                        (mkWorld fs None) in
    fst run = (if src_dir then 0 else 1)
    /\ snd run
       = mkWorld
           (if src_dir
            then Py.set (Py.set fs "public/col_by_zip.json" text)
                        "src/data/col_by_zip.json" text
            else Py.set fs "public/col_by_zip.json" text)
           None
    /\ File.load_json "public/col_by_zip.json" (snd run)
       = (Ok final_data, snd run)
    /\ (src_dir = true ->
        Optimize.load_full_dataset (snd run) = (Ok final_data, snd run))
    /\ (src_dir = false ->
        Py.get (files (snd run)) "src/data/col_by_zip.json"
        = Py.get fs "src/data/col_by_zip.json")
    /\ (forall p, p <> "public/col_by_zip.json" ->
                  p <> "src/data/col_by_zip.json" ->
                  Py.get (files (snd run)) p = Py.get fs p).
Proof.
  intros float state_reply msa_reply zip_df fs src_dir final_data text run.
  assert (Hrun : run
                 = if src_dir
                   then (0, mkWorld
                              (Py.set (Py.set fs "public/col_by_zip.json"
                                              text)
                                      "src/data/col_by_zip.json" text)
                              None)
                   else (1, mkWorld
                              (Py.set fs "public/col_by_zip.json" text)
                              None)).
  { unfold run, GenerateFull.main,
      GenerateFull.generate_comprehensive_dataset.
    unfold bind, lift, ret, raise. fold final_data. fold text.
    rewrite dump_json_unlimited. destruct src_dir; [|reflexivity].
    rewrite dump_json_unlimited. reflexivity. }
  assert (Hwf : Py.wf final_data).
  { unfold final_data, GenerateFull.join. apply join_fold_wf. constructor. }
  assert (Hgood : forall kv, In kv final_data -> good_info (snd kv)).
  { intros kv. unfold final_data. apply join_values_good. }
  rewrite Hrun. destruct src_dir; cbn [fst snd files].
  - split; [reflexivity|]. split; [reflexivity|]. split; [|split; [|split]].
    + apply load_after_dump; [assumption|assumption|].
      rewrite get_set_other by discriminate. apply get_set_same.
    + intros _. unfold Optimize.load_full_dataset.
      apply load_after_dump; [assumption|assumption|]. apply get_set_same.
    + discriminate.
    + intros p H1 H2. rewrite !get_set_other by congruence. reflexivity.
  - split; [reflexivity|]. split; [reflexivity|]. split; [|split; [|split]].
    + apply load_after_dump; [assumption|assumption|]. apply get_set_same.
    + discriminate.
    + intros _. rewrite get_set_other by discriminate. reflexivity.
    + intros p H1 H2. rewrite get_set_other by congruence. reflexivity.
Qed.

(** X7. When the crosswalk cannot be loaded (the download fails, the
    archive holds no CSV member or the CSV cannot be read), both
    builders end with status 1 and leave every file as it was, whatever
    the statistical source answered and whether or not the directory
    src exists. *)
Theorem crosswalk_failure_writes_nothing :
  forall (float : string -> option num)
         (state_reply msa_reply : Bea.reply GenerateFull.bea_row)
         (msa_reply' state_reply' : Bea.reply BuildLookup.rpp_row)
         (e : exn) (src_dir : bool) (w : world),
    GenerateFull.main float state_reply msa_reply (Raise e) src_dir w
    = (1, w)
    /\ BuildLookup.main msa_reply' state_reply' (Raise e) w = (1, w).
Proof.
  intros float state_reply msa_reply msa_reply' state_reply' e src_dir w.
  split.
  - reflexivity.
  - unfold BuildLookup.main, BuildLookup.build_lookup, bind, lift.
    destruct (BuildLookup.load_rpp msa_reply' state_reply'); reflexivity.
Qed.
(** ** The joins of build_cost_of_living_dataset.py *)

Lemma update_values zs :
  forall other,
    Forall (fun o => frame_values o = (None, None, None, None)) other ->
    map frame_values (BuildLookup.update zs other) = map frame_values zs.
Proof.
  induction zs as [|z zs IH]; intros [|o other] H; simpl; try reflexivity.
  inversion H as [|? ? Ho H']; subst. rewrite IH by assumption.
  f_equal. unfold frame_values in *. simpl.
  injection Ho as -> -> -> ->. reflexivity.
Qed.

Lemma merge_state_values need :
  Forall (fun o => frame_values o = (None, None, None, None))
         (BuildLookup.merge_state need []).
Proof.
  induction need as [|n need IH]; simpl; constructor; [reflexivity|exact IH].
Qed.

Lemma written_of_values zs zs' :
  map frame_values zs = map frame_values zs' ->
  map written_values
      (filter (fun o => negb (BuildLookup.isna (BuildLookup.o_rpp_all o)))
              (map BuildLookup.tidy zs))
  = map written_values
        (filter (fun o => negb (BuildLookup.isna (BuildLookup.o_rpp_all o)))
                (map BuildLookup.tidy zs')).
Proof.
  revert zs'. induction zs as [|z zs IH]; intros [|z' zs'] H;
    try discriminate; [reflexivity|].
  cbn [map] in H. injection H as H1 H2 H3 H4 H. cbn [map filter].
  change (BuildLookup.o_rpp_all (BuildLookup.tidy z))
    with (BuildLookup.z_rpp_all z).
  change (BuildLookup.o_rpp_all (BuildLookup.tidy z'))
    with (BuildLookup.z_rpp_all z').
  rewrite H1.
  destruct (BuildLookup.z_rpp_all z') eqn:E; cbn [BuildLookup.isna negb map].
  - rewrite (IH _ H). f_equal. unfold written_values. simpl.
    now rewrite H1, H2, H3, H4, E.
  - apply IH, H.
Qed.

(** X8. In [build_lookup] the codes of the frame are padded to five
    characters before the state records, those with a code of two
    characters, are selected: none is selected, and the state fallback
    fills no value.  The values written are those the metro join found,
    in the same order, whatever the county codes of the crosswalk. *)
Theorem lookup_state_fallback_fills_nothing :
  forall (xwalk : list Crosswalk.row) (rpp0 rpp : list BuildLookup.rpp_row),
    BuildLookup.zfill_geo rpp0 = Ok rpp ->
    BuildLookup.state_rpp rpp = []
    /\ map written_values (BuildLookup.join xwalk rpp)
       = map written_values
           (filter (fun o =>
                      negb (BuildLookup.isna (BuildLookup.o_rpp_all o)))
                   (map BuildLookup.tidy
                        (BuildLookup.merge_cbsa (Crosswalk.dedupe xwalk)
                                                rpp))).
Proof.
  intros xwalk rpp0 rpp Hz.
  pose proof (state_rpp_after_zfill _ _ Hz) as Hs.
  split; [exact Hs|].
  unfold BuildLookup.join. rewrite Hs.
  destruct (filter _ (BuildLookup.merge_cbsa _ _)) as [|n need];
    [reflexivity|].
  apply written_of_values, update_values, merge_state_values.
Qed.

Lemma lookup_state_fallback_fills_nothing_witness :
  BuildLookup.state_rpp
    [BuildLookup.mkRpp (Some "00026") (Some 93.1%Q) None None None]
  = []
  /\ map written_values
       (BuildLookup.join [flint]
          [BuildLookup.mkRpp (Some "00026") (Some 93.1%Q) None None None])
     = [].
Proof.
  apply (lookup_state_fallback_fills_nothing [flint]
           [BuildLookup.mkRpp (Some "26") (Some 93.1%Q) None None None]
           [BuildLookup.mkRpp (Some "00026") (Some 93.1%Q) None None None]).
  reflexivity.
Defined.

Lemma merge_cbsa_zip xs rpp z :
  In z (BuildLookup.merge_cbsa xs rpp) ->
  exists x, In x xs /\ BuildLookup.ZIP z = Crosswalk.ZIP x.
Proof.
  unfold BuildLookup.merge_cbsa. rewrite in_flat_map.
  intros (x & Hx & Hz). exists x. split; [assumption|].
  destruct (filter _ rpp) as [|g matches].
  - destruct Hz as [<-|[]]. reflexivity.
  - apply in_map_iff in Hz. destruct Hz as (g' & <- & _). reflexivity.
Qed.

(** X9. The rows of [build_lookup] that need the state fallback are
    numbered from 0 again by their merge, and [DataFrame.update] aligns
    them with the frame by that number: their cells overwrite those of
    the first rows of the frame.  When the first row of the merged frame
    has metro values and some later row has none, the first row written
    carries the ZIP of the first row without values (and its state,
    county and metro code where it has them) together with the metro
    values of the first row. *)
Theorem lookup_fallback_overwrites_first_rows :
  forall (xwalk : list Crosswalk.row) (rpp0 rpp : list BuildLookup.rpp_row)
         (z0 n0 : BuildLookup.zip_row) (zs ns : list BuildLookup.zip_row),
    BuildLookup.zfill_geo rpp0 = Ok rpp ->
    BuildLookup.merge_cbsa (Crosswalk.dedupe xwalk) rpp = z0 :: zs ->
    BuildLookup.z_rpp_all z0 <> None ->
    filter (fun z => BuildLookup.isna (BuildLookup.z_rpp_all z)) zs
    = n0 :: ns ->
    exists zip rest,
      BuildLookup.ZIP n0 = Some zip
      /\ BuildLookup.join xwalk rpp
         = BuildLookup.mkOut
             (Some zip)
             (BuildLookup.update_cell (BuildLookup.STATE z0)
                                      (BuildLookup.STATE n0))
             (BuildLookup.update_cell (BuildLookup.COUNTY z0)
                                      (BuildLookup.COUNTY n0))
             (BuildLookup.update_cell (BuildLookup.CBSA z0)
                                      (BuildLookup.CBSA n0))
             (BuildLookup.z_rpp_all z0) (BuildLookup.z_rpp_housing z0)
             (BuildLookup.z_rpp_goods z0) (BuildLookup.z_rpp_other z0)
           :: rest.
Proof.
  intros xwalk rpp0 rpp z0 n0 zs ns Hz Hm Hv Hn.
  assert (Hzip : exists zip, BuildLookup.ZIP n0 = Some zip).
  { assert (Hin : In n0 (BuildLookup.merge_cbsa (Crosswalk.dedupe xwalk) rpp)).
    { rewrite Hm. right.
      apply (proj1 (filter_In
               (fun z => BuildLookup.isna (BuildLookup.z_rpp_all z)) n0 zs)).
      rewrite Hn. now left. }
    apply merge_cbsa_zip in Hin. destruct Hin as (x & Hx & ->).
    now apply dedupe_zip_present with xwalk. }
  destruct Hzip as [zip Hzip]. exists zip.
  unfold BuildLookup.join.
  rewrite (state_rpp_after_zfill _ _ Hz), Hm. cbn [filter].
  destruct (BuildLookup.z_rpp_all z0) as [v|] eqn:Ev; [|contradiction].
  cbn [BuildLookup.isna]. rewrite Hn.
  cbn [BuildLookup.merge_state flat_map filter app BuildLookup.update map].
  unfold BuildLookup.tidy at 1. cbn [BuildLookup.update_row
    BuildLookup.refill BuildLookup.ZIP BuildLookup.STATE BuildLookup.COUNTY
    BuildLookup.CBSA BuildLookup.z_rpp_all BuildLookup.z_rpp_housing
    BuildLookup.z_rpp_goods BuildLookup.z_rpp_other
    BuildLookup.update_cell BuildLookup.o_rpp_all].
  rewrite Hzip, Ev. cbn [BuildLookup.isna negb BuildLookup.update_cell].
  eexists. split; [reflexivity|]. f_equal.
  unfold BuildLookup.tidy, BuildLookup.update_row, BuildLookup.refill.
  simpl. now rewrite Hzip, Ev.
Qed.
Lemma lookup_fallback_overwrites_first_rows_witness :
  exists zip rest,
    Some "48505" = Some zip
    /\ BuildLookup.join
         [flint;
          Crosswalk.mkRow (Some "10001") (Some "36061") (Some "NY")
                          (Some "35620") (Some 1.0%Q)]
         [BuildLookup.mkRpp (Some "35620") (Some 125.6%Q) (Some 168.5%Q)
                            (Some 109.2%Q) (Some 118.3%Q)]
       = BuildLookup.mkOut (Some zip) (Some "MI") (Some "26049")
                           (Some "35620") (Some 125.6%Q) (Some 168.5%Q)
                           (Some 109.2%Q) (Some 118.3%Q)
         :: rest.
Proof.
  apply (lookup_fallback_overwrites_first_rows
           [flint;
            Crosswalk.mkRow (Some "10001") (Some "36061") (Some "NY")
                            (Some "35620") (Some 1.0%Q)]
           [BuildLookup.mkRpp (Some "35620") (Some 125.6%Q) (Some 168.5%Q)
                              (Some 109.2%Q) (Some 118.3%Q)]
           [BuildLookup.mkRpp (Some "35620") (Some 125.6%Q) (Some 168.5%Q)
                              (Some 109.2%Q) (Some 118.3%Q)]
           (BuildLookup.mkZip (Some "10001") (Some "36061") (Some "NY")
                              (Some "35620") (Some 1.0%Q) (Some "35620")
                              (Some 125.6%Q) (Some 168.5%Q) (Some 109.2%Q)
                              (Some 118.3%Q))
           (BuildLookup.mkZip (Some "48505") (Some "26049") (Some "MI")
                              None (Some 1.0%Q) None None None None None)
           [BuildLookup.mkZip (Some "48505") (Some "26049") (Some "MI")
                              None (Some 1.0%Q) None None None None None]
           []).
  - reflexivity.
  - reflexivity.
  - discriminate.
  - reflexivity.
Defined.

Lemma filter_all {A} (P : A -> bool) (l : list A) :
  (forall a, In a l -> P a = true) -> filter P l = l.
Proof.
  induction l as [|a l IH]; intros H; simpl; [reflexivity|].
  rewrite (H a (or_introl eq_refl)). f_equal. apply IH.
  intros b Hb. apply H. now right.
Qed.

Lemma merge_cbsa_matched xs rpp :
  (forall x, In x xs -> metro_records rpp x <> []) ->
  BuildLookup.merge_cbsa xs rpp
  = flat_map (fun x => map (fun g => BuildLookup.attach x (Some g))
                           (metro_records rpp x)) xs.
Proof.
  intros H. unfold BuildLookup.merge_cbsa.
  induction xs as [|x xs IH]; [reflexivity|].
  cbn [flat_map]. rewrite IH by (intros y Hy; apply H; now right).
  f_equal. specialize (H x (or_introl eq_refl)).
  unfold metro_records in *.
  destruct (filter _ rpp); [contradiction|reflexivity].
Qed.

(** X10. The metro join of [build_lookup] is a left merge: a row of the
    de-duplicated crosswalk comes out once for every record of the
    frame that has its metro code.  When every record has a value for
    [rpp_all] and every row finds a record, nothing else changes the
    frame: the rows written are these pairs of a crosswalk row and a
    record, in order, so a geography listed [n] times in the frame puts
    each of its ZIPs [n] times in the file. *)
Theorem lookup_writes_one_row_per_record :
  forall (xwalk : list Crosswalk.row) (rpp : list BuildLookup.rpp_row),
    (forall g, In g rpp -> BuildLookup.rpp_all g <> None) ->
    (forall x, In x (Crosswalk.dedupe xwalk) -> metro_records rpp x <> []) ->
    BuildLookup.join xwalk rpp
    = flat_map (fun x =>
                  map (fun g => BuildLookup.tidy
                                  (BuildLookup.attach x (Some g)))
                      (metro_records rpp x))
               (Crosswalk.dedupe xwalk).
Proof.
  intros xwalk rpp Hall Hmatch. unfold BuildLookup.join.
  rewrite (merge_cbsa_matched _ _ Hmatch). cbv zeta.
  set (zip_df := flat_map _ (Crosswalk.dedupe xwalk)).
  assert (Hv : forall z, In z zip_df -> BuildLookup.z_rpp_all z <> None).
  { intros z Hz. unfold zip_df in Hz. apply in_flat_map in Hz.
    destruct Hz as (x & _ & Hz). apply in_map_iff in Hz.
    destruct Hz as (g & <- & Hg). simpl. apply Hall.
    unfold metro_records in Hg. now apply filter_In in Hg. }
  rewrite (filter_none
             (fun z => BuildLookup.isna (BuildLookup.z_rpp_all z)) zip_df).
  - rewrite filter_all.
    + unfold zip_df. rewrite flat_map_concat_map, concat_map, map_map.
      rewrite <- flat_map_concat_map. apply flat_map_ext.
      intros x. now rewrite map_map.
    + intros o Ho. apply in_map_iff in Ho. destruct Ho as (z & <- & Hz).
      simpl. specialize (Hv z Hz).
      now destruct (BuildLookup.z_rpp_all z).
  - intros z Hz. specialize (Hv z Hz).
    now destruct (BuildLookup.z_rpp_all z).
Qed.

Lemma lookup_writes_one_row_per_record_witness :
  BuildLookup.join [austin]
    [BuildLookup.mkRpp (Some "12420") (Some 95.8%Q) None None None;
     BuildLookup.mkRpp (Some "12420") (Some 102.1%Q) None None None]
  = [BuildLookup.mkOut (Some "78701") (Some "TX") (Some "48453")
                       (Some "12420") (Some 95.8%Q) None None None;
     BuildLookup.mkOut (Some "78701") (Some "TX") (Some "48453")
                       (Some "12420") (Some 102.1%Q) None None None].
Proof.
  rewrite (lookup_writes_one_row_per_record [austin]
    [BuildLookup.mkRpp (Some "12420") (Some 95.8%Q) None None None;
     BuildLookup.mkRpp (Some "12420") (Some 102.1%Q) None None None]).
  - reflexivity.
  - intros g [<-|[<-|[]]]; discriminate.
  - intros x [<-|[]]. discriminate.
Defined.

(** X11. When both tables of the statistical source arrive well formed
    but without a record, the frame [build_lookup] makes of them has no
    column [geo]: the run raises at the padding of the codes, ends with
    status 1 and writes nothing, whatever the crosswalk is. *)
Theorem lookup_empty_tables_abort :
  forall (msa_reply state_reply : Bea.reply BuildLookup.rpp_row)
         (hud : result (list Crosswalk.row)) (w : world),
    BuildLookup.bea_request msa_reply = Ok [] ->
    BuildLookup.bea_request state_reply = Ok [] ->
    BuildLookup.main msa_reply state_reply hud w = (1, w)
    /\ (forall xwalk,
          hud = Ok xwalk ->
          fst (BuildLookup.build_lookup msa_reply state_reply hud w)
          = Raise (KeyError "geo")).
Proof.
  intros msa_reply state_reply hud w Hm Hs.
  unfold BuildLookup.main, BuildLookup.build_lookup, BuildLookup.load_rpp.
  rewrite Hm, Hs. unfold bind, lift. simpl.
  destruct hud as [xwalk|e]; simpl.
  - split; [reflexivity|]. reflexivity.
  - split; [reflexivity|]. discriminate.
Qed.

Lemma lookup_empty_tables_abort_witness :
  BuildLookup.main (Bea.data_reply []) (Bea.data_reply []) (Ok [flint])
                   (mkWorld [] None)
  = (1, mkWorld [] None)
  /\ (forall xwalk,
        Ok [flint] = Ok xwalk ->
        fst (BuildLookup.build_lookup (Bea.data_reply [])
               (Bea.data_reply []) (Ok [flint]) (mkWorld [] None))
        = Raise (KeyError "geo")).
Proof.
  apply (lookup_empty_tables_abort (Bea.data_reply []) (Bea.data_reply [])
           (Ok [flint]) (mkWorld [] None)); reflexivity.
Defined.
(** ** Runs of csv_to_json.py *)



(** X12. Without the file data/col_by_zip.csv the converter raises
    before it opens any output: the run ends with status 1 and every
    file is as it was. *)
Theorem csv_to_json_needs_its_input :
  forall (df : list CsvToJson.csv_row) (w : world),
    Py.mem (files w) "data/col_by_zip.csv" = false ->
    CsvToJson.main df w = (1, w)
    /\ fst (CsvToJson.csv_to_json df w)
       = Raise (FileNotFoundError "data/col_by_zip.csv").
Proof.
  intros df w H.
  unfold CsvToJson.main, CsvToJson.csv_to_json, bind, File.exists_, raise.
  rewrite H. split; reflexivity.
Qed.

Lemma csv_to_json_needs_its_input_witness :
  CsvToJson.main
    [CsvToJson.mkCsv "48505" "MI" None 89.5%Q 85.0%Q 93.0%Q 92.0%Q]
    earlier_run
  = (1, earlier_run)
  /\ fst (CsvToJson.csv_to_json
            [CsvToJson.mkCsv "48505" "MI" None 89.5%Q 85.0%Q 93.0%Q 92.0%Q]
            earlier_run)
     = Raise (FileNotFoundError "data/col_by_zip.csv").
Proof.
  apply (csv_to_json_needs_its_input
           [CsvToJson.mkCsv "48505" "MI" None 89.5%Q 85.0%Q 93.0%Q 92.0%Q]
           earlier_run).
  reflexivity.
Defined.


Lemma csv_fold_get_other rows k :
  (forall r, In r rows -> Py.zfill 5 (CsvToJson.zip r) <> k) ->
  forall acc : Py.dict zip_info,
    Py.get (fold_left
              (fun zip_data row =>
                 Py.set zip_data (Py.zfill 5 (CsvToJson.zip row))
                        (CsvToJson.convert row)) rows acc) k
    = Py.get acc k.
Proof.
  induction rows as [|r rows IH]; intros H acc; cbn [fold_left];
    [reflexivity|].
  rewrite IH by (intros r' Hr'; apply H; now right).
  apply get_set_other. apply H. now left.
Qed.

Lemma csv_fold_length rows :
  forall acc : Py.dict zip_info,
    List.length
      (fold_left
         (fun zip_data row =>
            Py.set zip_data (Py.zfill 5 (CsvToJson.zip row))
                   (CsvToJson.convert row)) rows acc)
    <= List.length acc + List.length rows.
Proof.
  induction rows as [|r rows IH]; intros acc; cbn [fold_left]; simpl;
    [lia|].
  etransitivity; [apply IH|].
  assert (H : List.length (Py.set acc (Py.zfill 5 (CsvToJson.zip r))
                                  (CsvToJson.convert r))
              <= S (List.length acc)).
  { generalize (Py.zfill 5 (CsvToJson.zip r)), (CsvToJson.convert r).
    intros k v. induction acc as [|[k' v'] acc IHa]; simpl; [lia|].
    destruct (k' =? k); simpl; lia. }
  lia.
Qed.

(** X14. The converter files each row under its ZIP padded to five
    characters, so rows whose ZIPs differ only by leading zeros share
    one entry: of the rows with the same padded ZIP the last one gives
    the entry, and the table never has more entries than the CSV has
    rows. *)
Theorem csv_last_row_wins :
  forall (before after : list CsvToJson.csv_row) (row : CsvToJson.csv_row),
    (forall r, In r after ->
               Py.zfill 5 (CsvToJson.zip r)
               <> Py.zfill 5 (CsvToJson.zip row)) ->
    Py.get (CsvToJson.to_zip_data (before ++ row :: after))
           (Py.zfill 5 (CsvToJson.zip row))
    = Some (CsvToJson.convert row)
    /\ List.length (CsvToJson.to_zip_data (before ++ row :: after))
       <= List.length (before ++ row :: after).
Proof.
  intros before after row H. split.
  - unfold CsvToJson.to_zip_data. rewrite fold_left_app. cbn [fold_left].
    rewrite csv_fold_get_other by assumption. apply get_set_same.
  - unfold CsvToJson.to_zip_data.
    apply (csv_fold_length (before ++ row :: after) []).
Qed.

Lemma csv_last_row_wins_witness :
  Py.get (CsvToJson.to_zip_data
            ([CsvToJson.mkCsv "00501" "NY" None 125.0%Q 165.0%Q 109.0%Q
                              118.0%Q]
             ++ CsvToJson.mkCsv "501" "NY" (Some "35620") 125.6%Q 168.5%Q
                                109.2%Q 118.3%Q
             :: [])%list)
         (Py.zfill 5 "501")
  = Some (CsvToJson.convert
            (CsvToJson.mkCsv "501" "NY" (Some "35620") 125.6%Q 168.5%Q
                             109.2%Q 118.3%Q))
  /\ List.length
       (CsvToJson.to_zip_data
          ([CsvToJson.mkCsv "00501" "NY" None 125.0%Q 165.0%Q 109.0%Q
                            118.0%Q]
           ++ CsvToJson.mkCsv "501" "NY" (Some "35620") 125.6%Q 168.5%Q
                              109.2%Q 118.3%Q
           :: [])%list)
     <= List.length
          ([CsvToJson.mkCsv "00501" "NY" None 125.0%Q 165.0%Q 109.0%Q
                            118.0%Q]
           ++ CsvToJson.mkCsv "501" "NY" (Some "35620") 125.6%Q 168.5%Q
                              109.2%Q 118.3%Q
           :: [])%list.
Proof.
  apply (csv_last_row_wins
           [CsvToJson.mkCsv "00501" "NY" None 125.0%Q 165.0%Q 109.0%Q
                            118.0%Q]
           []
           (CsvToJson.mkCsv "501" "NY" (Some "35620") 125.6%Q 168.5%Q
                            109.2%Q 118.3%Q)).
  intros r [].
Defined.
(** ** The core dataset of optimize_dataset.py *)

Lemma existsb_eqb_in z l :
  existsb (String.eqb z) l = true <-> In z l.
Proof.
  rewrite existsb_exists. split.
  - intros (x & Hx & E). apply String.eqb_eq in E. now subst.
  - intros H. exists z. split; [assumption|apply String.eqb_refl].
Qed.

Lemma keep_eq max_size seen core z :
  Optimize.keep max_size (seen, core) z
  = if (negb (existsb (String.eqb z) seen)
        && Nat.ltb (List.length core) max_size)%bool
    then (z :: seen, (core ++ [z])%list)
    else (seen, core).
Proof. reflexivity. Qed.

(** The loop that removes duplicates and limits the size: what it has
    kept so far stays, in order, and it keeps a fresh ZIP while there is
    room. *)
Lemma keep_fold max_size l :
  forall seen core,
    (forall z, In z seen <-> In z core) ->
    NoDup core ->
    List.length core <= max_size ->
    let r := fold_left (Optimize.keep max_size) l (seen, core) in
    (forall z, In z (fst r) <-> In z (snd r))
    /\ NoDup (snd r)
    /\ List.length (snd r) <= max_size
    /\ (exists more, snd r = (core ++ more)%list
                     /\ List.length more <= List.length l
                     /\ forall z, In z more -> In z l).
Proof.
  induction l as [|a l IH]; intros seen core Hs Hnd Hlen; cbn [fold_left].
  - cbv zeta. cbn [fst snd]. repeat split; try assumption; try apply Hs.
    exists []. split; [now rewrite app_nil_r|]. split; [simpl; lia|].
    intros z [].
  - rewrite keep_eq.
    destruct (negb (existsb (String.eqb a) seen)
              && Nat.ltb (List.length core) max_size)%bool eqn:E.
    + apply andb_prop in E. destruct E as [Ea El].
      apply negb_true_iff in Ea. apply Nat.ltb_lt in El.
      assert (Hfresh : ~ In a core).
      { intros H. apply Hs in H. apply existsb_eqb_in in H. congruence. }
      destruct (IH (a :: seen) (core ++ [a])%list)
        as (A & B & C & more & D & L & F).
      * intros z. simpl. rewrite in_app_iff, Hs. simpl. tauto.
      * apply NoDup_app; [assumption|repeat constructor; intros []|].
        intros z Hz [<-|[]]. contradiction.
      * rewrite length_app. simpl. lia.
      * cbv zeta. split; [exact A|]. split; [exact B|]. split; [exact C|].
        exists (a :: more). split; [|split].
        -- rewrite D, <- app_assoc. reflexivity.
        -- simpl. lia.
        -- intros z [<-|Hz]; [now left|right; now apply F].
    + destruct (IH seen core Hs Hnd Hlen) as (A & B & C & more & D & L & F).
      cbv zeta. split; [exact A|]. split; [exact B|]. split; [exact C|].
      exists more. split; [exact D|]. split; [simpl; lia|].
      intros z Hz. right. now apply F.
Qed.

(** Over ZIPs not met before, all different, it keeps as many as there
    is room for. *)
Lemma keep_fold_fresh max_size l :
  forall seen core,
    (forall z, In z seen <-> In z core) ->
    NoDup l ->
    (forall z, In z l -> ~ In z core) ->
    exists seen',
      fold_left (Optimize.keep max_size) l (seen, core)
      = (seen', (core ++ firstn (max_size - List.length core) l)%list)
      /\ forall z,
           In z seen'
           <-> In z (core ++ firstn (max_size - List.length core) l)%list.
Proof.
  induction l as [|a l IH]; intros seen core Hs Hnd Hfresh; cbn [fold_left].
  - exists seen. rewrite firstn_nil, app_nil_r. split; [reflexivity|apply Hs].
  - inversion Hnd as [|? ? Ha Hnd']; subst.
    rewrite keep_eq.
    assert (Ea : existsb (String.eqb a) seen = false).
    { destruct (existsb (String.eqb a) seen) eqn:E; [|reflexivity].
      apply existsb_eqb_in in E. apply Hs in E.
      exfalso. apply (Hfresh a); [now left|assumption]. }
    rewrite Ea. cbn [negb andb].
    destruct (Nat.ltb (List.length core) max_size) eqn:El.
    + apply Nat.ltb_lt in El.
      destruct (IH (a :: seen) (core ++ [a])%list) as (seen' & Hf & Hs').
      * intros z. simpl. rewrite in_app_iff, Hs. simpl. tauto.
      * assumption.
      * intros z Hz Hin. apply in_app_or in Hin. destruct Hin as [Hin|[<-|[]]].
        -- apply (Hfresh z); [now right|assumption].
        -- contradiction.
      * exists seen'. rewrite length_app in Hf, Hs'. simpl in Hf, Hs'.
        replace (max_size - List.length core)
          with (S (max_size - (List.length core + 1))) by lia.
        cbn [firstn]. rewrite <- app_assoc in Hf, Hs'. simpl in Hf, Hs'.
        split; [exact Hf|exact Hs'].
    + apply Nat.ltb_ge in El.
      replace (max_size - List.length core) with 0 by lia.
      cbn [firstn]. rewrite app_nil_r.
      assert (Hfull : forall l' seen0,
                fold_left (Optimize.keep max_size) l' (seen0, core)
                = (seen0, core)).
      { induction l' as [|b l' IHl]; intros seen0; cbn [fold_left];
          [reflexivity|].
        rewrite keep_eq.
        replace (Nat.ltb (List.length core) max_size) with false
          by (symmetry; apply Nat.ltb_ge; lia).
        rewrite andb_false_r. apply IHl. }
      exists seen. split; [apply Hfull|apply Hs].
Qed.

Lemma in_firstn {A} (x : A) n l : In x (firstn n l) -> In x l.
Proof.
  intros H. rewrite <- (firstn_skipn n l). apply in_or_app. now left.
Qed.

Lemma priority_in_full full_data z :
  In z (Optimize.priority_zips full_data) -> In z (Py.keys full_data).
Proof.
  unfold Optimize.priority_zips. rewrite in_app_iff. intros [H|H].
  - apply in_firstn in H. unfold Optimize.metro_zips in H.
    apply in_map_iff in H. destruct H as ([k v] & <- & H).
    apply filter_In in H. destruct H as [H _].
    unfold Py.keys. apply in_map_iff. now exists (k, v).
  - apply in_flat_map in H. destruct H as (p & _ & H).
    apply in_firstn in H. apply filter_In in H. tauto.
Qed.

Lemma core_fold_fresh (full_data : Py.dict zip_info) l :
  forall acc : Py.dict zip_info,
    NoDup l ->
    (forall z, In z l -> ~ In z (Py.keys acc)) ->
    fold_left (fun core_data zip_code =>
                 match Py.get full_data zip_code with
                 | Some data => Py.set core_data zip_code data
                 | None => core_data
                 end) l acc
    = (acc ++ flat_map (fun z => match Py.get full_data z with
                                 | Some d => [(z, d)]
                                 | None => []
                                 end) l)%list.
Proof.
  induction l as [|a l IH]; intros acc Hnd Hfresh; cbn [fold_left flat_map].
  - now rewrite app_nil_r.
  - inversion Hnd as [|? ? Ha Hnd']; subst.
    destruct (Py.get full_data a) as [d|] eqn:E.
    + rewrite IH; [|assumption|].
      * rewrite set_fresh by (apply Hfresh; now left).
        now rewrite <- app_assoc.
      * intros z Hz Hin. apply in_keys_set in Hin.
        destruct Hin as [->|Hin]; [contradiction|].
        apply (Hfresh z); [now right|assumption].
    + rewrite IH; [reflexivity|assumption|].
      intros z Hz. apply Hfresh. now right.
Qed.

Lemma core_zips_facts full_data max_size :
  NoDup (Optimize.core_zips full_data max_size)
  /\ List.length (Optimize.core_zips full_data max_size) <= max_size
  /\ List.length (Optimize.core_zips full_data max_size)
     <= List.length (Optimize.priority_zips full_data)
  /\ (forall z, In z (Optimize.core_zips full_data max_size) ->
                In z (Optimize.priority_zips full_data)).
Proof.
  unfold Optimize.core_zips.
  destruct (keep_fold max_size (Optimize.priority_zips full_data) [] [])
    as (_ & B & C & more & D & L & F).
  - intros z. tauto.
  - constructor.
  - simpl. lia.
  - cbv zeta in B, C, D. simpl in D.
    split; [exact B|]. split; [exact C|]. rewrite D. split; [exact L|exact F].
Qed.

Lemma core_dataset_entries full_data max_size :
  Optimize.create_core_dataset full_data max_size
  = flat_map (fun z => match Py.get full_data z with
                       | Some d => [(z, d)]
                       | None => []
                       end)
             (Optimize.core_zips full_data max_size).
Proof.
  unfold Optimize.create_core_dataset.
  destruct (core_zips_facts full_data max_size) as (Hnd & _).
  rewrite core_fold_fresh; [reflexivity|assumption|intros z _ []].
Qed.

Lemma core_dataset_keys full_data max_size :
  Py.keys (Optimize.create_core_dataset full_data max_size)
  = Optimize.core_zips full_data max_size.
Proof.
  rewrite core_dataset_entries.
  destruct (core_zips_facts full_data max_size) as (_ & _ & _ & Hin).
  induction (Optimize.core_zips full_data max_size) as [|z l IH];
    [reflexivity|].
  cbn [flat_map]. unfold Py.keys in *. rewrite map_app.
  rewrite IH by (intros x Hx; apply Hin; now right). clear IH.
  assert (Hz : In z (Py.keys full_data))
    by (apply priority_in_full, Hin; now left).
  apply mem_true_iff in Hz. unfold Py.mem in Hz.
  destruct (Py.get full_data z); [reflexivity|discriminate].
Qed.
Lemma nodup_firstn {A} n (l : list A) : NoDup l -> NoDup (firstn n l).
Proof.
  intros H. rewrite <- (firstn_skipn n l) in H.
  now apply NoDup_app_remove_r in H.
Qed.

Lemma nodup_keys_filter {V} (P : string * V -> bool) (d : Py.dict V) :
  Py.wf d -> NoDup (map fst (filter P d)).
Proof.
  unfold Py.wf, Py.keys. induction d as [|kv d IH]; intros H; simpl;
    [constructor|].
  inversion H as [|? ? Hk Hd]; subst.
  destruct (P kv); [|now apply IH].
  simpl. constructor; [|now apply IH].
  intros Hin. apply Hk. apply in_map_iff in Hin.
  destruct Hin as (x & E & Hx). apply filter_In in Hx.
  apply in_map_iff. exists x. tauto.
Qed.

Lemma core_zips_metro_first full_data max_size :
  Py.wf full_data ->
  exists more,
    Optimize.core_zips full_data max_size
    = (firstn (Nat.min max_size 1500) (Optimize.metro_zips full_data)
         ++ more)%list.
Proof.
  intros Hwf. unfold Optimize.core_zips, Optimize.priority_zips.
  rewrite fold_left_app.
  assert (Hnd : NoDup (firstn 1500 (Optimize.metro_zips full_data))).
  { apply nodup_firstn. unfold Optimize.metro_zips.
    now apply nodup_keys_filter. }
  destruct (keep_fold_fresh max_size
              (firstn 1500 (Optimize.metro_zips full_data)) [] [])
    as (seen' & Hf & Hs'); [tauto|assumption|intros z _ []|].
  rewrite Hf. cbn [app List.length] in Hs' |- *.
  rewrite Nat.sub_0_r, firstn_firstn in Hs'.
  rewrite Nat.sub_0_r, firstn_firstn.
  match goal with
  | |- context [fold_left _ ?r _] =>
      destruct (keep_fold max_size r seen'
                  (firstn (Nat.min max_size 1500)
                          (Optimize.metro_zips full_data)))
        as (_ & _ & _ & more & D & _)
  end.
  - exact Hs'.
  - apply nodup_firstn. unfold Optimize.metro_zips.
    now apply nodup_keys_filter.
  - rewrite length_firstn. lia.
  - exists more. exact D.
Qed.

(** X17. The core dataset of [create_core_dataset] has no ZIP twice and
    at most [max_size] entries (none when [max_size] is 0); every entry
    is an entry of the full dataset with the same value; and it begins
    with the metro ZIPs of the full dataset in their order there, 1500
    of them at most and as many as [max_size] allows, before any ZIP
    chosen by prefix. *)
Theorem core_dataset_shape :
  forall (full_data : Py.dict zip_info) (max_size : nat),
    Py.wf full_data ->
    let core_data := Optimize.create_core_dataset full_data max_size in
    Py.wf core_data
    /\ List.length core_data <= max_size
    /\ (forall z d, Py.get core_data z = Some d ->
                    Py.get full_data z = Some d)
    /\ exists more,
         Py.keys core_data
         = (firstn (Nat.min max_size 1500) (Optimize.metro_zips full_data)
              ++ more)%list.
Proof.
  intros full_data max_size Hwf core_data.
  destruct (core_zips_facts full_data max_size) as (Hnd & Hlen & _ & _).
  pose proof (core_dataset_keys full_data max_size) as Hkeys.
  fold core_data in Hkeys.
  split; [|split; [|split]].
  - unfold Py.wf. now rewrite Hkeys.
  - replace (List.length core_data) with (List.length (Py.keys core_data))
      by apply length_map.
    now rewrite Hkeys.
  - intros z d H. apply get_some_in in H. unfold core_data in H.
    rewrite core_dataset_entries in H. apply in_flat_map in H.
    destruct H as (z' & _ & H).
    destruct (Py.get full_data z') as [d'|] eqn:E; [|destruct H].
    destruct H as [[= <- <-]|[]]. exact E.
  - rewrite Hkeys. now apply core_zips_metro_first.
Qed.

Lemma core_dataset_shape_witness :
  List.length
    (Optimize.create_core_dataset
       [("10001", mkInfo (rpp 125.6%Q 168.5%Q 109.2%Q 118.3%Q) "NY"
                         (Some "METRO_100"));
        ("48505", mkInfo (rpp 89.5%Q 85.0%Q 93.0%Q 92.0%Q) "MI" None);
        ("10002", mkInfo (rpp 125.6%Q 168.5%Q 109.2%Q 118.3%Q) "NY"
                         (Some "METRO_100"))]
       1)
  <= 1.
Proof.
  apply (core_dataset_shape
           [("10001", mkInfo (rpp 125.6%Q 168.5%Q 109.2%Q 118.3%Q) "NY"
                             (Some "METRO_100"));
            ("48505", mkInfo (rpp 89.5%Q 85.0%Q 93.0%Q 92.0%Q) "MI" None);
            ("10002", mkInfo (rpp 125.6%Q 168.5%Q 109.2%Q 118.3%Q) "NY"
                             (Some "METRO_100"))]
           1).
  unfold Py.wf. simpl.
  repeat constructor; simpl; intuition discriminate.
Defined.

Lemma flat_map_length_le {A B} (f : A -> list B) n (l : list A) :
  (forall a, List.length (f a) <= n) ->
  List.length (flat_map f l) <= n * List.length l.
Proof.
  intros H. induction l as [|a l IH]; simpl; [lia|].
  rewrite length_app. specialize (H a). lia.
Qed.

Lemma prefix_length p :
  forall s, prefix p s = true -> String.length p <= String.length s.
Proof.
  induction p as [|a p IH]; intros [|b s]; cbn [prefix String.length];
    try lia; try discriminate.
  destruct (Ascii.ascii_dec a b); [|discriminate].
  intros H. apply IH in H. lia.
Qed.

Lemma length5_not_synthetic c :
  String.length c = 5 -> Py.startswith c "METRO_" = false.
Proof.
  intros H. unfold Py.startswith.
  destruct (prefix "METRO_" c) eqn:E; [|reflexivity].
  apply prefix_length in E. simpl in E. lia.
Qed.

(** X18. [create_core_dataset] recognises a metro ZIP by a code that
    starts with ["METRO_"], which only build_enhanced_dataset.py
    writes.  In the dataset generate_full_dataset.py makes of a
    crosswalk whose metro codes have five characters it finds no metro
    ZIP: the core dataset then holds at most ten ZIPs for each of the 27
    prefixes, 270 at most, however large the dataset and [max_size]
    are. *)
Theorem core_of_generated_dataset :
  forall (rpp_lookup : Py.dict (Py.dict num)) (zip_df : list Crosswalk.row)
         (max_size : nat),
    (forall r c, In r zip_df -> Crosswalk.CBSA r = Some c ->
                 String.length c = 5) ->
    let full_data :=
      GenerateFull.final_data (GenerateFull.join rpp_lookup zip_df) in
    Optimize.metro_zips full_data = []
    /\ List.length (Optimize.create_core_dataset full_data max_size) <= 270
    /\ (forall z,
          In z (Py.keys (Optimize.create_core_dataset full_data max_size)) ->
          exists prefix,
            In prefix Optimize.major_city_prefixes
            /\ Py.startswith z prefix = true).
Proof.
  intros rpp_lookup zip_df max_size Hc full_data.
  assert (Hres : forall r, In r (Crosswalk.dedupe zip_df) ->
                   Optimize.is_metro (GenerateFull.resolved rpp_lookup r)
                   = false).
  { intros r Hr. unfold Optimize.is_metro, GenerateFull.resolved. simpl.
    unfold GenerateFull.cbsa_code_of.
    destruct (Crosswalk.CBSA r) as [c|] eqn:E; [|reflexivity].
    destruct (dedupe_cbsa_from_input _ _ Hr) as (r0 & Hr0 & E0).
    rewrite E in E0. rewrite (length5_not_synthetic c (Hc _ _ Hr0 E0)).
    apply andb_false_r. }
  assert (Hm : Optimize.metro_zips full_data = []).
  { unfold Optimize.metro_zips. rewrite filter_none; [reflexivity|].
    intros [k v] Hin. simpl. unfold full_data, GenerateFull.join in Hin.
    rewrite join_fold_data in Hin.
    assert (H : forall rows acc,
              (forall kv, In kv acc -> Optimize.is_metro (snd kv) = false) ->
              (forall r, In r rows ->
                         Optimize.is_metro (GenerateFull.resolved rpp_lookup r)
                         = false) ->
              forall kv,
                In kv (fold_left
                         (fun d r =>
                            Py.set d (GenerateFull.zip_code_of r)
                                   (GenerateFull.resolved rpp_lookup r))
                         rows acc) ->
                Optimize.is_metro (snd kv) = false).
    { induction rows as [|r rows IH]; intros acc Hacc Hrows kv;
        cbn [fold_left]; [apply Hacc|].
      apply IH; [|intros r' Hr'; apply Hrows; now right].
      intros kv' Hkv'. apply in_set in Hkv'. destruct Hkv' as [->|Hkv'].
      - simpl. apply Hrows. now left.
      - now apply Hacc. }
    apply (H (Crosswalk.dedupe zip_df) [] (fun kv F => match F with end)
             Hres (k, v) Hin). }
  split; [exact Hm|].
  destruct (core_zips_facts full_data max_size) as (_ & _ & Hlen & Hin).
  pose proof (core_dataset_keys full_data max_size) as Hkeys.
  assert (Hp : Optimize.priority_zips full_data
               = flat_map (fun prefix =>
                             firstn 10 (filter (fun z => Py.startswith z prefix)
                                               (Py.keys full_data)))
                          Optimize.major_city_prefixes).
  { unfold Optimize.priority_zips. now rewrite Hm. }
  split.
  - replace (List.length (Optimize.create_core_dataset full_data max_size))
      with (List.length
              (Py.keys (Optimize.create_core_dataset full_data max_size)))
      by apply length_map.
    rewrite Hkeys. etransitivity; [exact Hlen|]. rewrite Hp.
    etransitivity;
      [apply (flat_map_length_le _ 10); intros a; apply firstn_le_length|].
    simpl. lia.
  - intros z Hz. rewrite Hkeys in Hz. apply Hin in Hz. rewrite Hp in Hz.
    apply in_flat_map in Hz. destruct Hz as (p & Hp' & Hz).
    apply in_firstn in Hz. apply filter_In in Hz.
    exists p. tauto.
Qed.

Lemma core_of_generated_dataset_witness :
  List.length
    (Optimize.create_core_dataset
       (GenerateFull.final_data (GenerateFull.join [] [austin; flint]))
       2000)
  <= 270.
Proof.
  apply (core_of_generated_dataset [] [austin; flint] 2000).
  intros r c [<-|[<-|[]]] [= <-]. reflexivity.
Defined.
(** ** The state shards of optimize_dataset.py *)

Lemma distinct_snoc l x :
  Pandas.distinct (l ++ [x])
  = if existsb (String.eqb x) l then Pandas.distinct l
    else (Pandas.distinct l ++ [x])%list.
Proof.
  induction l as [|a l IH]; [reflexivity|].
  cbn [app Pandas.distinct existsb]. rewrite IH.
  rewrite (String.eqb_sym x a).
  destruct (String.eqb_spec a x) as [->|Hne]; simpl.
  - destruct (existsb (String.eqb x) l); [reflexivity|].
    rewrite filter_app. simpl. rewrite String.eqb_refl. simpl.
    now rewrite app_nil_r.
  - destruct (existsb (String.eqb x) l); [reflexivity|].
    rewrite filter_app. simpl.
    destruct (String.eqb_spec x a) as [->|_]; [contradiction|reflexivity].
Qed.

Lemma set_map_keys {V} (f : string -> V) (keys : list string) s0 v :
  NoDup keys -> In s0 keys ->
  Py.set (map (fun s => (s, f s)) keys) s0 v
  = map (fun s => (s, if s =? s0 then v else f s)) keys.
Proof.
  induction keys as [|k keys IH]; intros Hnd Hin; [destruct Hin|].
  inversion Hnd as [|? ? Hk Hnd']; subst.
  simpl. destruct (String.eqb_spec k s0) as [->|Hne].
  - f_equal. apply map_ext_in. intros s Hs.
    destruct (String.eqb_spec s s0) as [->|_]; [contradiction|reflexivity].
  - f_equal. apply IH; [assumption|].
    destruct Hin as [->|Hin]; [contradiction|assumption].
Qed.

Lemma get_map_keys {V} (f : string -> V) (keys : list string) s0 :
  Py.get (map (fun s => (s, f s)) keys) s0
  = if existsb (String.eqb s0) keys then Some (f s0) else None.
Proof.
  induction keys as [|k keys IH]; [reflexivity|].
  simpl. rewrite (String.eqb_sym s0 k).
  destruct (String.eqb_spec k s0) as [->|Hne]; [reflexivity|exact IH].
Qed.

Lemma existsb_distinct x l :
  existsb (String.eqb x) (Pandas.distinct l) = existsb (String.eqb x) l.
Proof.
  apply eq_true_iff_eq. rewrite !existsb_eqb_in. apply in_distinct.
Qed.

Lemma entries_of_none full_data s :
  existsb (String.eqb s) (map state_of_entry full_data) = false ->
  entries_of full_data s = [].
Proof.
  intros H. unfold entries_of. apply filter_none. intros kv Hkv.
  destruct (String.eqb_spec (state_of_entry kv) s) as [<-|]; [|reflexivity].
  assert (Hin : In (state_of_entry kv) (map state_of_entry full_data))
    by now apply in_map.
  apply existsb_eqb_in in Hin. congruence.
Qed.

Lemma shards_fold full_data :
  Py.wf full_data ->
  fold_left Optimize.shard_step full_data []
  = map (fun s => (s, entries_of full_data s))
        (Pandas.distinct (map state_of_entry full_data)).
Proof.
  induction full_data as [|[z d] l IH] using rev_ind; intros Hwf;
    [reflexivity|].
  assert (Hwf' : Py.wf l /\ ~ In z (Py.keys l)).
  { unfold Py.wf, Py.keys in *. rewrite map_app in Hwf. simpl in Hwf.
    split.
    - now apply NoDup_app_remove_r in Hwf.
    - apply NoDup_remove_2 in Hwf. now rewrite app_nil_r in Hwf. }
  destruct Hwf' as [Hl Hz].
  rewrite fold_left_app. cbn [fold_left]. rewrite IH by assumption.
  rewrite shard_step_eq, map_app. cbn [map]. rewrite distinct_snoc.
  change (state_of_entry (z, d)) with (state d).
  unfold Py.get_default. rewrite get_map_keys, existsb_distinct.
  assert (Hsplit : forall s,
            entries_of (l ++ [(z, d)])%list s
            = (entries_of l s
                 ++ if state d =? s then [(z, d)] else [])%list).
  { intros s. unfold entries_of. rewrite filter_app. reflexivity. }
  destruct (existsb (String.eqb (state d)) (map state_of_entry l)) eqn:E.
  - rewrite set_map_keys.
    + apply map_ext. intros s. rewrite Hsplit. f_equal.
      rewrite (String.eqb_sym s (state d)).
      destruct (String.eqb_spec (state d) s) as [<-|Hne].
      * apply set_fresh. intros Hin. apply Hz.
        unfold Py.keys in *. apply in_map_iff in Hin.
        destruct Hin as (kv & E1 & Hkv). unfold entries_of in Hkv.
        apply filter_In in Hkv. apply in_map_iff. exists kv. tauto.
      * now rewrite app_nil_r.
    + apply nodup_distinct.
    + apply existsb_eqb_in. now rewrite existsb_distinct.
  - rewrite map_app. cbn [map]. rewrite Hsplit, String.eqb_refl.
    rewrite (entries_of_none _ _ E). cbn [app Py.set].
    rewrite set_fresh.
    + f_equal. apply map_ext_in. intros s Hs. rewrite Hsplit. f_equal.
      destruct (String.eqb_spec (state d) s) as [<-|Hne];
        [|now rewrite app_nil_r].
      rewrite in_distinct in Hs. apply existsb_eqb_in in Hs. congruence.
    + unfold Py.keys. rewrite map_map. simpl. rewrite map_id.
      intros Hin. rewrite in_distinct in Hin.
      apply existsb_eqb_in in Hin. congruence.
Qed.
Lemma sum_without (f : string -> nat) x (keys : list string) :
  NoDup keys ->
  (~ In x keys -> f x = 0) ->
  f x + list_sum (map f (filter (fun y => negb (y =? x)) keys))
  = list_sum (map f keys).
Proof.
  induction keys as [|k keys IH]; intros Hnd H0.
  - simpl. rewrite H0; [reflexivity|intros []].
  - inversion Hnd as [|? ? Hk Hnd']; subst. simpl.
    destruct (String.eqb_spec k x) as [->|Hne]; simpl.
    + assert (Hf : filter (fun y => negb (y =? x)) keys = keys).
      { apply filter_all. intros a Ha.
        destruct (String.eqb_spec a x) as [->|]; [contradiction|reflexivity]. }
      now rewrite Hf.
    + rewrite <- IH; [lia|assumption|].
      intros Hx. apply H0. intros [E|Hin]; [now apply Hne|now apply Hx].
Qed.

Lemma shard_sizes full_data :
  list_sum (map (fun s => List.length (entries_of full_data s))
                (Pandas.distinct (map state_of_entry full_data)))
  = List.length full_data.
Proof.
  induction full_data as [|a l IH]; [reflexivity|].
  cbn [map Pandas.distinct list_sum fold_right].
  assert (Hcons : forall s,
            List.length (entries_of (a :: l) s)
            = (if state_of_entry a =? s then 1 else 0)
              + List.length (entries_of l s)).
  { intros s. unfold entries_of. cbn [filter].
    now destruct (state_of_entry a =? s). }
  rewrite Hcons, String.eqb_refl.
  rewrite (map_ext_in _ (fun s => List.length (entries_of l s))).
  - pose proof (sum_without (fun s => List.length (entries_of l s))
                            (state_of_entry a)
                            (Pandas.distinct (map state_of_entry l))
                            (nodup_distinct _)) as Hs.
    rewrite IH in Hs. unfold list_sum in Hs. cbn [List.length].
    rewrite <- Hs; [lia|].
    intros Hn. rewrite entries_of_none; [reflexivity|].
    destruct (existsb _ _) eqn:E; [|reflexivity].
    apply existsb_eqb_in in E. rewrite <- in_distinct in E. contradiction.
  - intros s Hs. apply filter_In in Hs. destruct Hs as [_ Hs].
    rewrite Hcons. rewrite (String.eqb_sym (state_of_entry a) s).
    now destruct (s =? state_of_entry a).
Qed.

(** X19. For a full dataset without repeated keys [create_state_shards]
    gives one shard per state, in the order in which the states first
    occur in the dataset, and the shard of a state holds exactly the
    entries of that state, in the order of the dataset.  The sizes of
    the shards add up to the size of the dataset. *)
Theorem state_shards_split_the_dataset :
  forall full_data : Py.dict zip_info,
    Py.wf full_data ->
    Optimize.create_state_shards full_data
    = map (fun s => (s, entries_of full_data s))
          (Pandas.distinct (map state_of_entry full_data))
    /\ list_sum (map (fun kv => List.length (snd kv))
                     (Optimize.create_state_shards full_data))
       = List.length full_data.
Proof.
  intros full_data Hwf.
  assert (H : Optimize.create_state_shards full_data
              = map (fun s => (s, entries_of full_data s))
                    (Pandas.distinct (map state_of_entry full_data))).
  { unfold Optimize.create_state_shards, Py.items. now apply shards_fold. }
  split; [exact H|].
  rewrite H, map_map. simpl. apply shard_sizes.
Qed.

Lemma state_shards_split_the_dataset_witness :
  Optimize.create_state_shards
    [("48505", mkInfo (rpp 89.5%Q 85.0%Q 93.0%Q 92.0%Q) "MI" None);
     ("78701", mkInfo (rpp 94.0%Q 92.0%Q 95.0%Q 95.5%Q) "TX" None);
     ("48506", mkInfo (rpp 89.5%Q 85.0%Q 93.0%Q 92.0%Q) "MI" None)]
  = [("MI",
      [("48505", mkInfo (rpp 89.5%Q 85.0%Q 93.0%Q 92.0%Q) "MI" None);
       ("48506", mkInfo (rpp 89.5%Q 85.0%Q 93.0%Q 92.0%Q) "MI" None)]);
     ("TX",
      [("78701", mkInfo (rpp 94.0%Q 92.0%Q 95.0%Q 95.5%Q) "TX" None)])].
Proof.
  destruct (state_shards_split_the_dataset
    [("48505", mkInfo (rpp 89.5%Q 85.0%Q 93.0%Q 92.0%Q) "MI" None);
     ("78701", mkInfo (rpp 94.0%Q 92.0%Q 95.0%Q 95.5%Q) "TX" None);
     ("48506", mkInfo (rpp 89.5%Q 85.0%Q 93.0%Q 92.0%Q) "MI" None)])
    as [H _].
  - unfold Py.wf. simpl. repeat constructor; simpl; intuition discriminate.
  - rewrite H. reflexivity.
Defined.
(** ** A text cut short is not read *)

Section Truncation.
Context {V W : Type} (encode : V -> list chunk)
        (value : list chunk -> option (W * list chunk))
        (decode : V -> W) (good : V -> Prop).
Hypothesis value_encode :
  forall v rest, good v -> value (encode v ++ rest) = Some (decode v, rest).
Hypothesis value_cut :
  forall v p s, good v -> encode v = (p ++ s)%list -> s <> [] ->
                value p = None.

Lemma parse_members_cut items :
  forall k v acc fuel p s,
    good v ->
    (forall kv, In kv items -> good (snd kv)) ->
    (JLit (Str k) :: JColon :: encode v
       ++ Json.members encode false items ++ [JClose])%list
    = (p ++ s)%list ->
    s <> [] ->
    Json.parse_members value fuel acc p = None.
Proof.
  induction items as [|[k' v'] items IH];
    intros k v acc fuel p s Hv Hgood Heq Hs;
    (destruct fuel as [|fuel]; [reflexivity|]);
    (destruct p as [|x [|y q]];
     [reflexivity
     |cbn [app] in Heq; injection Heq as <- _; reflexivity
     |cbn [app] in Heq; injection Heq as <- <- Heq]);
    cbn [Json.parse_members];
    symmetry in Heq; apply app_eq_app in Heq;
    destruct Heq as (l & [[Hq Hrest]|[Henc Hs']]).
  - subst q. rewrite value_encode by assumption.
    cbn [Json.members app] in Hrest.
    destruct l as [|c l]; [reflexivity|].
    injection Hrest as <- Hrest. destruct l; [|discriminate].
    now destruct s.
  - destruct l as [|c l].
    + rewrite app_nil_r in Henc. subst q.
      rewrite <- (app_nil_r (encode v)), value_encode by assumption.
      reflexivity.
    + rewrite (value_cut v q (c :: l)); [reflexivity|assumption| |discriminate].
      assumption.
  - subst q. rewrite value_encode by assumption.
    cbn [Json.members app] in Hrest.
    destruct l as [|c l]; [reflexivity|].
    injection Hrest as <- Hrest. rewrite <- app_assoc in Hrest.
    apply (IH k' v' _ fuel l s).
    + apply (Hgood (k', v')). now left.
    + intros kv Hin. apply Hgood. now right.
    + exact Hrest.
    + exact Hs.
  - destruct l as [|c l].
    + rewrite app_nil_r in Henc. subst q.
      rewrite <- (app_nil_r (encode v)), value_encode by assumption.
      reflexivity.
    + rewrite (value_cut v q (c :: l)); [reflexivity|assumption| |discriminate].
      assumption.
Qed.

Lemma parse_dict_cut (dct : Py.dict V) p s :
  (forall kv, In kv dct -> good (snd kv)) ->
  Json.iterencode_dict encode dct = (p ++ s)%list ->
  s <> [] ->
  Json.parse_dict value p = None.
Proof.
  intros Hgood Heq Hs. destruct dct as [|[k v] items].
  - cbn in Heq. destruct p as [|x p]; [reflexivity|].
    injection Heq as _ Heq. destruct p; [|discriminate].
    now destruct s.
  - unfold Json.iterencode_dict, Py.items in Heq.
    cbn [Json.members app] in Heq.
    destruct p as [|x q]; [reflexivity|].
    cbn [app] in Heq. injection Heq as <- Heq.
    rewrite <- !app_assoc in Heq. cbn [app] in Heq.
    destruct q as [|y q]; [reflexivity|].
    assert (Hy : y = JLit (Str k)) by (cbn [app] in Heq; congruence).
    subst y. cbn [Json.parse_dict].
    apply (parse_members_cut items k v [] _ _ s).
    + apply (Hgood (k, v)). now left.
    + intros kv Hin. apply Hgood. now right.
    + exact Heq.
    + exact Hs.
Qed.
End Truncation.
Lemma scalar_encode (v : scalar) rest :
  True -> Json.parse_scalar (Json.encode_scalar v ++ rest) = Some (v, rest).
Proof. reflexivity. Qed.

Lemma scalar_cut (v : scalar) p s :
  True -> Json.encode_scalar v = (p ++ s)%list -> s <> [] ->
  Json.parse_scalar p = None.
Proof.
  intros _ Hv Hs. destruct p as [|x p]; [reflexivity|].
  injection Hv as _ Hv. destruct p; [|discriminate].
  now destruct s.
Qed.

Lemma obj_encode r rest :
  good_info r ->
  Json.parse_dict Json.parse_scalar
    (Json.iterencode_dict Json.encode_scalar (Json.to_obj r) ++ rest)
  = Some (map (fun kv => (fst kv, snd kv)) (Json.to_obj r), rest).
Proof.
  intros Hr.
  apply (parse_dict_encode Json.encode_scalar Json.parse_scalar
                           (fun v => v) (fun _ => True) scalar_encode).
  - now apply to_obj_wf.
  - auto.
Qed.

Lemma obj_cut r p s :
  good_info r ->
  Json.iterencode_dict Json.encode_scalar (Json.to_obj r) = (p ++ s)%list ->
  s <> [] ->
  Json.parse_dict Json.parse_scalar p = None.
Proof.
  intros _ Heq Hs.
  apply (parse_dict_cut Json.encode_scalar Json.parse_scalar
                        (fun v => v) (fun _ => True) scalar_encode scalar_cut
                        (Json.to_obj r) p s); auto.
Qed.

Lemma load_cut (data : Py.dict zip_info) p s :
  (forall kv, In kv data -> good_info (snd kv)) ->
  Json.iterencode data = (p ++ s)%list ->
  s <> [] ->
  Json.load_zip_data p = None.
Proof.
  intros Hgood Heq Hs. unfold Json.load_zip_data, Json.load.
  rewrite (parse_dict_cut
             (fun r => Json.iterencode_dict Json.encode_scalar (Json.to_obj r))
             (Json.parse_dict Json.parse_scalar)
             (fun r => map (fun kv => (fst kv, snd kv)) (Json.to_obj r))
             good_info obj_encode obj_cut data p s Hgood Heq Hs).
  reflexivity.
Qed.

(** X20. A lookup file whose write failed part-way holds the beginning
    of the JSON text only, and no beginning of that text other than the
    whole is a JSON text: reading the file back raises, it never gives a
    part of the table.  A run of optimize_dataset.py that finds such a
    file at src/data/col_by_zip.json ends with status 1 and writes
    nothing. *)
Theorem partial_file_is_rejected :
  forall (path : string) (data : Py.dict zip_info) (w : world)
         (public_dir : bool),
    (forall kv, In kv data -> good_info (snd kv)) ->
    fits (writes_left w) (Json.iterencode data) = false ->
    fst (File.dump_json path data w) = Raise OSError
    /\ (forall w',
          Py.get (files w') path
          = Py.get (files (snd (File.dump_json path data w))) path ->
          File.load_json path w' = (Raise (ValueError "JSONDecodeError"), w'))
    /\ (path = "src/data/col_by_zip.json" ->
        Optimize.main public_dir (snd (File.dump_json path data w))
        = (1, snd (File.dump_json path data w))).
Proof.
  intros path data w public_dir Hgood Hfit.
  destruct (dump_json_spec path data w) as (Hr & Hc & _).
  rewrite Hfit in Hr.
  assert (Hload : forall w',
            Py.get (files w') path
            = Py.get (files (snd (File.dump_json path data w))) path ->
            File.load_json path w'
            = (Raise (ValueError "JSONDecodeError"), w')).
  { intros w' Hw'. unfold File.load_json. rewrite Hw', Hc.
    unfold fits, accepted in *.
    destruct (writes_left w) as [n|]; [|discriminate].
    apply Nat.leb_gt in Hfit.
    rewrite (load_cut data (firstn n (Json.iterencode data))
                      (skipn n (Json.iterencode data)));
      [reflexivity|assumption|now rewrite firstn_skipn|].
    intros Hs. apply (f_equal (@List.length chunk)) in Hs.
    rewrite length_skipn in Hs. simpl in Hs. lia. }
  split; [exact Hr|]. split; [exact Hload|].
  intros ->. unfold Optimize.main, Optimize.optimize_dataset, bind,
    Optimize.load_full_dataset.
  now rewrite Hload.
Qed.

Lemma partial_file_is_rejected_witness :
  fst (File.dump_json "src/data/col_by_zip.json"
         [("48505", mkInfo (rpp 89.5%Q 85.0%Q 93.0%Q 92.0%Q) "MI" None)]
         earlier_run)
  = Raise OSError
  /\ Optimize.main true
       (snd (File.dump_json "src/data/col_by_zip.json"
               [("48505", mkInfo (rpp 89.5%Q 85.0%Q 93.0%Q 92.0%Q) "MI" None)]
               earlier_run))
     = (1, snd (File.dump_json "src/data/col_by_zip.json"
                  [("48505",
                    mkInfo (rpp 89.5%Q 85.0%Q 93.0%Q 92.0%Q) "MI" None)]
                  earlier_run)).
Proof.
  destruct (partial_file_is_rejected "src/data/col_by_zip.json"
              [("48505", mkInfo (rpp 89.5%Q 85.0%Q 93.0%Q 92.0%Q) "MI" None)]
              earlier_run true)
    as (H1 & _ & H3).
  - intros kv [<-|[]]. unfold good_info, Py.wf. simpl. repeat split.
    + repeat constructor; simpl; intuition discriminate.
    + intuition discriminate.
    + intuition discriminate.
  - reflexivity.
  - split; [exact H1|]. now apply H3.
Defined.
(** ** Runs of optimize_dataset.py *)

Lemma append_cancel_l p x y : p ++ x = p ++ y -> x = y.
Proof.
  induction p as [|c p IH]; simpl; [auto|].
  intros [= H]. now apply IH.
Qed.

Lemma append_cancel_r t x :
  forall y, x ++ t = y ++ t -> x = y.
Proof.
  induction x as [|c x IH]; intros [|d y] H; simpl in H.
  - reflexivity.
  - apply (f_equal String.length) in H. simpl in H.
    rewrite length_append in H. lia.
  - apply (f_equal String.length) in H. simpl in H.
    rewrite length_append in H. lia.
  - injection H as -> H. f_equal. now apply IH.
Qed.

Lemma shard_file_inj directory s s' :
  Optimize.shard_file directory s = Optimize.shard_file directory s' ->
  s = s'.
Proof.
  unfold Optimize.shard_file. intros H.
  apply append_cancel_l in H. apply append_cancel_l in H.
  now apply append_cancel_r in H.
Qed.

Lemma dump_fallback_unlimited path fallback_data fs :
  Optimize.dump_fallback path fallback_data (mkWorld fs None)
  = (Ok tt,
     mkWorld (Py.set fs path
                (Json.iterencode_dict
                   (Json.iterencode_dict Json.encode_scalar)
                   fallback_data))
             None).
Proof.
  unfold Optimize.dump_fallback, bind, File.open_w. cbn [files writes_left].
  rewrite (write_all_unlimited path _ _ []) by apply get_set_same.
  now rewrite set_set_same.
Qed.

Lemma write_shards_unlimited shards :
  forall fs,
    Optimize.write_shards shards (mkWorld fs None)
    = (Ok tt,
       mkWorld
         (fold_left
            (fun fs kv =>
               Py.set (Py.set fs (Optimize.shard_file "public/states" (fst kv))
                              (Json.iterencode (snd kv)))
                      (Optimize.shard_file "src/data/states" (fst kv))
                      (Json.iterencode (snd kv)))
            shards fs)
         None).
Proof.
  induction shards as [|[s sh] shards IH]; intros fs; [reflexivity|].
  cbn [Optimize.write_shards fold_left fst snd]. unfold bind.
  rewrite dump_json_unlimited. rewrite dump_json_unlimited. apply IH.
Qed.

Lemma shard_fold_get_other (shards : Py.dict (Py.dict zip_info)) p :
  ~ In p (shard_paths shards) ->
  forall fs : Py.dict (list chunk),
    Py.get
      (fold_left
         (fun fs kv =>
            Py.set (Py.set fs (Optimize.shard_file "public/states" (fst kv))
                           (Json.iterencode (snd kv)))
                   (Optimize.shard_file "src/data/states" (fst kv))
                   (Json.iterencode (snd kv)))
         shards fs) p
    = Py.get fs p.
Proof.
  induction shards as [|[s sh] shards IH]; intros Hp fs; [reflexivity|].
  cbn [fold_left fst snd]. unfold shard_paths in Hp.
  cbn [flat_map fst app] in Hp. rewrite IH.
  - rewrite !get_set_other; [reflexivity| |].
    + intros E. apply Hp. left. exact E.
    + intros E. apply Hp. right. left. exact E.
  - intros H. apply Hp. right. right. exact H.
Qed.

Lemma shard_fold_get (shards : Py.dict (Py.dict zip_info)) s sh :
  Py.wf shards ->
  In (s, sh) shards ->
  forall fs : Py.dict (list chunk),
    let fs' :=
      fold_left
        (fun fs kv =>
           Py.set (Py.set fs (Optimize.shard_file "public/states" (fst kv))
                          (Json.iterencode (snd kv)))
                  (Optimize.shard_file "src/data/states" (fst kv))
                  (Json.iterencode (snd kv)))
        shards fs in
    Py.get fs' (Optimize.shard_file "public/states" s)
    = Some (Json.iterencode sh)
    /\ Py.get fs' (Optimize.shard_file "src/data/states" s)
       = Some (Json.iterencode sh).
Proof.
  induction shards as [|[s1 sh1] shards IH]; intros Hwf Hin fs;
    [destruct Hin|].
  inversion Hwf as [|? ? Hk Hwf']; subst.
  cbn [fold_left fst snd]. destruct Hin as [[= -> ->]|Hin].
  - cbv zeta.
    assert (Hnot : forall directory,
              (directory = "public/states" \/ directory = "src/data/states") ->
              ~ In (Optimize.shard_file directory s) (shard_paths shards)).
    { intros directory Hd Hp. unfold shard_paths in Hp.
      apply in_flat_map in Hp. destruct Hp as ([s' sh'] & Hin' & Hp).
      cbn [fst] in Hp.
      assert (s' = s).
      { destruct Hd as [->| ->], Hp as [E|[E|[]]];
          try (now apply shard_file_inj in E);
          unfold Optimize.shard_file in E; simpl in E; discriminate E. }
      subst s'. apply Hk. change (In s (Py.keys shards)).
      unfold Py.keys. apply in_map_iff. now exists (s, sh'). }
    rewrite !shard_fold_get_other by (apply Hnot; auto).
    split.
    + rewrite get_set_other; [apply get_set_same|].
      unfold Optimize.shard_file. simpl. discriminate.
    + apply get_set_same.
  - now apply IH.
Qed.
(** X21. optimize_dataset.py writes nothing unless it can start: when
    the full dataset is missing at src/data/col_by_zip.json, or when the
    directory [public] does not exist, the run ends with status 1 and
    every file is as it was. *)
Theorem optimize_needs_its_input :
  forall (public_dir : bool) (w : world),
    Py.mem (files w) "src/data/col_by_zip.json" = false
    \/ public_dir = false ->
    Optimize.main public_dir w = (1, w).
Proof.
  intros public_dir w H.
  unfold Optimize.main, Optimize.optimize_dataset, bind,
    Optimize.load_full_dataset, File.load_json.
  unfold Py.mem in H.
  destruct (Py.get (files w) "src/data/col_by_zip.json") as [content|].
  - destruct H as [H| ->]; [discriminate|].
    destruct (Json.load_zip_data content); reflexivity.
  - reflexivity.
Qed.

Lemma optimize_needs_its_input_witness :
  Optimize.main true earlier_run = (1, earlier_run).
Proof.
  apply (optimize_needs_its_input true earlier_run). left. reflexivity.
Defined.

Lemma entries_of_wf full_data s :
  Py.wf full_data -> Py.wf (entries_of full_data s).
Proof. intros H. unfold entries_of. now apply nodup_keys_filter. Qed.

Lemma test_core_dataset_spec (core_data : Py.dict zip_info) zips :
  (Optimize.test_core_dataset core_data zips = Ok tt
   /\ forall z r, In z zips -> Py.get core_data z = Some r ->
                  rpp_all r <> None)
  \/ (Optimize.test_core_dataset core_data zips = Raise (KeyError "rpp_all")
      /\ exists z r, In z zips /\ Py.get core_data z = Some r
                     /\ rpp_all r = None).
Proof.
  induction zips as [|zip_code rest IH]; cbn [Optimize.test_core_dataset].
  - left. split; [reflexivity|]. intros z r [].
  - destruct (Py.get core_data zip_code) as [data|] eqn:E.
    + destruct (rpp_all data) as [v|] eqn:Ev.
      * destruct IH as [[-> IH]|[-> (z & r & Hz & Hr & Hn)]].
        -- left. split; [reflexivity|].
           intros z r [<-|Hz] Hr; [|now apply (IH z r)].
           rewrite E in Hr. injection Hr as <-. now rewrite Ev.
        -- right. split; [reflexivity|]. exists z, r. now split; [right|].
      * right. split; [reflexivity|]. exists zip_code, data.
        now split; [left|].
    + destruct IH as [[-> IH]|[-> (z & r & Hz & Hr & Hn)]].
      * left. split; [reflexivity|].
        intros z r [<-|Hz] Hr; [|now apply (IH z r)].
        rewrite E in Hr. discriminate Hr.
      * right. split; [reflexivity|]. exists z, r. now split; [right|].
Qed.

(** X22. A run of optimize_dataset.py over a full dataset as a builder
    wrote it, with the directory [public] in place and a medium that
    takes every write.  It changes no file other than the two core
    files, the two fallback files and the two files of every state: the
    full dataset it read is as it was.  Reading a core file back gives
    the core dataset, and reading either file of a state back gives the
    shard of that state.  The run then reads [rpp_all] of each of its
    five test ZIPs that is in the core dataset: it ends with status 0
    exactly when each of these has that component, and with status 1,
    the files written all the same, when one has not. *)
Theorem optimize_run_writes_the_shards :
  forall (fs : Py.dict (list chunk)) (full_data : Py.dict zip_info),
    Py.get fs "src/data/col_by_zip.json" = Some (Json.iterencode full_data) ->
    Py.wf full_data ->
    (forall kv, In kv full_data ->
                good_info (snd kv) /\ plain_name (state (snd kv)) = true) ->
    let run := Optimize.main true (mkWorld fs None) in
    let core_data := Optimize.create_core_dataset full_data 2000 in
    let state_shards := Optimize.create_state_shards full_data in
    (fst run = 0
     <-> forall z r, In z Optimize.test_zips -> Py.get core_data z = Some r ->
                     rpp_all r <> None)
    /\ (fst run = 0 \/ fst run = 1)
    /\ (forall p,
          ~ In p (["public/col_by_zip_core.json";
                   "src/data/col_by_zip_core.json";
                   "public/col_by_zip_fallback.json";
                   "src/data/col_by_zip_fallback.json"]
                  ++ shard_paths state_shards)%list ->
          Py.get (files (snd run)) p = Py.get fs p)
    /\ Py.get (files (snd run)) "src/data/col_by_zip.json"
       = Py.get fs "src/data/col_by_zip.json"
    /\ File.load_json "public/col_by_zip_core.json" (snd run)
       = (Ok core_data, snd run)
    /\ File.load_json "src/data/col_by_zip_core.json" (snd run)
       = (Ok core_data, snd run)
    /\ (forall s shard,
          Py.get state_shards s = Some shard ->
          File.load_json (Optimize.shard_file "public/states" s) (snd run)
          = (Ok shard, snd run)
          /\ File.load_json (Optimize.shard_file "src/data/states" s)
                            (snd run)
             = (Ok shard, snd run)).
Proof.
  intros fs full_data Hfile Hwf Hgood run core_data state_shards.
  assert (Hload : Optimize.load_full_dataset (mkWorld fs None)
                  = (Ok full_data, mkWorld fs None)).
  { unfold Optimize.load_full_dataset. apply load_after_dump;
      [exact Hwf|intros kv Hkv; now apply Hgood|exact Hfile]. }
  set (status := match Optimize.test_core_dataset core_data
                         Optimize.test_zips with
                 | Ok _ => 0
                 | Raise _ => 1
                 end).
  set (tf := Json.iterencode_dict (Json.iterencode_dict Json.encode_scalar)
                                  Optimize.create_fallback_lookup).
  set (shard_files := fold_left
         (fun fs kv =>
            Py.set (Py.set fs (Optimize.shard_file "public/states" (fst kv))
                           (Json.iterencode (snd kv)))
                   (Optimize.shard_file "src/data/states" (fst kv))
                   (Json.iterencode (snd kv)))
         state_shards
         (Py.set (Py.set fs "public/col_by_zip_core.json"
                         (Json.iterencode core_data))
                 "src/data/col_by_zip_core.json" (Json.iterencode core_data))).
  assert (Hrun : run
                 = (status, mkWorld
                         (Py.set (Py.set shard_files
                                         "public/col_by_zip_fallback.json" tf)
                                 "src/data/col_by_zip_fallback.json" tf)
                         None)).
  { unfold run, Optimize.main. unfold bind at 1.
    unfold Optimize.optimize_dataset.
    unfold bind at 1. rewrite Hload. unfold bind, ret.
    fold core_data. fold state_shards.
    rewrite dump_json_unlimited. rewrite dump_json_unlimited.
    unfold Py.items. rewrite write_shards_unlimited.
    rewrite dump_fallback_unlimited. rewrite dump_fallback_unlimited.
    unfold lift, status. cbn [Optimize.core_data].
    destruct (Optimize.test_core_dataset core_data Optimize.test_zips);
      reflexivity. }
  assert (Hother : forall p,
            ~ In p (["public/col_by_zip_core.json";
                     "src/data/col_by_zip_core.json";
                     "public/col_by_zip_fallback.json";
                     "src/data/col_by_zip_fallback.json"]
                    ++ shard_paths state_shards)%list ->
            Py.get (files (snd run)) p = Py.get fs p).
  { intros p Hp. rewrite Hrun. cbn [snd files].
    cbn [app In] in Hp.
    rewrite !get_set_other by (intros E; apply Hp; auto 6).
    unfold shard_files. rewrite shard_fold_get_other by tauto.
    rewrite !get_set_other by (intros E; apply Hp; auto 6).
    reflexivity. }
  assert (Hswf : Py.wf state_shards /\
                 forall s shard, Py.get state_shards s = Some shard ->
                                 shard = entries_of full_data s).
  { unfold state_shards, Optimize.create_state_shards, Py.items.
    rewrite shards_fold by assumption. split.
    - unfold Py.wf, Py.keys. rewrite map_map. simpl. rewrite map_id.
      apply nodup_distinct.
    - intros s shard H. apply get_some_in in H. apply in_map_iff in H.
      destruct H as (s' & [= -> <-] & _). reflexivity. }
  destruct Hswf as [Hswf Hshard].
  assert (Hsub : forall s kv, In kv (entries_of full_data s) ->
                              In kv full_data).
  { intros s kv H. unfold entries_of in H. now apply filter_In in H. }
  assert (Hstatus :
            (status = 0
             <-> forall z r, In z Optimize.test_zips ->
                             Py.get core_data z = Some r ->
                             rpp_all r <> None)
            /\ (status = 0 \/ status = 1)).
  { unfold status.
    destruct (test_core_dataset_spec core_data Optimize.test_zips)
      as [[-> Hall]|[-> (z & r & Hz & Hr & Hn)]].
    - split; [|now left]. split; [intros _; exact Hall|reflexivity].
    - split; [|now right]. split; [discriminate|].
      intros Hall. exfalso. exact (Hall z r Hz Hr Hn). }
  split; [rewrite Hrun; exact (proj1 Hstatus)|].
  split; [rewrite Hrun; exact (proj2 Hstatus)|].
  split; [exact Hother|]. split; [|split; [|split]].
  - apply Hother. cbn [app In]. intros [E|[E|[E|[E|Hp]]]]; try discriminate E.
    unfold shard_paths in Hp. apply in_flat_map in Hp.
    destruct Hp as (kv & _ & [E|[E|[]]]);
      unfold Optimize.shard_file in E; simpl in E; discriminate E.
  - rewrite Hrun. cbn [snd]. apply load_after_dump.
    + apply core_dataset_shape. exact Hwf.
    + intros kv Hkv.
      destruct (core_dataset_shape full_data 2000 Hwf) as (Hcw & _ & Hv & _).
      destruct kv as [z d].
      apply (in_wf_get _ _ _ Hcw), Hv, get_some_in in Hkv.
      apply (Hgood _ Hkv).
    + rewrite !get_set_other by discriminate.
      unfold shard_files. rewrite shard_fold_get_other.
      * rewrite get_set_other by discriminate. apply get_set_same.
      * unfold shard_paths. intros Hp. apply in_flat_map in Hp.
        destruct Hp as (kv & _ & [E|[E|[]]]);
          unfold Optimize.shard_file in E; simpl in E; discriminate E.
  - rewrite Hrun. cbn [snd]. apply load_after_dump.
    + apply core_dataset_shape. exact Hwf.
    + intros kv Hkv.
      destruct (core_dataset_shape full_data 2000 Hwf) as (Hcw & _ & Hv & _).
      destruct kv as [z d].
      apply (in_wf_get _ _ _ Hcw), Hv, get_some_in in Hkv.
      apply (Hgood _ Hkv).
    + rewrite !get_set_other by discriminate.
      unfold shard_files. rewrite shard_fold_get_other.
      * apply get_set_same.
      * unfold shard_paths. intros Hp. apply in_flat_map in Hp.
        destruct Hp as (kv & _ & [E|[E|[]]]);
          unfold Optimize.shard_file in E; simpl in E; discriminate E.
  - intros s shard Hs.
    pose proof (Hshard _ _ Hs) as ->.
    destruct (shard_fold_get state_shards s (entries_of full_data s) Hswf
                (get_some_in _ _ _ Hs)
                (Py.set (Py.set fs "public/col_by_zip_core.json"
                                (Json.iterencode core_data))
                        "src/data/col_by_zip_core.json"
                        (Json.iterencode core_data)))
      as [Hp Hq].
    cbv zeta in Hp, Hq. fold shard_files in Hp, Hq.
    rewrite Hrun. cbn [snd].
    split; apply load_after_dump;
      try (now apply entries_of_wf);
      try (intros kv Hkv; apply Hgood; eapply Hsub; exact Hkv).
    + rewrite !get_set_other; [exact Hp| |];
        unfold Optimize.shard_file; simpl; discriminate.
    + rewrite !get_set_other; [exact Hq| |];
        unfold Optimize.shard_file; simpl; discriminate.
Qed.

Lemma optimize_run_writes_the_shards_witness :
  fst (Optimize.main true
         (mkWorld
            [("src/data/col_by_zip.json",
              Json.iterencode
                [("48505",
                  mkInfo (rpp 89.5%Q 85.0%Q 93.0%Q 92.0%Q) "MI" None)])]
            None))
  = 0
  /\ fst (Optimize.main true
            (mkWorld
               [("src/data/col_by_zip.json",
                 Json.iterencode [("10001", mkInfo [] "NY" None)])]
               None))
     = 1.
Proof.
  split.
  - apply (optimize_run_writes_the_shards
             [("src/data/col_by_zip.json",
               Json.iterencode
                 [("48505",
                   mkInfo (rpp 89.5%Q 85.0%Q 93.0%Q 92.0%Q) "MI" None)])]
             [("48505", mkInfo (rpp 89.5%Q 85.0%Q 93.0%Q 92.0%Q) "MI" None)]).
    + reflexivity.
    + unfold Py.wf. simpl. repeat constructor. intros [].
    + intros kv [<-|[]]. split; [|reflexivity].
      unfold good_info, Py.wf. simpl. repeat split.
      * repeat constructor; simpl; intuition discriminate.
      * intuition discriminate.
      * intuition discriminate.
    + intros z r Hz Hr.
      destruct Hz as [<-|[<-|[<-|[<-|[<-|[]]]]]]; vm_compute in Hr;
        try discriminate Hr; injection Hr as <-; discriminate.
  - destruct (optimize_run_writes_the_shards
                [("src/data/col_by_zip.json",
                  Json.iterencode [("10001", mkInfo [] "NY" None)])]
                [("10001", mkInfo [] "NY" None)])
      as (H0 & [H|H] & _).
    + reflexivity.
    + unfold Py.wf. simpl. repeat constructor. intros [].
    + intros kv [<-|[]]. split; [|reflexivity].
      unfold good_info, Py.wf. simpl. repeat split.
      * constructor.
      * intros [].
      * intros [].
    + exfalso. cbv zeta in H0. pose proof (proj1 H0 H) as Hall.
      apply (Hall "10001" (mkInfo [] "NY" None));
        [|reflexivity|reflexivity].
      simpl. tauto.
    + exact H.
Defined.
(** ** The tables and the output of build_enhanced_dataset.py *)

Lemma enhanced_fold_data metro_rpp state_estimates items :
  forall s,
    BuildEnhanced.final_data
      (fold_left (BuildEnhanced.build_step metro_rpp state_estimates) items s)
    = fold_left
        (fun d kv =>
           Py.set d (fst kv)
                  (snd (BuildEnhanced.resolve metro_rpp state_estimates
                                              (fst kv) (snd kv))))
        items (BuildEnhanced.final_data s).
Proof.
  induction items as [|[z st] items IH]; intros s; cbn [fold_left];
    [reflexivity|].
  now rewrite IH, enhanced_step_data.
Qed.

Lemma enhanced_fold_counts metro_rpp state_estimates items :
  forall s,
    let s' := fold_left (BuildEnhanced.build_step metro_rpp state_estimates)
                        items s in
    BuildEnhanced.metro_matches s'
    = BuildEnhanced.metro_matches s
      + List.length (filter (fun kv => Py.mem metro_rpp (fst kv)) items)
    /\ BuildEnhanced.metro_matches s' + BuildEnhanced.state_matches s'
       = BuildEnhanced.metro_matches s + BuildEnhanced.state_matches s
         + List.length items.
Proof.
  induction items as [|[z st] items IH]; intros s; cbn [fold_left].
  - cbv zeta. simpl. lia.
  - cbv zeta.
    assert (Hstep :
              BuildEnhanced.metro_matches
                (BuildEnhanced.build_step metro_rpp state_estimates s (z, st))
              = BuildEnhanced.metro_matches s
                + (if Py.mem metro_rpp z then 1 else 0)
              /\ BuildEnhanced.metro_matches
                   (BuildEnhanced.build_step metro_rpp state_estimates s
                                             (z, st))
                 + BuildEnhanced.state_matches
                     (BuildEnhanced.build_step metro_rpp state_estimates s
                                               (z, st))
                 = BuildEnhanced.metro_matches s
                   + BuildEnhanced.state_matches s + 1).
    { unfold BuildEnhanced.build_step.
      pose proof (enhanced_tier metro_rpp state_estimates z st) as T.
      destruct (BuildEnhanced.resolve metro_rpp state_estimates z st)
        as [t data]. cbn [fst] in T.
      destruct t; destruct (Py.mem metro_rpp z);
        try (destruct T as [T1 T2]; specialize (T1 eq_refl); discriminate);
        try (destruct T as [T1 T2]; specialize (T2 eq_refl); discriminate);
        simpl; lia. }
    destruct Hstep as [S1 S2].
    destruct (IH (BuildEnhanced.build_step metro_rpp state_estimates s
                                           (z, st))) as [A B].
    cbv zeta in A, B. split.
    + rewrite A, S1. cbn [filter fst].
      destruct (Py.mem metro_rpp z); simpl; lia.
    + rewrite B, S2. simpl. lia.
Qed.

Lemma enhanced_data_map (zip_to_state : Py.dict string)
    (metro_rpp state_estimates : Py.dict (Py.dict num)) :
  Py.wf zip_to_state ->
  BuildEnhanced.final_data
    (BuildEnhanced.build zip_to_state metro_rpp state_estimates)
  = map (fun kv =>
           (fst kv,
            snd (BuildEnhanced.resolve metro_rpp state_estimates
                                       (fst kv) (snd kv))))
        zip_to_state.
Proof.
  intros Hwf. unfold BuildEnhanced.build, Py.items.
  rewrite enhanced_fold_data.
  rewrite fold_set_fresh; [reflexivity|exact Hwf|intros r _ []].
Qed.

(** X23. The loop of [build_comprehensive_dataset] goes over the ZIPs of
    the ZIP-to-state mapping and over nothing else.  For any mapping
    without a repeated key and any two tables, its output has exactly
    the ZIPs of the mapping, in the same order, each with the record its
    ZIP and state resolve to: a ZIP of the metro table that the mapping
    lacks is not in the output.  The counter of metro matches counts the
    ZIPs of the mapping found in the metro table, and the two counters
    add up to the size of the mapping. *)
Theorem enhanced_output_follows_the_mapping :
  forall (zip_to_state : Py.dict string)
         (metro_rpp state_estimates : Py.dict (Py.dict num)),
    Py.wf zip_to_state ->
    let s := BuildEnhanced.build zip_to_state metro_rpp state_estimates in
    BuildEnhanced.final_data s
    = map (fun kv =>
             (fst kv,
              snd (BuildEnhanced.resolve metro_rpp state_estimates
                                         (fst kv) (snd kv))))
          zip_to_state
    /\ Py.keys (BuildEnhanced.final_data s) = Py.keys zip_to_state
    /\ BuildEnhanced.metro_matches s
       = List.length (filter (Py.mem metro_rpp) (Py.keys zip_to_state))
    /\ BuildEnhanced.metro_matches s + BuildEnhanced.state_matches s
       = List.length zip_to_state.
Proof.
  intros zip_to_state metro_rpp state_estimates Hwf s.
  pose proof (enhanced_data_map zip_to_state metro_rpp state_estimates Hwf)
    as Hdata.
  fold s in Hdata.
  destruct (enhanced_fold_counts metro_rpp state_estimates zip_to_state
              (BuildEnhanced.mkBuild [] 0 0)) as [A B].
  cbv zeta in A, B. simpl in A, B.
  split; [exact Hdata|]. split; [|split].
  - rewrite Hdata. unfold Py.keys. now rewrite map_map.
  - unfold s, BuildEnhanced.build, Py.items. rewrite A.
    unfold Py.keys. clear. induction zip_to_state as [|[z st] l IH];
      [reflexivity|].
    simpl. destruct (Py.mem metro_rpp z); simpl; now rewrite IH.
  - exact B.
Qed.

Lemma enhanced_output_follows_the_mapping_witness :
  BuildEnhanced.final_data
    (BuildEnhanced.build [("48505", "MI")]
       [("46201", rpp 89.3%Q 87.2%Q 88.1%Q 91.6%Q)]
       [("MI", rpp 89.5%Q 85.0%Q 93.0%Q 92.0%Q)])
  = [("48505", mkInfo (rpp 89.5%Q 85.0%Q 93.0%Q 92.0%Q) "MI" None)].
Proof.
  destruct (enhanced_output_follows_the_mapping [("48505", "MI")]
              [("46201", rpp 89.3%Q 87.2%Q 88.1%Q 91.6%Q)]
              [("MI", rpp 89.5%Q 85.0%Q 93.0%Q 92.0%Q)])
    as [H _].
  - unfold Py.wf. simpl. repeat constructor. intros [].
  - rewrite H. reflexivity.
Defined.
Lemma fmt3_facts :
  forallb (fun i =>
             Nat.eqb (String.length (BuildEnhanced.fmt_0d 3 i)) 3
             && (BuildEnhanced.fmt_0d 3 i
                 =? BuildEnhanced.fmt_0d 1 (i / 100)
                    ++ BuildEnhanced.fmt_0d 2 (i mod 100))
             && Nat.eqb (String.length (BuildEnhanced.fmt_0d 1 (i / 100))) 1
             && Nat.eqb (String.length (BuildEnhanced.fmt_0d 2 (i mod 100)))
                        2)%bool
          (seq 0 1000)
  = true.
Proof. vm_compute. reflexivity. Qed.

Lemma fmt3_length i :
  i < 1000 -> String.length (BuildEnhanced.fmt_0d 3 i) = 3.
Proof.
  intros H. pose proof fmt3_facts as F. rewrite forallb_forall in F.
  specialize (F i). rewrite in_seq in F. specialize (F ltac:(lia)).
  rewrite !andb_true_iff in F. destruct F as [[[F _] _] _].
  now apply Nat.eqb_eq in F.
Qed.

Lemma fmt3_split i :
  i < 1000 ->
  BuildEnhanced.fmt_0d 3 i
  = BuildEnhanced.fmt_0d 1 (i / 100) ++ BuildEnhanced.fmt_0d 2 (i mod 100)
  /\ String.length (BuildEnhanced.fmt_0d 1 (i / 100)) = 1.
Proof.
  intros H. pose proof fmt3_facts as F. rewrite forallb_forall in F.
  specialize (F i). rewrite in_seq in F. specialize (F ltac:(lia)).
  rewrite !andb_true_iff in F. destruct F as [[[_ F1] F2] _].
  apply String.eqb_eq in F1. apply Nat.eqb_eq in F2. now split.
Qed.

Lemma fmt2_length i :
  i < 100 -> String.length (BuildEnhanced.fmt_0d 2 i) = 2.
Proof.
  intros H. pose proof fmt3_facts as F. rewrite forallb_forall in F.
  specialize (F i). rewrite in_seq in F. specialize (F ltac:(lia)).
  rewrite !andb_true_iff in F. destruct F as [_ F].
  apply Nat.eqb_eq in F. now rewrite Nat.mod_small in F by lia.
Qed.
(** The loops that fill a table for a list of prefixes. *)
Lemma assign_keys_get {V} (key : nat -> string) (v : V) (ns : list nat) :
  forall (d : Py.dict V) z,
    Py.get (fold_left (fun d i => Py.set d (key i) v) ns d) z
    = if existsb (fun i => z =? key i) ns then Some v else Py.get d z.
Proof.
  induction ns as [|i ns IH]; intros d z; cbn [fold_left existsb];
    [reflexivity|].
  rewrite IH, get_set. rewrite (String.eqb_sym z (key i)).
  destruct (key i =? z); simpl; [|reflexivity].
  now destruct (existsb _ ns).
Qed.

Lemma assign_prefixes_get {V} (key : string -> nat -> string) (v : V)
    (ns : list nat) (prefixes : list string) :
  forall (d : Py.dict V) z,
    Py.get (fold_left
              (fun d prefix =>
                 fold_left (fun d i => Py.set d (key prefix i) v) ns d)
              prefixes d) z
    = if existsb (fun prefix => existsb (fun i => z =? key prefix i) ns)
                 prefixes
      then Some v else Py.get d z.
Proof.
  induction prefixes as [|p prefixes IH]; intros d z;
    cbn [fold_left existsb]; [reflexivity|].
  rewrite IH, assign_keys_get.
  destruct (existsb (fun i => z =? key p i) ns); simpl; [|reflexivity].
  now destruct (existsb _ prefixes).
Qed.

Lemma append_same_length p p' s s' :
  String.length p = String.length p' -> p ++ s = p' ++ s' -> p = p'.
Proof.
  revert p'. induction p as [|c p IH]; intros [|c' p'] Hl H;
    try discriminate Hl; [reflexivity|].
  simpl in H. injection H as -> H. f_equal. apply IH; [|assumption].
  simpl in Hl. lia.
Qed.

(** Among prefixes of one length a ZIP is generated for its own prefix
    only. *)
Lemma generated_for_prefix (width n len : nat) (prefixes : list string)
    p i :
  (forall j, j < n -> String.length (BuildEnhanced.fmt_0d width j) = width) ->
  Forall (fun q => String.length q = len) prefixes ->
  String.length p = len ->
  i < n ->
  existsb (fun prefix =>
             existsb (fun j => p ++ BuildEnhanced.fmt_0d width i
                               =? prefix ++ BuildEnhanced.fmt_0d width j)
                     (seq 0 n))
          prefixes
  = existsb (String.eqb p) prefixes.
Proof.
  intros Hfmt Hall Hp Hi. apply eq_true_iff_eq.
  rewrite !existsb_exists. split.
  - intros (q & Hq & H). apply existsb_exists in H.
    destruct H as (j & Hj & E). apply String.eqb_eq in E.
    exists q. split; [assumption|]. apply String.eqb_eq.
    rewrite Forall_forall in Hall.
    apply (append_same_length _ _ _ _ (eq_trans Hp (eq_sym (Hall q Hq))) E).
  - intros (q & Hq & E). apply String.eqb_eq in E. subst q.
    exists p. split; [assumption|]. apply existsb_exists.
    exists i. split; [apply in_seq; lia|apply String.eqb_refl].
Qed.

Lemma mapping_fold_get ranges :
  forall (d : Py.dict string) z,
    Py.get
      (fold_left
         (fun zip_to_state '(state, prefixes) =>
            fold_left
              (fun zip_to_state prefix =>
                 fold_left
                   (fun zip_to_state i =>
                      Py.set zip_to_state
                             (prefix ++ BuildEnhanced.fmt_0d 3 i) state)
                   (seq 0 1000) zip_to_state)
              prefixes zip_to_state)
         ranges d) z
    = fold_left
        (fun owner (kv : string * list string) =>
           if existsb (fun prefix =>
                         existsb (fun i =>
                                    z =? prefix ++ BuildEnhanced.fmt_0d 3 i)
                                 (seq 0 1000))
                      (snd kv)
           then Some (fst kv) else owner)
        ranges (Py.get d z).
Proof.
  induction ranges as [|[st ps] ranges IH]; intros d z; cbn [fold_left];
    [reflexivity|].
  rewrite IH. f_equal.
  apply (assign_prefixes_get (fun p i => p ++ BuildEnhanced.fmt_0d 3 i)).
Qed.

Lemma range_lengths :
  Forall (fun kv => Forall (fun q => String.length q = 2) (snd kv))
         BuildEnhanced.state_zip_ranges.
Proof.
  unfold BuildEnhanced.state_zip_ranges.
  repeat (constructor; [repeat constructor|]). constructor.
Qed.

Lemma owner_fold_ext {V} (f g : option V -> string * list string -> option V)
    (l : list (string * list string)) :
  (forall o kv, In kv l -> f o kv = g o kv) ->
  forall o, fold_left f l o = fold_left g l o.
Proof.
  induction l as [|a l IH]; intros H o; [reflexivity|].
  cbn [fold_left]. rewrite (H o a (or_introl eq_refl)).
  apply IH. intros o' kv Hkv. apply H. now right.
Qed.

Lemma mapping_get p i :
  String.length p = 2 -> i < 1000 ->
  Py.get BuildEnhanced.download_zip_to_state_mapping
         (p ++ BuildEnhanced.fmt_0d 3 i)
  = range_owner BuildEnhanced.state_zip_ranges p.
Proof.
  intros Hp Hi. unfold BuildEnhanced.download_zip_to_state_mapping, Py.items.
  rewrite mapping_fold_get. unfold range_owner. cbn [Py.get].
  apply owner_fold_ext. intros o kv Hkv.
  pose proof range_lengths as L. rewrite Forall_forall in L.
  now rewrite (generated_for_prefix 3 1000 2 (snd kv) p i fmt3_length
                                    (L kv Hkv) Hp Hi).
Qed.
Lemma metro_fold_get table :
  forall (d : Py.dict (Py.dict num)) z,
    Py.get
      (fold_left
         (fun zip_to_rpp '(metro, rpp_data) =>
            match Py.get BuildEnhanced.metro_zip_mappings metro with
            | Some prefixes =>
                fold_left
                  (fun zip_to_rpp zip_prefix =>
                     fold_left
                       (fun zip_to_rpp i =>
                          Py.set zip_to_rpp
                                 (zip_prefix ++ BuildEnhanced.fmt_0d 2 i)
                                 rpp_data)
                       (seq 0 100) zip_to_rpp)
                  prefixes zip_to_rpp
            | None => zip_to_rpp
            end)
         table d) z
    = fold_left
        (fun owner (kv : string * Py.dict num) =>
           match Py.get BuildEnhanced.metro_zip_mappings (fst kv) with
           | Some prefixes =>
               if existsb (fun prefix =>
                             existsb (fun i =>
                                        z =? prefix
                                             ++ BuildEnhanced.fmt_0d 2 i)
                                     (seq 0 100))
                          prefixes
               then Some (snd kv) else owner
           | None => owner
           end)
        table (Py.get d z).
Proof.
  induction table as [|[metro rpp_data] table IH]; intros d z;
    cbn [fold_left]; [reflexivity|].
  rewrite IH. f_equal. cbn [fst snd].
  destruct (Py.get BuildEnhanced.metro_zip_mappings metro) as [ps|];
    [|reflexivity].
  apply (assign_prefixes_get (fun p i => p ++ BuildEnhanced.fmt_0d 2 i)).
Qed.

Lemma metro_prefix_lengths :
  Forall (fun kv => Forall (fun q => String.length q = 3) (snd kv))
         BuildEnhanced.metro_zip_mappings.
Proof.
  unfold BuildEnhanced.metro_zip_mappings.
  repeat (constructor; [repeat constructor|]). constructor.
Qed.

Lemma metro_owner_ext {V} (f g : option V -> string * V -> option V)
    (l : list (string * V)) :
  (forall o kv, f o kv = g o kv) ->
  forall o, fold_left f l o = fold_left g l o.
Proof.
  intros H. induction l as [|a l IH]; intros o; [reflexivity|].
  cbn [fold_left]. rewrite H. apply IH.
Qed.

Lemma metro_get p i :
  String.length p = 3 -> i < 100 ->
  Py.get BuildEnhanced.get_metro_rpp_data (p ++ BuildEnhanced.fmt_0d 2 i)
  = metro_owner BuildEnhanced.metro_rpp_table
                BuildEnhanced.metro_zip_mappings p.
Proof.
  intros Hp Hi. unfold BuildEnhanced.get_metro_rpp_data, Py.items.
  rewrite metro_fold_get. unfold metro_owner. cbn [Py.get].
  apply metro_owner_ext. intros o kv.
  destruct (Py.get BuildEnhanced.metro_zip_mappings (fst kv)) as [ps|] eqn:E;
    [|reflexivity].
  pose proof metro_prefix_lengths as L. rewrite Forall_forall in L.
  apply get_some_in in E.
  now rewrite (generated_for_prefix 2 100 3 ps p i fmt2_length
                                    (L _ E) Hp Hi).
Qed.

Lemma assign_keys_wf {V} (key : nat -> string) (v : V) (ns : list nat) :
  forall d : Py.dict V,
    Py.wf d -> Py.wf (fold_left (fun d i => Py.set d (key i) v) ns d).
Proof.
  induction ns as [|i ns IH]; intros d H; cbn [fold_left]; [assumption|].
  apply IH. now apply wf_set.
Qed.

Lemma assign_prefixes_wf {V} (key : string -> nat -> string) (v : V)
    (ns : list nat) (prefixes : list string) :
  forall d : Py.dict V,
    Py.wf d ->
    Py.wf (fold_left
             (fun d prefix =>
                fold_left (fun d i => Py.set d (key prefix i) v) ns d)
             prefixes d).
Proof.
  induction prefixes as [|p prefixes IH]; intros d H; cbn [fold_left];
    [assumption|].
  apply IH. now apply assign_keys_wf.
Qed.

Lemma mapping_wf : Py.wf BuildEnhanced.download_zip_to_state_mapping.
Proof.
  unfold BuildEnhanced.download_zip_to_state_mapping, Py.items.
  assert (H : forall ranges (d : Py.dict string),
            Py.wf d ->
            Py.wf
              (fold_left
                 (fun zip_to_state '(state, prefixes) =>
                    fold_left
                      (fun zip_to_state prefix =>
                         fold_left
                           (fun zip_to_state i =>
                              Py.set zip_to_state
                                     (prefix ++ BuildEnhanced.fmt_0d 3 i)
                                     state)
                           (seq 0 1000) zip_to_state)
                      prefixes zip_to_state)
                 ranges d)).
  { induction ranges as [|[st ps] ranges IH]; intros d Hd; cbn [fold_left];
      [assumption|].
    apply IH.
    now apply (assign_prefixes_wf
                 (fun p i => p ++ BuildEnhanced.fmt_0d 3 i)). }
  apply H. constructor.
Qed.

Lemma owner_some {A V} (P : A -> bool) (f : A -> V) (l : list A) :
  forall o v,
    fold_left (fun owner kv => if P kv then Some (f kv) else owner) l o
    = Some v ->
    o = Some v \/ exists kv, In kv l /\ P kv = true /\ v = f kv.
Proof.
  induction l as [|a l IH]; intros o v H; cbn [fold_left] in H; [now left|].
  destruct (IH _ _ H) as [E|(kv & Hin & Hp & ->)].
  - destruct (P a) eqn:Pa; [|now left].
    injection E as <-. right. exists a. split; [now left|]. now split.
  - right. exists kv. split; [now right|]. now split.
Qed.
Lemma mem_get {V} (d : Py.dict V) k :
  In k (Py.keys d) -> exists v, Py.get d k = Some v.
Proof.
  intros H. apply mem_true_iff in H. unfold Py.mem in H.
  destruct (Py.get d k) as [v|]; [now exists v|discriminate].
Qed.

Lemma mapping_generated z st :
  Py.get BuildEnhanced.download_zip_to_state_mapping z = Some st ->
  exists p i,
    z = p ++ BuildEnhanced.fmt_0d 3 i /\ String.length p = 2 /\ i < 1000.
Proof.
  unfold BuildEnhanced.download_zip_to_state_mapping, Py.items.
  rewrite mapping_fold_get. cbn [Py.get]. intros E.
  apply owner_some in E. destruct E as [E|(kv & Hkv & Hp & _)];
    [discriminate|].
  apply existsb_exists in Hp. destruct Hp as (p & Hp & Hi).
  apply existsb_exists in Hi. destruct Hi as (i & Hi & Hzi).
  apply String.eqb_eq in Hzi. apply in_seq in Hi.
  pose proof range_lengths as L. rewrite Forall_forall in L.
  specialize (L kv Hkv). rewrite Forall_forall in L.
  exists p, i. split; [exact Hzi|]. split; [exact (L p Hp)|lia].
Qed.

(** X24. [download_zip_to_state_mapping] makes 1000 ZIPs for every
    two-digit prefix of its table, and nothing else, none of them twice;
    a ZIP gets the last state of the table that lists its prefix.  So
    the ZIPs of 02 are all labelled RI, also those of Massachusetts,
    whose list has 02 too, and a prefix listed nowhere, such as 46 and
    47, gives no ZIP. *)
Theorem zip_to_state_mapping_last_state_wins :
  (forall p i,
      String.length p = 2 -> i < 1000 ->
      Py.get BuildEnhanced.download_zip_to_state_mapping
             (p ++ BuildEnhanced.fmt_0d 3 i)
      = range_owner BuildEnhanced.state_zip_ranges p)
  /\ (forall z,
        In z (Py.keys BuildEnhanced.download_zip_to_state_mapping) ->
        exists p i,
          z = p ++ BuildEnhanced.fmt_0d 3 i /\ String.length p = 2
          /\ i < 1000
          /\ range_owner BuildEnhanced.state_zip_ranges p <> None)
  /\ Py.wf BuildEnhanced.download_zip_to_state_mapping
  /\ Py.get BuildEnhanced.state_zip_ranges "MA" = Some ["01"; "02"]
  /\ range_owner BuildEnhanced.state_zip_ranges "02" = Some "RI"
  /\ range_owner BuildEnhanced.state_zip_ranges "46" = None
  /\ range_owner BuildEnhanced.state_zip_ranges "47" = None.
Proof.
  split; [exact mapping_get|].
  split; [|split; [exact mapping_wf|repeat split]].
  intros z Hz. destruct (mem_get _ _ Hz) as [st E].
  destruct (mapping_generated z st E) as (p & i & Hzi & Hp & Hi).
  exists p, i. split; [exact Hzi|]. split; [exact Hp|]. split; [exact Hi|].
  rewrite <- (mapping_get p i Hp Hi), <- Hzi, E. discriminate.
Qed.

Lemma get_map_values {A V} (f : string -> A -> V) (d : Py.dict A) z :
  Py.get (map (fun kv => (fst kv, f (fst kv) (snd kv))) d) z
  = option_map (f z) (Py.get d z).
Proof.
  induction d as [|[k a] d IH]; [reflexivity|].
  simpl. destruct (String.eqb_spec k z) as [->|]; [reflexivity|exact IH].
Qed.

Lemma resolve_by (metro_rpp state_estimates : Py.dict (Py.dict num))
    z st by_metro :
  Py.get metro_rpp z = by_metro ->
  snd (BuildEnhanced.resolve metro_rpp state_estimates z st)
  = match by_metro with
    | Some d => mkInfo d st (Some ("METRO_" ++ Py.take 3 z))
    | None =>
        match Py.get state_estimates st with
        | Some d => mkInfo d st None
        | None => mkInfo (rpp 100.0%Q 100.0%Q 100.0%Q 100.0%Q) st None
        end
    end.
Proof.
  intros <-. unfold BuildEnhanced.resolve.
  destruct (Py.get metro_rpp z); [reflexivity|].
  destruct (Py.get state_estimates st); reflexivity.
Qed.

Lemma enhanced_get (zip_to_state : Py.dict string)
    (metro_rpp state_estimates : Py.dict (Py.dict num)) z :
  Py.wf zip_to_state ->
  Py.get (BuildEnhanced.final_data
            (BuildEnhanced.build zip_to_state metro_rpp state_estimates)) z
  = option_map
      (fun st => snd (BuildEnhanced.resolve metro_rpp state_estimates z st))
      (Py.get zip_to_state z).
Proof.
  intros Hwf. rewrite enhanced_data_map by exact Hwf.
  exact (get_map_values
           (fun z st => snd (BuildEnhanced.resolve metro_rpp state_estimates
                                                   z st))
           zip_to_state z).
Qed.

Lemma build_comprehensive_dataset_eq :
  BuildEnhanced.build_comprehensive_dataset
  = BuildEnhanced.build BuildEnhanced.download_zip_to_state_mapping
                        BuildEnhanced.get_metro_rpp_data
                        BuildEnhanced.get_state_estimates.
Proof. reflexivity. Qed.

Lemma append_assoc (a b c : string) : (a ++ b) ++ c = a ++ b ++ c.
Proof. induction a as [|x a IH]; simpl; [reflexivity|now rewrite IH]. Qed.

Lemma metro_get_zip p i :
  String.length p = 2 -> i < 1000 ->
  Py.get BuildEnhanced.get_metro_rpp_data (p ++ BuildEnhanced.fmt_0d 3 i)
  = metro_owner BuildEnhanced.metro_rpp_table
                BuildEnhanced.metro_zip_mappings
                (p ++ BuildEnhanced.fmt_0d 1 (i / 100)).
Proof.
  intros Hp Hi. destruct (fmt3_split i Hi) as [E Hd]. rewrite E.
  rewrite <- append_assoc. apply metro_get.
  - rewrite length_append. lia.
  - apply Nat.mod_upper_bound. discriminate.
Qed.

(** X25. The dataset of build_enhanced_dataset.py, ZIP by ZIP.  A ZIP
    made of a two-digit prefix and three more digits is in the output
    exactly when some state lists the prefix, and it then carries the
    last such state; its values are those of the last metro that lists
    its first three digits, with the synthetic code, and otherwise the
    estimates of its state (100.0 where the state has none). *)
Theorem enhanced_dataset_by_prefix :
  forall (p : string) (i : nat),
    String.length p = 2 -> i < 1000 ->
    let z := p ++ BuildEnhanced.fmt_0d 3 i in
    let by_metro :=
      metro_owner BuildEnhanced.metro_rpp_table
                  BuildEnhanced.metro_zip_mappings
                  (p ++ BuildEnhanced.fmt_0d 1 (i / 100)) in
    Py.get (BuildEnhanced.final_data BuildEnhanced.build_comprehensive_dataset)
           z
    = match range_owner BuildEnhanced.state_zip_ranges p with
      | None => None
      | Some st =>
          Some
            match by_metro with
            | Some d => mkInfo d st (Some ("METRO_" ++ Py.take 3 z))
            | None =>
                match Py.get BuildEnhanced.get_state_estimates st with
                | Some d => mkInfo d st None
                | None => mkInfo (rpp 100.0%Q 100.0%Q 100.0%Q 100.0%Q) st None
                end
            end
      end.
Proof.
  intros p i Hp Hi. cbv zeta.
  rewrite build_comprehensive_dataset_eq.
  rewrite (enhanced_get _ _ _ _ mapping_wf).
  rewrite (mapping_get p i Hp Hi).
  destruct (range_owner BuildEnhanced.state_zip_ranges p) as [st|];
    [|reflexivity].
  cbn [option_map]. apply (f_equal Some).
  apply resolve_by. exact (metro_get_zip p i Hp Hi).
Qed.

Lemma enhanced_dataset_by_prefix_witness :
  String.length "48" = 2 /\ 505 < 1000
  /\ Py.get (BuildEnhanced.final_data BuildEnhanced.build_comprehensive_dataset)
            ("48" ++ BuildEnhanced.fmt_0d 3 505)
     = Some (mkInfo (rpp 89.5%Q 85.0%Q 93.0%Q 92.0%Q) "MI" None).
Proof.
  split; [reflexivity|]. split; [lia|].
  pose proof (enhanced_dataset_by_prefix "48" 505 eq_refl) as H.
  cbv zeta in H. rewrite H by lia. vm_compute. reflexivity.
Defined.

(** ** A run of build_enhanced_dataset.py *)

Lemma owner_cases {A V} (g : option V -> A -> option V) (f : A -> V)
    (l : list A) :
  (forall o a, g o a = o \/ g o a = Some (f a)) ->
  forall o v,
    fold_left g l o = Some v -> o = Some v \/ exists a, In a l /\ v = f a.
Proof.
  intros Hg. induction l as [|a l IH]; intros o v H; cbn [fold_left] in H;
    [now left|].
  destruct (IH _ _ H) as [E|(b & Hin & ->)].
  - destruct (Hg o a) as [G|G]; rewrite G in E.
    + now left.
    + injection E as <-. right. exists a. split; [now left|reflexivity].
  - right. exists b. split; [now right|reflexivity].
Qed.

Lemma metro_values z d :
  Py.get BuildEnhanced.get_metro_rpp_data z = Some d ->
  exists kv, In kv BuildEnhanced.metro_rpp_table /\ d = snd kv.
Proof.
  unfold BuildEnhanced.get_metro_rpp_data, Py.items.
  rewrite metro_fold_get. cbn [Py.get]. intros E.
  apply (owner_cases _ snd) in E.
  - destruct E as [E|E]; [discriminate|exact E].
  - intros o a.
    destruct (Py.get BuildEnhanced.metro_zip_mappings (fst a)) as [ps|];
      [|now left].
    match goal with |- context [if ?b then _ else _] => destruct b end;
      [now right|now left].
Qed.

Lemma metro_table_keys :
  Forall (fun kv => Py.keys (snd kv)
                    = ["rpp_all"; "rpp_housing"; "rpp_goods"; "rpp_other"])
         BuildEnhanced.metro_rpp_table.
Proof. unfold BuildEnhanced.metro_rpp_table. repeat constructor. Qed.

Lemma estimates_table_keys :
  Forall (fun kv => Py.keys (snd kv)
                    = ["rpp_all"; "rpp_housing"; "rpp_goods"; "rpp_other"])
         state_estimates_table.
Proof. unfold state_estimates_table. repeat constructor. Qed.

Lemma rpp_keys_good d st c :
  Py.keys d = ["rpp_all"; "rpp_housing"; "rpp_goods"; "rpp_other"] ->
  good_info (mkInfo d st c).
Proof.
  intros H. unfold good_info, Py.wf. cbn [rpp_data]. rewrite H.
  split; [|split].
  - repeat constructor; simpl; intuition discriminate.
  - simpl. intuition discriminate.
  - simpl. intuition discriminate.
Qed.

Lemma enhanced_values_good (zip_to_state : Py.dict string)
    (metro_rpp state_estimates : Py.dict (Py.dict num)) :
  (forall z d, Py.get metro_rpp z = Some d ->
               Py.keys d
               = ["rpp_all"; "rpp_housing"; "rpp_goods"; "rpp_other"]) ->
  (forall st d, Py.get state_estimates st = Some d ->
                Py.keys d
                = ["rpp_all"; "rpp_housing"; "rpp_goods"; "rpp_other"]) ->
  forall kv,
    In kv (BuildEnhanced.final_data
             (BuildEnhanced.build zip_to_state metro_rpp state_estimates)) ->
    good_info (snd kv).
Proof.
  intros Hm Hs [z r] Hin. cbn [snd].
  destruct (enhanced_entries metro_rpp state_estimates
              (Py.items zip_to_state) (BuildEnhanced.mkBuild [] 0 0)
              ltac:(intros ? ? []) z r Hin) as [st ->].
  unfold BuildEnhanced.resolve.
  destruct (Py.get metro_rpp z) as [d|] eqn:E.
  - apply rpp_keys_good. exact (Hm z d E).
  - destruct (Py.get state_estimates st) as [d|] eqn:E'.
    + apply rpp_keys_good. exact (Hs st d E').
    + apply rpp_keys_good. reflexivity.
Qed.

Lemma enhanced_data_wf (zip_to_state : Py.dict string)
    (metro_rpp state_estimates : Py.dict (Py.dict num)) :
  Py.wf zip_to_state ->
  Py.wf (BuildEnhanced.final_data
           (BuildEnhanced.build zip_to_state metro_rpp state_estimates)).
Proof.
  intros Hwf. rewrite enhanced_data_map by exact Hwf.
  unfold Py.wf, Py.keys. rewrite map_map. exact Hwf.
Qed.

Lemma enhanced_dataset_good kv :
  In kv (BuildEnhanced.final_data BuildEnhanced.build_comprehensive_dataset) ->
  good_info (snd kv).
Proof.
  rewrite build_comprehensive_dataset_eq. apply enhanced_values_good.
  - intros z d E. destruct (metro_values z d E) as (x & Hx & ->).
    pose proof metro_table_keys as K. rewrite Forall_forall in K.
    exact (K x Hx).
  - intros st d E. apply get_some_in in E.
    pose proof estimates_table_keys as K. rewrite Forall_forall in K.
    exact (K _ E).
Qed.

Lemma enhanced_dataset_wf :
  Py.wf (BuildEnhanced.final_data BuildEnhanced.build_comprehensive_dataset).
Proof.
  rewrite build_comprehensive_dataset_eq. apply enhanced_data_wf.
  exact mapping_wf.
Qed.

Lemma write_files_unlimited (data : Py.dict zip_info) fs :
  BuildEnhanced.write_files true data (mkWorld fs None)
  = (Ok data,
     mkWorld (Py.set (Py.set fs "public/col_by_zip.json"
                             (Json.iterencode data))
                     "src/data/col_by_zip.json" (Json.iterencode data))
             None).
Proof.
  unfold BuildEnhanced.write_files, bind, ret.
  rewrite dump_json_unlimited. rewrite dump_json_unlimited. reflexivity.
Qed.

Lemma enhanced_main_eq src_dir w :
  BuildEnhanced.main src_dir w
  = match BuildEnhanced.write_files src_dir
            (BuildEnhanced.final_data BuildEnhanced.build_comprehensive_dataset)
            w with
    | (Ok _, w') => (0, w')
    | (Raise _, w') => (1, w')
    end.
Proof. reflexivity. Qed.

(** X26. A run of build_enhanced_dataset.py needs no input.  Where the
    directory src exists and the medium takes every write, it ends with
    status 0 and leaves the same text in the two lookup files; no other
    file is changed, and the loader of optimize_dataset.py reads the
    built table back from the file under src/data.  Where src does not
    exist, the run ends with status 1 before anything is written. *)
Theorem enhanced_run_hands_over :
  forall fs : Py.dict (list chunk),
    let final_data :=
      BuildEnhanced.final_data BuildEnhanced.build_comprehensive_dataset in
    let run := BuildEnhanced.main true (mkWorld fs None) in
    fst run = 0
    /\ snd run
       = mkWorld
           (Py.set (Py.set fs "public/col_by_zip.json"
                           (Json.iterencode final_data))
                   "src/data/col_by_zip.json" (Json.iterencode final_data))
           None
    /\ Optimize.load_full_dataset (snd run) = (Ok final_data, snd run)
    /\ (forall p, p <> "public/col_by_zip.json" ->
                  p <> "src/data/col_by_zip.json" ->
                  Py.get (files (snd run)) p = Py.get fs p)
    /\ (forall w, BuildEnhanced.main false w = (1, w)).
Proof.
  intros fs. cbv zeta. rewrite enhanced_main_eq, write_files_unlimited.
  cbn [fst snd files].
  split; [reflexivity|]. split; [reflexivity|]. split; [|split].
  - unfold Optimize.load_full_dataset.
    apply load_after_dump;
      [exact enhanced_dataset_wf|exact enhanced_dataset_good|].
    apply get_set_same.
  - intros p H1 H2. rewrite !get_set_other by congruence. reflexivity.
  - intros w. rewrite enhanced_main_eq. reflexivity.
Qed.
